(** * Exa Websets tools: a shallow embedding of the tool handlers

    The handlers of [websetOperations], [websetItems], [websetBatch] and
    [websetExport] are embedded as functions over JavaScript values in a
    small exception-and-trace monad.  Every HTTP call and every logger call
    is recorded in the trace, so that statements about "requests issued"
    are statements about the trace. *)

From Stdlib Require Import List String Ascii ZArith Bool Lia DecimalString.
Import ListNotations.
Local Open Scope list_scope.
Local Open Scope string_scope.
Set Warnings "-register-all".

(** ** JavaScript values *)

Module JS.

(** The values that flow through the handlers: arguments parsed from JSON,
    response bodies, and the objects the handlers build.  A number is
    given by an integer literal, [VNum n] being the number that [n]
    denotes; numbers with a fraction are left out.  An object is kept as
    its list of own properties, in enumeration order. *)
Inductive value : Type :=
| VUndefined
| VNull
| VBool (b : bool)
| VNum (n : Z)
| VStr (s : string)
| VArr (xs : list value)
| VObj (fields : list (string * value)).

(** What a [throw] can carry: an axios error (with the response when the
    server answered), any other [Error] instance, or an arbitrary value. *)
Record http_response : Type := mkResponse {
  status : Z;
  statusText : string;
  data : value
}.

Inductive thrown : Type :=
| AxiosError (message : string) (response : option http_response)
| JsError (message : string)
| NonError (v : value).

(** Completion of an evaluation: a value, or a throw. *)
Inductive completion (A : Type) : Type :=
| Normal (a : A)
| Throw (e : thrown).
Arguments Normal {A} a.
Arguments Throw {A} e.

(** Decimal digits of an integer. *)
Definition decimal (n : Z) : string := NilZero.string_of_int (Z.to_int n).

(** Numbers are binary64.  A literal below 2^53 denotes itself; a larger
    one denotes the nearest number with a mantissa of 53 bits, the even
    mantissa on a tie, and Infinity ([None]) from 2^1024 - 2^970 on. *)
Definition nearest_double (n : Z) : option Z :=
  let e := (Z.log2 n - 52)%Z in
  let m0 := Z.shiftr n e in
  let rest := (n - Z.shiftl m0 e)%Z in
  let half := Z.shiftl 1 (e - 1) in
  let m := if ((half <? rest) || ((rest =? half) && Z.odd m0))%Z then (m0 + 1)%Z else m0 in
  let x := Z.shiftl m e in
  if (Z.shiftl 1 1024 <=? x)%Z then None else Some x.

(** Whether the integer [v] reads back as the number [x >= 2^53]: it lies
    within half a spacing of [x] (the spacing below a power of two is half
    the spacing above it), the ends included when the mantissa of [x] is
    even.  All quantities are scaled by 4. *)
Definition reads_back (x v : Z) : bool :=
  let e := (Z.log2 x - 52)%Z in
  let m := Z.shiftr x e in
  let up := Z.shiftl 1 (e + 1) in
  let down := if (m =? Z.shiftl 1 52)%Z then Z.shiftl 1 e else up in
  let lo := (4 * x - down)%Z in
  let hi := (4 * x + up)%Z in
  if Z.even m then ((lo <=? 4 * v) && (4 * v <=? hi))%Z
  else ((lo <? 4 * v) && (4 * v <? hi))%Z.

(** The integer with the fewest significant digits that reads back as
    [x]; among those with [k] digits the one nearest to [x], the even one
    on a tie.  [digits] is the number of digits of [x]; 17 significant
    digits always suffice. *)
Fixpoint shortest (x digits k : Z) (fuel : nat) : Z :=
  match fuel with
  | O => x
  | S fuel' =>
      let p := (digits - k)%Z in
      if (p <=? 0)%Z then x
      else
        let unit := (10 ^ p)%Z in
        let below := (x / unit * unit)%Z in
        let above := (below + unit)%Z in
        match reads_back x below, reads_back x above with
        | true, true =>
            if (x - below <? above - x)%Z then below
            else if (above - x <? x - below)%Z then above
            else if Z.even (below / unit) then below else above
        | true, false => below
        | false, true => above
        | false, false => shortest x digits (k + 1) fuel'
        end
  end.

Fixpoint without_trailing_zeros (s : string) : string :=
  match s with
  | EmptyString => EmptyString
  | String c rest =>
      match without_trailing_zeros rest with
      | EmptyString => if Ascii.eqb c "0" then EmptyString else String c EmptyString
      | kept => String c kept
      end
  end.

(** [d.ddde+x] for an integer of more than 21 digits. *)
Definition exponent_form (digits : string) : string :=
  let exponent := decimal (Z.of_nat (String.length digits) - 1) in
  match without_trailing_zeros digits with
  | EmptyString => digits
  | String c EmptyString => String c ("e+" ++ exponent)
  | String c rest => String c ("." ++ rest ++ "e+" ++ exponent)
  end.

Definition string_of_magnitude (n : Z) : string :=
  if (n <? 9007199254740992)%Z then decimal n
  else
    match nearest_double n with
    | None => "Infinity"
    | Some x =>
        let digits :=
          decimal (shortest x (Z.of_nat (String.length (decimal x))) 1 17) in
        if (String.length digits <=? 21)%nat then digits else exponent_form digits
    end.

(** [Number::toString] of the number that the literal [n] denotes: its
    decimal digits below 2^53; above, the shortest digits that
    read back as the number, in exponent form from 1e21 on. *)
Definition string_of_Z (n : Z) : string :=
  if (n <? 0)%Z then "-" ++ string_of_magnitude (- n) else string_of_magnitude n.
Arguments string_of_Z : simpl never.

Definition string_of_nat (n : nat) : string := string_of_Z (Z.of_nat n).

(** [ToBoolean] *)
Definition truthy (v : value) : bool :=
  match v with
  | VUndefined | VNull => false
  | VBool b => b
  | VNum n => negb (Z.eqb n 0)
  | VStr s => negb (String.eqb s "")
  | VArr _ | VObj _ => true
  end.

Definition nullish (v : value) : bool :=
  match v with
  | VUndefined | VNull => true
  | _ => false
  end.

(** [ToString] of a value that holds no object with an own [toString]
    member: an array is its elements joined by commas, with [null] and
    [undefined] elements rendered empty, and an object is rendered by
    [Object.prototype.toString]. *)
Fixpoint text_of (v : value) : string :=
  match v with
  | VUndefined => "undefined"
  | VNull => "null"
  | VBool true => "true"
  | VBool false => "false"
  | VNum n => string_of_Z n
  | VStr s => s
  | VArr xs =>
      (fix join (l : list value) : string :=
         match l with
         | [] => ""
         | x :: rest =>
             let sx := if nullish x then "" else text_of x in
             match rest with
             | [] => sx
             | _ => sx ++ "," ++ join rest
             end
         end) xs
  | VObj _ => "[object Object]"
  end.

Definition has_own (k : string) (fields : list (string * value)) : bool :=
  existsb (fun kv => String.eqb (fst kv) k) fields.

(** Whether [ToString] can convert a value.  An own [toString] member
    shadows [Object.prototype.toString]; no member of a value that came
    from JSON is a function, so neither it nor [valueOf] yields a
    primitive.  An array is converted element by element. *)
Fixpoint convertible (v : value) : bool :=
  match v with
  | VObj fields => negb (has_own "toString" fields)
  | VArr xs => forallb convertible xs
  | _ => true
  end.

(** [ToString], as in a template literal, [String(v)], the subject of
    [RegExp.prototype.test]: a [TypeError] on what cannot be converted. *)
Definition ToString (v : value) : completion string :=
  if convertible v then Normal (text_of v)
  else Throw (JsError "Cannot convert object to primitive value").

(** Own-property lookup in a property list. *)
Fixpoint lookup (k : string) (fields : list (string * value)) : value :=
  match fields with
  | [] => VUndefined
  | (k', v) :: rest => if String.eqb k k' then v else lookup k rest
  end.

(** [v.k] with [v] already known not to be nullish: primitives and arrays
    have none of the property names used here, except [length]. *)
Definition prop (v : value) (k : string) : value :=
  match v with
  | VObj fields => lookup k fields
  | VArr xs => if String.eqb k "length" then VNum (Z.of_nat (List.length xs)) else VUndefined
  | VStr s => if String.eqb k "length" then VNum (Z.of_nat (String.length s)) else VUndefined
  | _ => VUndefined
  end.

(** [v.k]: a [TypeError] when [v] is [undefined] or [null]. *)
Definition get (v : value) (k : string) : completion value :=
  if nullish v
  then Throw (JsError ("Cannot read properties of " ++ text_of v ++ " (reading '" ++ k ++ "')"))
  else Normal (prop v k).

(** [v?.k] *)
Definition opt_get (v : value) (k : string) : value :=
  if nullish v then VUndefined else prop v k.

(** [a || b] *)
Definition js_or (a b : value) : value := if truthy a then a else b.

(** [v === 'literal'] *)
Definition strict_eq_str (v : value) (s : string) : bool :=
  match v with
  | VStr t => String.eqb t s
  | _ => false
  end.

(** [!!v] as a value *)
Definition not_not (v : value) : value := VBool (truthy v).

(** [{ k1, k2, ...rest } = obj]: the rest object drops the named keys. *)
Definition rest_without (keys : list string) (fields : list (string * value))
  : list (string * value) :=
  filter (fun kv => negb (existsb (String.eqb (fst kv)) keys)) fields.

(** [...(x && { k: x })] inside an object literal: the property is there
    exactly when [x] is truthy. *)
Definition spread_if (k : string) (x : value) : list (string * value) :=
  if truthy x then [(k, x)] else [].

End JS.
Import JS.

(** ** Strings *)

Fixpoint string_drop (n : nat) (s : string) : string :=
  match n, s with
  | O, _ => s
  | S n', String _ s' => string_drop n' s'
  | S _, EmptyString => EmptyString
  end.

(** First occurrence of [pat] in [s]: the text before it and the text after. *)
Fixpoint split_first (pat s : string) : option (string * string) :=
  if String.prefix pat s then Some ("", string_drop (String.length pat) s)
  else match s with
       | EmptyString => None
       | String c s' =>
           match split_first pat s' with
           | Some (before, after) => Some (String c before, after)
           | None => None
           end
       end.

(** [GetSubstitution] for a string pattern (no capture groups): [$$], [$&],
    [$`] and [$'] are expanded, every other character is copied. *)
Fixpoint substitution (matched before after template : string) : string :=
  match template with
  | EmptyString => EmptyString
  | String c rest =>
      if Ascii.eqb c "$" then
        match rest with
        | String d rest' =>
            if Ascii.eqb d "$" then String "$" (substitution matched before after rest')
            else if Ascii.eqb d "&" then matched ++ substitution matched before after rest'
            else if Ascii.eqb d "`" then before ++ substitution matched before after rest'
            else if Ascii.eqb d "'" then after ++ substitution matched before after rest'
            else String c (substitution matched before after rest)
        | EmptyString => String c EmptyString
        end
      else String c (substitution matched before after rest)
  end.

(** [s.replace(pat, replacement)] with a string pattern and a replacement
    declared as a string: only the first occurrence is replaced. *)
Definition replace (s pat : string) (replacement : value) : string :=
  match split_first pat s with
  | None => s
  | Some (before, after) =>
      before ++ substitution pat before after (text_of replacement) ++ after
  end.

(** ** Configuration, requests and the outside world *)

(** [API_CONFIG] lives in [config.js]; the handlers only read these
    members of it, so it is a parameter of the development. *)
Record Endpoints : Type := mkEndpoints {
  WEBSET_ITEMS : string;
  WEBSET_ITEM_BY_ID : string;
  WEBSET_MONITORS : string;
  WEBSET_MONITOR_BY_ID : string;
  WEBSET_MONITOR_RUNS : string;
  WEBSET_EXPORTS : string;
  WEBSET_EXPORT_BY_ID : string;
  IMPORTS : string;
  IMPORT_BY_ID : string;
  WEBHOOKS : string;
  WEBHOOK_BY_ID : string;
  WEBHOOK_ATTEMPTS : string;
  EVENTS : string;
  EVENT_BY_ID : string
}.

Record ApiConfig : Type := mkApiConfig {
  BASE_URL : string;
  REQUEST_TIMEOUT : Z;
  ENDPOINTS : Endpoints
}.

Inductive http_method : Type := GET | POST | PATCH | DELETE.

(** The [params] option of a request: a [URLSearchParams] (name/value
    pairs, in append order) or a plain object. *)
Inductive query : Type :=
| SearchParams (pairs : list (string * string))
| PlainParams (fields : list (string * value)).

Record request : Type := mkRequest {
  method : http_method;
  baseURL : option string;
  url : string;
  headers : list (string * value);
  params : option query;
  body : option value;
  timeout : option Z
}.

(** What one invocation leaves behind, in order. *)
Inductive event : Type :=
| Http (r : request)
| LogStart (requestId tool message : string)
| LogMessage (requestId tool message : string)
| LogError (requestId tool : string) (e : thrown)
| LogComplete (requestId tool : string).

(** What one invocation reads from outside: the [config] argument of the
    register function, [process.env.EXA_API_KEY], the answer of the remote
    service to a request, and the clock and random source behind the
    request identifier. *)
Record world : Type := mkWorld {
  config : value;
  env_EXA_API_KEY : value;
  network : request -> completion http_response;
  Date_now : Z;
  random_suffix : string
}.

(** The pairs axios puts in the query string: a [URLSearchParams] as it
    is, a plain object (of strings and numbers) without its [null] and
    [undefined] members. *)
Definition serialized_params (q : option query) : list (string * string) :=
  match q with
  | None => []
  | Some (SearchParams pairs) => pairs
  | Some (PlainParams fields) =>
      map (fun kv => (fst kv, text_of (snd kv)))
          (filter (fun kv => negb (nullish (snd kv))) fields)
  end.

Definition has_key (k : string) (pairs : list (string * string)) : bool :=
  existsb (fun kv => String.eqb (fst kv) k) pairs.

Definition has_param (k : string) (r : request) : bool :=
  has_key k (serialized_params (params r)).

Definition header (k : string) (r : request) : value := lookup k (headers r).

Fixpoint requests_of (tr : list event) : list request :=
  match tr with
  | [] => []
  | Http r :: rest => r :: requests_of rest
  | _ :: rest => requests_of rest
  end.

(** ** The handler monad: read the world, emit events, maybe throw *)

Definition M (A : Type) : Type := world -> completion A * list event.

Definition ret {A} (a : A) : M A := fun _ => (Normal a, []).

Definition bind {A B} (m : M A) (f : A -> M B) : M B :=
  fun w =>
    match m w with
    | (Normal a, tr) => let (c, tr') := f a w in (c, (tr ++ tr')%list)
    | (Throw e, tr) => (Throw e, tr)
    end.

Definition throw {A} (e : thrown) : M A := fun _ => (Throw e, []).

Definition lift {A} (c : completion A) : M A := fun _ => (c, []).

Definition emit (ev : event) : M unit := fun _ => (Normal tt, [ev]).

Definition ask : M world := fun w => (Normal w, []).

(** [try { body } catch (error) { handler }] *)
Definition try_catch {A} (body : M A) (handler : thrown -> M A) : M A :=
  fun w =>
    match body w with
    | (Normal a, tr) => (Normal a, tr)
    | (Throw e, tr) => let (c, tr') := handler e w in (c, (tr ++ tr')%list)
    end.

Declare Scope js_scope.
Delimit Scope js_scope with js.
Notation "x <- m ;; k" := (bind m (fun x => k))
  (at level 61, m at next level, right associativity) : js_scope.
Notation "m ;; k" := (bind m (fun _ => k))
  (at level 61, right associativity) : js_scope.
Notation "'let*' x := c 'in' k" := (bind (lift c) (fun x => k))
  (at level 61, x name, c at next level, right associativity) : js_scope.
Local Open Scope js_scope.

Notation "o ! k" := (lookup k o) (at level 8, left associativity, format "o ! k").

(** ** The runtime's regular expressions

    [new RegExp(pattern, flags)] either throws a [SyntaxError] or gives a
    regular expression; [test] (on a regular expression without the [g] and
    [y] flags) is a function of the subject string. *)
Class RegExpEngine : Type := {
  RegExp : Type;
  RegExp_new : string -> string -> completion RegExp;
  RegExp_test : RegExp -> string -> bool
}.

(** ** What the handlers share *)

(** [error instanceof Error ? error.message : String(error)] *)
Definition message_or_String (error : thrown) : completion string :=
  match error with
  | AxiosError m _ => Normal m
  | JsError m => Normal m
  | NonError v => ToString v
  end.

(** [error instanceof Error ? error.message : 'Unknown error occurred'] *)
Definition message_or_unknown (error : thrown) : string :=
  match error with
  | AxiosError m _ => m
  | JsError m => m
  | NonError _ => "Unknown error occurred"
  end.

Definition isAxiosError (error : thrown) : bool :=
  match error with
  | AxiosError _ _ => true
  | _ => false
  end.

(** [error.message] of an axios error *)
Definition error_message (error : thrown) : value :=
  match error with
  | AxiosError m _ => VStr m
  | JsError m => VStr m
  | NonError v => opt_get v "message"
  end.

(** [error.response?.status] and [error.response?.data] *)
Definition response_status (error : thrown) : value :=
  match error with
  | AxiosError _ (Some r) => VNum (status r)
  | _ => VUndefined
  end.

Definition response_data (error : thrown) : value :=
  match error with
  | AxiosError _ (Some r) => data r
  | _ => VUndefined
  end.

(** [{ content: [{ type: "text", text }] }] and the same with
    [isError: true] *)
Definition text_result (text : value) : value :=
  VObj [("content", VArr [VObj [("type", VStr "text"); ("text", text)]])].

Definition error_result (text : string) : value :=
  VObj [("content", VArr [VObj [("type", VStr "text"); ("text", VStr text)]]);
        ("isError", VBool true)].

(** The request logger of [utils/logger.js]. *)
Record logger : Type := mkLogger { logger_requestId : string; logger_tool : string }.

(** Modelled from the spec: [createRequestLogger] and the logger's methods
    are defined in [utils/logger.js]; in the spec's words the core "only
    emits structured log events through an injected logger interface", so
    each method appends one event and returns. *)
Definition createRequestLogger (requestId tool : string) : logger :=
  mkLogger requestId tool.

Definition logger_start (l : logger) (message : string) : M unit :=
  emit (LogStart (logger_requestId l) (logger_tool l) message).

Definition logger_log (l : logger) (message : string) : M unit :=
  emit (LogMessage (logger_requestId l) (logger_tool l) message).

Definition logger_error (l : logger) (error : thrown) : M unit :=
  emit (LogError (logger_requestId l) (logger_tool l) error).

Definition logger_complete (l : logger) : M unit :=
  emit (LogComplete (logger_requestId l) (logger_tool l)).

(** [`${tool}-${Date.now()}-${Math.random().toString(36).substring(2, 7)}`] *)
Definition new_requestId (tool : string) : M string :=
  w <- ask ;;
  ret (tool ++ "-" ++ string_of_Z (Date_now w) ++ "-" ++ random_suffix w).

(** [config?.exaApiKey || process.env.EXA_API_KEY || ''] *)
Definition api_key : M value :=
  w <- ask ;;
  ret (js_or (js_or (opt_get (config w) "exaApiKey") (env_EXA_API_KEY w)) (VStr "")).

Definition read_headers (key : value) : list (string * value) :=
  [("accept", VStr "application/json"); ("x-api-key", key)].

Definition write_headers (key : value) : list (string * value) :=
  [("accept", VStr "application/json");
   ("content-type", VStr "application/json");
   ("x-api-key", key)].

(** The one place that touches the network: the request is recorded and
    the world answers it, with a response or with an error.  A call that
    never settles is not represented. *)
Definition axios_send (r : request) : M http_response :=
  fun w => (network w r, [Http r]).

(** [axios.create({ baseURL, headers, timeout })] and the instance's verbs *)
Record axios_instance : Type := mkInstance {
  instance_baseURL : string;
  instance_headers : list (string * value);
  instance_timeout : Z
}.

Definition instance_request (i : axios_instance) (m : http_method) (u : string)
  (q : option query) (b : option value) : M http_response :=
  axios_send (mkRequest m (Some (instance_baseURL i)) u (instance_headers i) q b
                (Some (instance_timeout i))).

Definition instance_get i u q := instance_request i GET u q None.
Definition instance_post i u b := instance_request i POST u None (Some b).
Definition instance_patch i u b := instance_request i PATCH u None (Some b).
Definition instance_delete i u := instance_request i DELETE u None None.

(** The module-level verbs [axios.get(url, { headers, params })],
    [axios.post(url, body, { headers })], ... : no instance, hence no base
    URL and no timeout beyond what the call site passes (none does). *)
Definition axios_get (u : string) (h : list (string * value)) (q : option query) :=
  axios_send (mkRequest GET None u h q None None).
Definition axios_post (u : string) (b : value) (h : list (string * value)) :=
  axios_send (mkRequest POST None u h None (Some b) None).
Definition axios_patch (u : string) (b : value) (h : list (string * value)) :=
  axios_send (mkRequest PATCH None u h None (Some b) None).
Definition axios_delete (u : string) (h : list (string * value)) :=
  axios_send (mkRequest DELETE None u h None None None).

(** [if (x) params.append(k, x)] on a [URLSearchParams], for a parameter
    declared as a string, and [if (x) params.append(k, x.toString())] for
    one declared as a number *)
Definition append_if_truthy (k : string) (x : value) (params : list (string * string))
  : list (string * string) :=
  if truthy x then (params ++ [(k, text_of x)])%list else params.

(** [x.toString()] for a parameter declared as a boolean; [null] and
    [undefined] have no such method *)
Definition toString_method (x : value) : completion string :=
  if nullish x
  then Throw (JsError ("Cannot read properties of " ++ text_of x ++ " (reading 'toString')"))
  else Normal (text_of x).

(** [if (x !== undefined) params.append(k, x.toString())] *)
Definition append_if_defined (k : string) (x : value) (params : list (string * string))
  : completion (list (string * string)) :=
  match x with
  | VUndefined => Normal params
  | _ => match toString_method x with
         | Normal s => Normal (params ++ [(k, s)])%list
         | Throw e => Throw e
         end
  end.

(** The three [catch] blocks of the code base. *)

(** [websetOperations]: one message, whatever was thrown. *)
Definition catch_plain (label : string) (error : thrown) : M value :=
  let* message := message_or_String error in
  ret (error_result (label ++ " error: " ++ message)).

(** [websetItems]: axios errors are reported with the status code and the
    body's [error] member.  The status code is a number or ['unknown'];
    the body's member is whatever the remote service sent, and the
    template literal converts it. *)
Definition catch_items (l : logger) (label : string) (error : thrown) : M value :=
  logger_error l error ;;
  if isAxiosError error then
    let statusCode := js_or (response_status error) (VStr "unknown") in
    let errorMessage := js_or (opt_get (response_data error) "error") (error_message error) in
    let* message := ToString errorMessage in
    ret (error_result (label ++ " error (" ++ text_of statusCode ++ "): " ++ message))
  else
    let* message := message_or_String error in
    ret (error_result (label ++ " error: " ++ message)).

(** [websetBatch] and [websetExport]: the success/error envelope. *)
Definition catch_envelope (error : thrown) : M value :=
  if isAxiosError error then
    ret (VObj [("success", VBool false);
               ("error", js_or (opt_get (response_data error) "error") (error_message error));
               ("details", response_data error)])
  else
    ret (VObj [("success", VBool false);
               ("error", VStr (message_or_unknown error))]).

(** ** The catalogue of operations and their argument shapes *)

Module Op.

(** One constructor per registered tool, in registration order. *)
Inductive operation : Type :=
| create_import_exa | get_import_exa | list_imports_exa | update_import_exa
| delete_import_exa
| create_webset_monitor_exa | update_webset_monitor_exa | get_webset_monitor_exa
| list_webset_monitors_exa | delete_webset_monitor_exa | list_monitor_runs_exa
| get_monitor_run_exa
| create_webhook_exa | get_webhook_exa | list_webhooks_exa | update_webhook_exa
| delete_webhook_exa | list_webhook_attempts_exa
| list_events_exa | get_event_exa
| list_webset_items_exa | get_webset_item_exa | delete_webset_item_exa
| search_webset_items_exa
| update_webset_item_exa | batch_update_items_exa | batch_delete_items_exa
| batch_verify_items_exa
| create_export_exa | get_export_exa | list_exports_exa | delete_export_exa.

Definition all : list operation :=
  [create_import_exa; get_import_exa; list_imports_exa; update_import_exa;
   delete_import_exa;
   create_webset_monitor_exa; update_webset_monitor_exa; get_webset_monitor_exa;
   list_webset_monitors_exa; delete_webset_monitor_exa; list_monitor_runs_exa;
   get_monitor_run_exa;
   create_webhook_exa; get_webhook_exa; list_webhooks_exa; update_webhook_exa;
   delete_webhook_exa; list_webhook_attempts_exa;
   list_events_exa; get_event_exa;
   list_webset_items_exa; get_webset_item_exa; delete_webset_item_exa;
   search_webset_items_exa;
   update_webset_item_exa; batch_update_items_exa; batch_delete_items_exa;
   batch_verify_items_exa;
   create_export_exa; get_export_exa; list_exports_exa; delete_export_exa].

End Op.

(** The fragment of zod the tools use. *)
Inductive presence : Type :=
| Required
| Optional
| Default (d : value).

Inductive schema : Type :=
| z_string
| z_number
| z_boolean
| z_any
| z_enum (members : list string)
| z_array (element : schema)
| z_record (values : schema)
| z_object (shape : list (string * (presence * schema))).

Definition req (k : string) (s : schema) : string * (presence * schema) := (k, (Required, s)).
Definition opt (k : string) (s : schema) : string * (presence * schema) := (k, (Optional, s)).
Definition dflt (k : string) (s : schema) (d : value) : string * (presence * schema) :=
  (k, (Default d, s)).

Inductive parsed (A : Type) : Type :=
| Parsed (a : A)
| Invalid (issue : string).
Arguments Parsed {A} a.
Arguments Invalid {A} issue.

(** [schema.safeParse(v)]: the parsed value (unknown keys of an object
    stripped, defaults filled in) or the first issue. *)
Fixpoint parse (s : schema) (v : value) : parsed value :=
  match s with
  | z_string =>
      match v with
      | VStr _ => Parsed v
      | VUndefined => Invalid "Required"
      | _ => Invalid "Expected string"
      end
  | z_number =>
      match v with
      | VNum _ => Parsed v
      | VUndefined => Invalid "Required"
      | _ => Invalid "Expected number"
      end
  | z_boolean =>
      match v with
      | VBool _ => Parsed v
      | VUndefined => Invalid "Required"
      | _ => Invalid "Expected boolean"
      end
  | z_any => Parsed v
  | z_enum members =>
      match v with
      | VStr x =>
          if existsb (String.eqb x) members then Parsed v
          else Invalid ("Invalid enum value, received '" ++ x ++ "'")
      | VUndefined => Invalid "Required"
      | _ => Invalid "Invalid enum value"
      end
  | z_array element =>
      match v with
      | VArr xs =>
          (fix each (l : list value) : parsed value :=
             match l with
             | [] => Parsed (VArr [])
             | x :: rest =>
                 match parse element x with
                 | Invalid i => Invalid i
                 | Parsed y =>
                     match each rest with
                     | Parsed (VArr ys) => Parsed (VArr (y :: ys))
                     | other => other
                     end
                 end
             end) xs
      | VUndefined => Invalid "Required"
      | _ => Invalid "Expected array"
      end
  | z_record values =>
      match v with
      | VObj fields =>
          (fix each (l : list (string * value)) : parsed value :=
             match l with
             | [] => Parsed (VObj [])
             | (k, x) :: rest =>
                 match parse values x with
                 | Invalid i => Invalid i
                 | Parsed y =>
                     match each rest with
                     | Parsed (VObj ys) => Parsed (VObj ((k, y) :: ys))
                     | other => other
                     end
                 end
             end) fields
      | VUndefined => Invalid "Required"
      | _ => Invalid "Expected object"
      end
  | z_object shape =>
      match v with
      | VObj fields =>
          (fix each (l : list (string * (presence * schema))) : parsed value :=
             match l with
             | [] => Parsed (VObj [])
             | (k, (p, s')) :: rest =>
                 let x := lookup k fields in
                 let here :=
                   match p, x with
                   | Optional, VUndefined => Parsed VUndefined
                   | Default d, VUndefined => Parsed d
                   | _, _ => parse s' x
                   end in
                 match here with
                 | Invalid i => Invalid (k ++ ": " ++ i)
                 | Parsed y =>
                     match each rest with
                     | Parsed (VObj ys) =>
                         Parsed (VObj (match y with
                                       | VUndefined => ys
                                       | _ => (k, y) :: ys
                                       end))
                     | other => other
                     end
                 end
             end) shape
      | VUndefined => Invalid "Required"
      | _ => Invalid "Expected object"
      end
  end.

(** The argument shape each tool is registered with. *)
Definition verification_status : schema := z_enum ["verified"; "pending"; "failed"].
Definition cadence : schema := z_enum ["hourly"; "daily"; "weekly"; "monthly"].
Definition search_behavior : schema := z_enum ["override"; "append"].
Definition string_record : schema := z_record z_string.

Definition create_webhook_events : schema :=
  z_enum ["webset.created"; "webset.deleted"; "webset.paused"; "webset.idle";
          "webset.search.created"; "webset.search.completed"; "webset.search.canceled";
          "webset.item.created"; "webset.item.enriched";
          "import.created"; "import.completed";
          "webset.monitor.run.started"; "webset.monitor.run.completed"].

Definition update_webhook_events : schema :=
  z_enum ["webset.created"; "webset.deleted"; "webset.paused"; "webset.idle";
          "webset.search.created"; "webset.search.completed"; "webset.search.canceled";
          "webset.item.created"; "webset.item.enriched"; "webset.item.updated";
          "webset.item.deleted";
          "import.created"; "import.completed"; "import.processing"; "import.failed";
          "import.canceled";
          "webset.export.created"; "webset.export.completed"; "webset.export.failed";
          "webset.monitor.run.started"; "webset.monitor.run.completed";
          "webset.monitor.run.failed";
          "webhook.created"; "webhook.updated"; "webhook.deleted"].

Definition search_filters : schema :=
  z_object [opt "type" z_string;
            opt "verificationStatus" verification_status;
            opt "hasEnrichedData" z_boolean;
            opt "enrichmentStatus" (z_record (z_enum ["completed"; "pending"; "failed"]));
            opt "createdAfter" z_string;
            opt "createdBefore" z_string;
            opt "updatedAfter" z_string;
            opt "updatedBefore" z_string;
            opt "metadata" string_record;
            opt "urlPattern" z_string;
            opt "titlePattern" z_string].

Definition input_schema (op : Op.operation) : schema :=
  match op with
  | Op.create_import_exa =>
      z_object [req "sourceUrl" z_string;
                opt "fileType" (z_enum ["csv"; "json"; "txt"]);
                opt "websetId" z_string;
                opt "metadata" string_record]
  | Op.get_import_exa => z_object [req "importId" z_string]
  | Op.list_imports_exa =>
      z_object [opt "status"
                  (z_enum ["pending"; "processing"; "completed"; "failed"; "canceled"]);
                opt "websetId" z_string;
                opt "cursor" z_string;
                opt "limit" z_number]
  | Op.update_import_exa =>
      z_object [req "importId" z_string; req "status" (z_enum ["canceled"])]
  | Op.delete_import_exa => z_object [req "importId" z_string]
  | Op.create_webset_monitor_exa =>
      z_object [req "websetId" z_string;
                req "cadence" cadence;
                opt "query" z_string;
                opt "searchBehavior" search_behavior;
                opt "metadata" string_record]
  | Op.update_webset_monitor_exa =>
      z_object [req "websetId" z_string;
                req "monitorId" z_string;
                opt "cadence" cadence;
                opt "query" z_string;
                opt "status" (z_enum ["active"; "paused"]);
                opt "searchBehavior" search_behavior;
                opt "metadata" string_record]
  | Op.get_webset_monitor_exa =>
      z_object [req "websetId" z_string; req "monitorId" z_string]
  | Op.list_webset_monitors_exa =>
      z_object [req "websetId" z_string;
                opt "status" (z_enum ["active"; "paused"; "completed"; "error"]);
                opt "cursor" z_string;
                opt "limit" z_number]
  | Op.delete_webset_monitor_exa =>
      z_object [req "websetId" z_string; req "monitorId" z_string]
  | Op.list_monitor_runs_exa =>
      z_object [req "websetId" z_string;
                req "monitorId" z_string;
                opt "status" (z_enum ["started"; "completed"; "failed"]);
                opt "cursor" z_string;
                opt "limit" z_number]
  | Op.get_monitor_run_exa =>
      z_object [req "websetId" z_string; req "monitorId" z_string; req "runId" z_string]
  | Op.create_webhook_exa =>
      z_object [req "url" z_string;
                req "events" (z_array create_webhook_events);
                opt "description" z_string;
                opt "secret" z_string]
  | Op.get_webhook_exa => z_object [req "webhookId" z_string]
  | Op.list_webhooks_exa =>
      z_object [opt "status" (z_enum ["active"; "inactive"; "error"]);
                opt "cursor" z_string;
                opt "limit" z_number]
  | Op.update_webhook_exa =>
      z_object [req "webhookId" z_string;
                opt "url" z_string;
                opt "events" (z_array update_webhook_events);
                opt "description" z_string;
                opt "status" (z_enum ["active"; "inactive"])]
  | Op.delete_webhook_exa => z_object [req "webhookId" z_string]
  | Op.list_webhook_attempts_exa =>
      z_object [req "webhookId" z_string;
                opt "eventType" z_string;
                opt "cursor" z_string;
                opt "limit" z_number]
  | Op.list_events_exa =>
      z_object [opt "eventType" z_string;
                opt "websetId" z_string;
                opt "cursor" z_string;
                opt "limit" z_number]
  | Op.get_event_exa => z_object [req "eventId" z_string]
  | Op.list_webset_items_exa =>
      z_object [req "websetId" z_string;
                opt "cursor" z_string;
                opt "limit" z_number;
                opt "type" z_string;
                opt "verificationStatus" verification_status;
                opt "hasEnrichedData" z_boolean;
                opt "createdAfter" z_string;
                opt "createdBefore" z_string;
                opt "updatedAfter" z_string;
                opt "updatedBefore" z_string]
  | Op.get_webset_item_exa =>
      z_object [req "websetId" z_string; req "itemId" z_string]
  | Op.delete_webset_item_exa =>
      z_object [req "websetId" z_string; req "itemId" z_string]
  | Op.search_webset_items_exa =>
      z_object [req "websetId" z_string;
                opt "filters" search_filters;
                opt "cursor" z_string;
                opt "limit" z_number]
  | Op.update_webset_item_exa =>
      z_object [req "websetId" z_string;
                req "itemId" z_string;
                opt "metadata" string_record;
                opt "verification"
                  (z_object [req "status" verification_status; opt "reasoning" z_string]);
                opt "customFields" (z_record z_any)]
  | Op.batch_update_items_exa =>
      z_object [req "websetId" z_string;
                req "itemIds" (z_array z_string);
                req "updates"
                  (z_object [opt "metadata" string_record;
                             opt "addTags" (z_array z_string);
                             opt "removeTags" (z_array z_string);
                             opt "customFields" (z_record z_any)])]
  | Op.batch_delete_items_exa =>
      z_object [req "websetId" z_string; req "itemIds" (z_array z_string)]
  | Op.batch_verify_items_exa =>
      z_object [req "websetId" z_string;
                req "itemIds" (z_array z_string);
                req "status" verification_status;
                opt "reasoning" z_string]
  | Op.create_export_exa =>
      z_object [req "websetId" z_string;
                req "format" (z_enum ["csv"; "json"; "xlsx"]);
                opt "filters"
                  (z_object [opt "itemIds" (z_array z_string);
                             opt "verificationStatus" verification_status;
                             opt "hasEnrichedData" z_boolean;
                             opt "itemType" z_string]);
                opt "fields" (z_array z_string)]
  | Op.get_export_exa =>
      z_object [req "websetId" z_string; req "exportId" z_string]
  | Op.list_exports_exa =>
      z_object [req "websetId" z_string;
                dflt "limit" z_number (VNum 20);
                opt "cursor" z_string]
  | Op.delete_export_exa =>
      z_object [req "websetId" z_string; req "exportId" z_string]
  end.

(** ** The handlers

    Each handler takes the parsed arguments object, as its list of
    properties, and is written in two parts: the [try] block and, around
    it, the handler proper with what precedes the [try] and the [catch]
    block.  A logger that a handler creates and never uses is left out.

    A parameter is used at the type its shape declares ([websetId:
    string], [limit?: number], [hasEnrichedData?: boolean], ...): where
    the source turns one into text -- in a template literal, as the
    replacement of [replace], as a query value, as the source of a
    regular expression -- the model writes [text_of], which is [ToString]
    on every value of such a type.  What the remote service answered and
    what was thrown have no declared shape: they are converted by
    [ToString], which may throw. *)

Section Handlers.

(** [API_CONFIG] of [config.js], the runtime's [JSON.stringify(_, null, 2)]
    and its regular expressions. *)
Context (API_CONFIG : ApiConfig) (JSON_stringify : value -> value)
        {engine : RegExpEngine}.

Let E : Endpoints := ENDPOINTS API_CONFIG.

Definition args_t : Type := list (string * value).

(** [axios.create({ baseURL: API_CONFIG.BASE_URL, headers, timeout:
    API_CONFIG.REQUEST_TIMEOUT })] *)
Definition axios_create (h : list (string * value)) : axios_instance :=
  mkInstance (BASE_URL API_CONFIG) h (REQUEST_TIMEOUT API_CONFIG).

(** *** websetOperations: imports *)

Definition create_import_exa_try (l : logger) (args : args_t) : M value :=
  key <- api_key ;;
  let axiosInstance := axios_create (write_headers key) in
  let requestBody :=
    VObj ([("sourceUrl", args!"sourceUrl")]
            ++ spread_if "fileType" args!"fileType"
            ++ spread_if "websetId" args!"websetId"
            ++ spread_if "metadata" args!"metadata")%list in
  response <- instance_post axiosInstance (IMPORTS E) requestBody ;;
  let* id := get (data response) "id" in
  let* id := ToString id in
  logger_log l ("Import job created with ID: " ++ id) ;;
  ret (text_result (JSON_stringify (data response))).

Definition create_import_exa (args : args_t) : M value :=
  requestId <- new_requestId "create_import_exa" ;;
  let l := createRequestLogger requestId "create_import_exa" in
  logger_start l "Creating import job" ;;
  try_catch (create_import_exa_try l args)
    (fun error => logger_error l error ;; catch_plain "Create import" error).

Definition get_import_exa_try (args : args_t) : M value :=
  key <- api_key ;;
  let axiosInstance := axios_create (read_headers key) in
  let url := replace (IMPORT_BY_ID E) ":importId" args!"importId" in
  response <- instance_get axiosInstance url None ;;
  ret (text_result (JSON_stringify (data response))).

Definition get_import_exa (args : args_t) : M value :=
  requestId <- new_requestId "get_import_exa" ;;
  try_catch (get_import_exa_try args) (catch_plain "Get import").

Definition list_imports_exa_try (args : args_t) : M value :=
  key <- api_key ;;
  let axiosInstance := axios_create (read_headers key) in
  let params := [] in
  let params := append_if_truthy "status" args!"status" params in
  let params := append_if_truthy "websetId" args!"websetId" params in
  let params := append_if_truthy "cursor" args!"cursor" params in
  let params := append_if_truthy "limit" args!"limit" params in
  response <- instance_get axiosInstance (IMPORTS E) (Some (SearchParams params)) ;;
  ret (text_result (JSON_stringify (data response))).

Definition list_imports_exa (args : args_t) : M value :=
  requestId <- new_requestId "list_imports_exa" ;;
  try_catch (list_imports_exa_try args) (catch_plain "List imports").

Definition update_import_exa_try (args : args_t) : M value :=
  key <- api_key ;;
  let axiosInstance := axios_create (write_headers key) in
  let requestBody := VObj [("status", args!"status")] in
  let url := replace (IMPORT_BY_ID E) ":importId" args!"importId" in
  response <- instance_patch axiosInstance url requestBody ;;
  ret (text_result (JSON_stringify (data response))).

Definition update_import_exa (args : args_t) : M value :=
  requestId <- new_requestId "update_import_exa" ;;
  try_catch (update_import_exa_try args) (catch_plain "Update import").

Definition delete_import_exa_try (args : args_t) : M value :=
  key <- api_key ;;
  let axiosInstance := axios_create (read_headers key) in
  let url := replace (IMPORT_BY_ID E) ":importId" args!"importId" in
  instance_delete axiosInstance url ;;
  ret (text_result (VStr "Import deleted successfully")).

Definition delete_import_exa (args : args_t) : M value :=
  requestId <- new_requestId "delete_import_exa" ;;
  try_catch (delete_import_exa_try args) (catch_plain "Delete import").

(** *** websetOperations: monitors *)

Definition create_webset_monitor_exa_try (args : args_t) : M value :=
  let websetId := args!"websetId" in
  let monitorData := rest_without ["websetId"] args in
  key <- api_key ;;
  let axiosInstance := axios_create (write_headers key) in
  let requestBody :=
    VObj ([("websetId", websetId); ("cadence", monitorData!"cadence")]
            ++ spread_if "query" monitorData!"query"
            ++ spread_if "searchBehavior" monitorData!"searchBehavior"
            ++ spread_if "metadata" monitorData!"metadata")%list in
  let url := replace (WEBSET_MONITORS E) ":websetId" websetId in
  response <- instance_post axiosInstance url requestBody ;;
  ret (text_result (JSON_stringify (data response))).

Definition create_webset_monitor_exa (args : args_t) : M value :=
  requestId <- new_requestId "create_webset_monitor_exa" ;;
  try_catch (create_webset_monitor_exa_try args) (catch_plain "Create monitor").

Definition update_webset_monitor_exa_try (args : args_t) : M value :=
  let websetId := args!"websetId" in
  let monitorId := args!"monitorId" in
  let updateData := rest_without ["websetId"; "monitorId"] args in
  key <- api_key ;;
  let axiosInstance := axios_create (write_headers key) in
  let requestBody := VObj updateData in
  let url := replace (replace (WEBSET_MONITOR_BY_ID E) ":websetId" websetId)
               ":monitorId" monitorId in
  response <- instance_patch axiosInstance url requestBody ;;
  ret (text_result (JSON_stringify (data response))).

Definition update_webset_monitor_exa (args : args_t) : M value :=
  requestId <- new_requestId "update_webset_monitor_exa" ;;
  try_catch (update_webset_monitor_exa_try args) (catch_plain "Update monitor").

Definition get_webset_monitor_exa_try (args : args_t) : M value :=
  key <- api_key ;;
  let axiosInstance := axios_create (read_headers key) in
  let url := replace (replace (WEBSET_MONITOR_BY_ID E) ":websetId" args!"websetId")
               ":monitorId" args!"monitorId" in
  response <- instance_get axiosInstance url None ;;
  ret (text_result (JSON_stringify (data response))).

Definition get_webset_monitor_exa (args : args_t) : M value :=
  requestId <- new_requestId "get_webset_monitor_exa" ;;
  try_catch (get_webset_monitor_exa_try args) (catch_plain "Get monitor").

Definition list_webset_monitors_exa_try (args : args_t) : M value :=
  key <- api_key ;;
  let axiosInstance := axios_create (read_headers key) in
  let params := [] in
  let params := append_if_truthy "status" args!"status" params in
  let params := append_if_truthy "cursor" args!"cursor" params in
  let params := append_if_truthy "limit" args!"limit" params in
  let url := replace (WEBSET_MONITORS E) ":websetId" args!"websetId" in
  response <- instance_get axiosInstance url (Some (SearchParams params)) ;;
  ret (text_result (JSON_stringify (data response))).

Definition list_webset_monitors_exa (args : args_t) : M value :=
  requestId <- new_requestId "list_webset_monitors_exa" ;;
  try_catch (list_webset_monitors_exa_try args) (catch_plain "List monitors").

Definition delete_webset_monitor_exa_try (args : args_t) : M value :=
  key <- api_key ;;
  let axiosInstance := axios_create (read_headers key) in
  let url := replace (replace (WEBSET_MONITOR_BY_ID E) ":websetId" args!"websetId")
               ":monitorId" args!"monitorId" in
  instance_delete axiosInstance url ;;
  ret (text_result (VStr "Monitor deleted successfully")).

Definition delete_webset_monitor_exa (args : args_t) : M value :=
  requestId <- new_requestId "delete_webset_monitor_exa" ;;
  try_catch (delete_webset_monitor_exa_try args) (catch_plain "Delete monitor").

Definition list_monitor_runs_exa_try (args : args_t) : M value :=
  key <- api_key ;;
  let axiosInstance := axios_create (read_headers key) in
  let params := [] in
  let params := append_if_truthy "status" args!"status" params in
  let params := append_if_truthy "cursor" args!"cursor" params in
  let params := append_if_truthy "limit" args!"limit" params in
  let url := replace (replace (WEBSET_MONITOR_RUNS E) ":websetId" args!"websetId")
               ":monitorId" args!"monitorId" in
  response <- instance_get axiosInstance url (Some (SearchParams params)) ;;
  ret (text_result (JSON_stringify (data response))).

Definition list_monitor_runs_exa (args : args_t) : M value :=
  requestId <- new_requestId "list_monitor_runs_exa" ;;
  try_catch (list_monitor_runs_exa_try args) (catch_plain "List monitor runs").

Definition get_monitor_run_exa_try (args : args_t) : M value :=
  key <- api_key ;;
  let axiosInstance := axios_create (read_headers key) in
  let url := replace (replace (WEBSET_MONITOR_RUNS E ++ "/" ++ text_of args!"runId")
                        ":websetId" args!"websetId")
               ":monitorId" args!"monitorId" in
  response <- instance_get axiosInstance url None ;;
  ret (text_result (JSON_stringify (data response))).

Definition get_monitor_run_exa (args : args_t) : M value :=
  requestId <- new_requestId "get_monitor_run_exa" ;;
  try_catch (get_monitor_run_exa_try args) (catch_plain "Get monitor run").

(** *** websetOperations: webhooks *)

Definition create_webhook_exa_try (args : args_t) : M value :=
  key <- api_key ;;
  let axiosInstance := axios_create (write_headers key) in
  let requestBody :=
    VObj ([("url", args!"url"); ("events", args!"events")]
            ++ spread_if "description" args!"description"
            ++ spread_if "secret" args!"secret")%list in
  response <- instance_post axiosInstance (WEBHOOKS E) requestBody ;;
  ret (text_result (JSON_stringify (data response))).

Definition create_webhook_exa (args : args_t) : M value :=
  requestId <- new_requestId "create_webhook_exa" ;;
  try_catch (create_webhook_exa_try args) (catch_plain "Create webhook").

Definition get_webhook_exa_try (args : args_t) : M value :=
  key <- api_key ;;
  let axiosInstance := axios_create (read_headers key) in
  let url := replace (WEBHOOK_BY_ID E) ":webhookId" args!"webhookId" in
  response <- instance_get axiosInstance url None ;;
  ret (text_result (JSON_stringify (data response))).

Definition get_webhook_exa (args : args_t) : M value :=
  requestId <- new_requestId "get_webhook_exa" ;;
  try_catch (get_webhook_exa_try args) (catch_plain "Get webhook").

Definition list_webhooks_exa_try (args : args_t) : M value :=
  key <- api_key ;;
  let axiosInstance := axios_create (read_headers key) in
  let params := [] in
  let params := append_if_truthy "status" args!"status" params in
  let params := append_if_truthy "cursor" args!"cursor" params in
  let params := append_if_truthy "limit" args!"limit" params in
  response <- instance_get axiosInstance (WEBHOOKS E) (Some (SearchParams params)) ;;
  ret (text_result (JSON_stringify (data response))).

Definition list_webhooks_exa (args : args_t) : M value :=
  requestId <- new_requestId "list_webhooks_exa" ;;
  try_catch (list_webhooks_exa_try args) (catch_plain "List webhooks").

Definition update_webhook_exa_try (args : args_t) : M value :=
  let webhookId := args!"webhookId" in
  let updateData := rest_without ["webhookId"] args in
  key <- api_key ;;
  let axiosInstance := axios_create (write_headers key) in
  let requestBody := [] in
  let requestBody := (requestBody ++ spread_if "url" updateData!"url")%list in
  let requestBody := (requestBody ++ spread_if "events" updateData!"events")%list in
  let requestBody :=
    match updateData!"description" with
    | VUndefined => requestBody
    | description => (requestBody ++ [("description", description)])%list
    end in
  let requestBody := (requestBody ++ spread_if "status" updateData!"status")%list in
  let url := replace (WEBHOOK_BY_ID E) ":webhookId" webhookId in
  response <- instance_patch axiosInstance url (VObj requestBody) ;;
  ret (text_result (JSON_stringify (data response))).

Definition update_webhook_exa (args : args_t) : M value :=
  requestId <- new_requestId "update_webhook_exa" ;;
  try_catch (update_webhook_exa_try args) (catch_plain "Update webhook").

Definition delete_webhook_exa_try (args : args_t) : M value :=
  key <- api_key ;;
  let axiosInstance := axios_create (read_headers key) in
  let url := replace (WEBHOOK_BY_ID E) ":webhookId" args!"webhookId" in
  instance_delete axiosInstance url ;;
  ret (text_result (VStr "Webhook deleted successfully")).

Definition delete_webhook_exa (args : args_t) : M value :=
  requestId <- new_requestId "delete_webhook_exa" ;;
  try_catch (delete_webhook_exa_try args) (catch_plain "Delete webhook").

Definition list_webhook_attempts_exa_try (args : args_t) : M value :=
  key <- api_key ;;
  let axiosInstance := axios_create (read_headers key) in
  let params := [] in
  let params := append_if_truthy "eventType" args!"eventType" params in
  let params := append_if_truthy "cursor" args!"cursor" params in
  let params := append_if_truthy "limit" args!"limit" params in
  let url := replace (WEBHOOK_ATTEMPTS E) ":webhookId" args!"webhookId" in
  response <- instance_get axiosInstance url (Some (SearchParams params)) ;;
  ret (text_result (JSON_stringify (data response))).

Definition list_webhook_attempts_exa (args : args_t) : M value :=
  requestId <- new_requestId "list_webhook_attempts_exa" ;;
  try_catch (list_webhook_attempts_exa_try args) (catch_plain "List webhook attempts").

(** *** websetOperations: events *)

Definition list_events_exa_try (args : args_t) : M value :=
  key <- api_key ;;
  let axiosInstance := axios_create (read_headers key) in
  let params := [] in
  let params := append_if_truthy "eventType" args!"eventType" params in
  let params := append_if_truthy "websetId" args!"websetId" params in
  let params := append_if_truthy "cursor" args!"cursor" params in
  let params := append_if_truthy "limit" args!"limit" params in
  response <- instance_get axiosInstance (EVENTS E) (Some (SearchParams params)) ;;
  ret (text_result (JSON_stringify (data response))).

Definition list_events_exa (args : args_t) : M value :=
  requestId <- new_requestId "list_events_exa" ;;
  try_catch (list_events_exa_try args) (catch_plain "List events").

Definition get_event_exa_try (args : args_t) : M value :=
  key <- api_key ;;
  let axiosInstance := axios_create (read_headers key) in
  let url := replace (EVENT_BY_ID E) ":eventId" args!"eventId" in
  response <- instance_get axiosInstance url None ;;
  ret (text_result (JSON_stringify (data response))).

Definition get_event_exa (args : args_t) : M value :=
  requestId <- new_requestId "get_event_exa" ;;
  try_catch (get_event_exa_try args) (catch_plain "Get event").

(** *** websetItems *)

(** [xs.map(f)] and [xs.filter(f)] with a callback that may throw; a
    [TypeError] when [xs] is not an array, worded after the expression
    [receiver] that [xs] is the value of. *)
Fixpoint map_completion {A B} (f : A -> completion B) (xs : list A) : completion (list B) :=
  match xs with
  | [] => Normal []
  | x :: rest =>
      match f x with
      | Throw e => Throw e
      | Normal y =>
          match map_completion f rest with
          | Throw e => Throw e
          | Normal ys => Normal (y :: ys)
          end
      end
  end.

Fixpoint filter_completion {A} (f : A -> completion bool) (xs : list A) : completion (list A) :=
  match xs with
  | [] => Normal []
  | x :: rest =>
      match f x with
      | Throw e => Throw e
      | Normal b =>
          match filter_completion f rest with
          | Throw e => Throw e
          | Normal ys => Normal (if b then x :: ys else ys)
          end
      end
  end.

Definition array_map (receiver : string) (v : value) (f : value -> completion value)
  : completion value :=
  match v with
  | VArr xs =>
      match map_completion f xs with
      | Normal ys => Normal (VArr ys)
      | Throw e => Throw e
      end
  | _ => if nullish v
         then Throw (JsError ("Cannot read properties of " ++ text_of v ++ " (reading 'map')"))
         else Throw (JsError (receiver ++ ".map is not a function"))
  end.

Definition array_filter (receiver : string) (v : value) (f : value -> completion bool)
  : completion value :=
  match v with
  | VArr xs =>
      match filter_completion f xs with
      | Normal ys => Normal (VArr ys)
      | Throw e => Throw e
      end
  | _ => if nullish v
         then Throw (JsError ("Cannot read properties of " ++ text_of v ++ " (reading 'filter')"))
         else Throw (JsError (receiver ++ ".filter is not a function"))
  end.

(** [Object.keys(v).length] for a truthy [v] *)
Definition keys_length (v : value) : nat :=
  match v with
  | VObj fields => List.length fields
  | VArr xs => List.length xs
  | VStr s => String.length s
  | _ => 0
  end.

(** [Object.entries(v)]: the members of an object, the elements of an
    array and the characters of a string under their indices; nothing for
    a number or a boolean. *)
Definition Object_entries (v : value) : list (string * value) :=
  match v with
  | VObj fields => fields
  | VArr xs => combine (map string_of_nat (seq 0 (List.length xs))) xs
  | VStr s =>
      combine (map string_of_nat (seq 0 (String.length s)))
              (map (fun c => VStr (String c "")) (list_ascii_of_string s))
  | _ => []
  end.

(** The object [list_webset_items_exa] reports for one item. *)
Definition list_item_view (item : value) : completion value :=
  match get item "id" with
  | Throw e => Throw e
  | Normal id =>
      let enrichedData := prop item "enrichedData" in
      Normal (VObj [("id", id);
                    ("url", prop item "url");
                    ("title", prop item "title");
                    ("type", prop item "type");
                    ("verificationStatus", opt_get (prop item "verification") "status");
                    ("hasEnrichedData",
                      VBool (truthy enrichedData && (0 <? keys_length enrichedData)%nat));
                    ("createdAt", prop item "createdAt");
                    ("updatedAt", prop item "updatedAt")])
  end.

Definition list_webset_items_exa_try (l : logger) (args : args_t) : M value :=
  let websetId := args!"websetId" in
  let cursor := args!"cursor" in
  let limit := args!"limit" in
  let filters := rest_without ["websetId"; "cursor"; "limit"] args in
  key <- api_key ;;
  let axiosInstance := axios_create (read_headers key) in
  let params := [] in
  let params := append_if_truthy "cursor" cursor params in
  let params := append_if_truthy "limit" limit params in
  let params := append_if_truthy "type" filters!"type" params in
  let params := append_if_truthy "verificationStatus" filters!"verificationStatus" params in
  let* params := append_if_defined "hasEnrichedData" filters!"hasEnrichedData" params in
  let params := append_if_truthy "createdAfter" filters!"createdAfter" params in
  let params := append_if_truthy "createdBefore" filters!"createdBefore" params in
  let params := append_if_truthy "updatedAfter" filters!"updatedAfter" params in
  let params := append_if_truthy "updatedBefore" filters!"updatedBefore" params in
  let url := replace (WEBSET_ITEMS E) ":websetId" websetId in
  response <- instance_get axiosInstance url (Some (SearchParams params)) ;;
  let* page := get (data response) "data" in
  let* retrieved := get page "length" in
  let* count := ToString retrieved in
  logger_log l ("Retrieved " ++ count ++ " items") ;;
  let* items := array_map "response.data.data" page list_item_view in
  let formattedResult :=
    VObj [("websetId", websetId);
          ("itemCount", retrieved);
          ("hasMore", prop (data response) "hasMore");
          ("nextCursor", prop (data response) "nextCursor");
          ("items", items)] in
  let result := text_result (JSON_stringify formattedResult) in
  logger_complete l ;;
  ret result.

Definition list_webset_items_exa (args : args_t) : M value :=
  requestId <- new_requestId "list_webset_items_exa" ;;
  let l := createRequestLogger requestId "list_webset_items_exa" in
  logger_start l ("Listing items for Webset: " ++ text_of args!"websetId") ;;
  try_catch (list_webset_items_exa_try l args) (catch_items l "List items").

Definition get_webset_item_exa_try (l : logger) (args : args_t) : M value :=
  key <- api_key ;;
  let axiosInstance := axios_create (read_headers key) in
  let url := replace (replace (WEBSET_ITEM_BY_ID E) ":websetId" args!"websetId")
               ":itemId" args!"itemId" in
  response <- instance_get axiosInstance url None ;;
  logger_log l "Retrieved item successfully" ;;
  let result := text_result (JSON_stringify (data response)) in
  logger_complete l ;;
  ret result.

Definition get_webset_item_exa (args : args_t) : M value :=
  requestId <- new_requestId "get_webset_item_exa" ;;
  let l := createRequestLogger requestId "get_webset_item_exa" in
  logger_start l ("Getting item " ++ text_of args!"itemId" ++ " from Webset "
                    ++ text_of args!"websetId") ;;
  try_catch (get_webset_item_exa_try l args) (catch_items l "Get item").

Definition delete_webset_item_exa_try (l : logger) (args : args_t) : M value :=
  key <- api_key ;;
  let axiosInstance := axios_create (read_headers key) in
  let url := replace (replace (WEBSET_ITEM_BY_ID E) ":websetId" args!"websetId")
               ":itemId" args!"itemId" in
  instance_delete axiosInstance url ;;
  logger_log l "Item deleted successfully" ;;
  let result :=
    text_result (VStr ("Item " ++ text_of args!"itemId"
                         ++ " has been successfully deleted from Webset "
                         ++ text_of args!"websetId" ++ ".")) in
  logger_complete l ;;
  ret result.

Definition delete_webset_item_exa (args : args_t) : M value :=
  requestId <- new_requestId "delete_webset_item_exa" ;;
  let l := createRequestLogger requestId "delete_webset_item_exa" in
  logger_start l ("Deleting item " ++ text_of args!"itemId" ++ " from Webset "
                    ++ text_of args!"websetId") ;;
  try_catch (delete_webset_item_exa_try l args) (catch_items l "Delete item").

(** The query string of [search_webset_items_exa]: the server-side
    filters, then one [metadata.<key>] and one [enrichmentStatus.<key>]
    pair per entry. *)
Definition dotted_entries (name : string) (v : value) (params : list (string * string))
  : list (string * string) :=
  if truthy v
  then (params ++ map (fun kv => ((name ++ "." ++ fst kv)%string, text_of (snd kv)))
                    (Object_entries v))%list
  else params.

Definition search_params (filters cursor limit : value) : completion (list (string * string)) :=
  let params := [] in
  let params := append_if_truthy "cursor" cursor params in
  let params := append_if_truthy "limit" limit params in
  let params := append_if_truthy "type" (opt_get filters "type") params in
  let params :=
    append_if_truthy "verificationStatus" (opt_get filters "verificationStatus") params in
  match append_if_defined "hasEnrichedData" (opt_get filters "hasEnrichedData") params with
  | Throw e => Throw e
  | Normal params =>
      let params := append_if_truthy "createdAfter" (opt_get filters "createdAfter") params in
      let params := append_if_truthy "createdBefore" (opt_get filters "createdBefore") params in
      let params := append_if_truthy "updatedAfter" (opt_get filters "updatedAfter") params in
      let params := append_if_truthy "updatedBefore" (opt_get filters "updatedBefore") params in
      let params := dotted_entries "metadata" (opt_get filters "metadata") params in
      let params :=
        dotted_entries "enrichmentStatus" (opt_get filters "enrichmentStatus") params in
      Normal params
  end.

(** The client-side pattern filters: [filteredItems] after the two [if]
    blocks, starting from the page the server returned. *)
Definition url_matches (urlRegex : RegExp) (item : value) : completion bool :=
  match get item "url" with
  | Throw e => Throw e
  | Normal u =>
      match ToString u with
      | Throw e => Throw e
      | Normal subject => Normal (RegExp_test urlRegex subject)
      end
  end.

Definition title_matches (titleRegex : RegExp) (item : value) : completion bool :=
  match get item "title" with
  | Throw e => Throw e
  | Normal t =>
      if truthy t then
        match ToString t with
        | Throw e => Throw e
        | Normal subject => Normal (RegExp_test titleRegex subject)
        end
      else Normal false
  end.

Definition apply_pattern (pattern : value) (test : RegExp -> value -> completion bool)
  (items : value) : completion value :=
  if truthy pattern then
    match RegExp_new (text_of pattern) "i" with
    | Throw e => Throw e
    | Normal regex => array_filter "filteredItems" items (test regex)
    end
  else Normal items.

Definition filteredItems (filters : value) (page : value) : completion value :=
  match apply_pattern (opt_get filters "urlPattern") url_matches page with
  | Throw e => Throw e
  | Normal items => apply_pattern (opt_get filters "titlePattern") title_matches items
  end.

(** The object [search_webset_items_exa] reports for one item. *)
Definition search_item_view (item : value) : completion value :=
  match get item "id" with
  | Throw e => Throw e
  | Normal id =>
      Normal (VObj [("id", id);
                    ("url", prop item "url");
                    ("title", prop item "title");
                    ("type", prop item "type");
                    ("verification", prop item "verification");
                    ("enrichedData", prop item "enrichedData");
                    ("metadata", prop item "metadata");
                    ("createdAt", prop item "createdAt");
                    ("updatedAt", prop item "updatedAt")])
  end.

(** [formattedResult] of [search_webset_items_exa], from the response body
    and the filtered items. *)
Definition search_formattedResult (websetId filters body filtered : value)
  : completion value :=
  match get filtered "length" with
  | Throw e => Throw e
  | Normal matching =>
      match array_map "filteredItems" filtered search_item_view with
      | Throw e => Throw e
      | Normal items =>
          Normal (VObj [("websetId", websetId);
                        ("matchingItems", matching);
                        ("hasMore", prop body "hasMore");
                        ("nextCursor", prop body "nextCursor");
                        ("filters", filters);
                        ("items", items)])
      end
  end.

Definition search_webset_items_exa_try (l : logger) (args : args_t) : M value :=
  let websetId := args!"websetId" in
  let filters := args!"filters" in
  let cursor := args!"cursor" in
  let limit := args!"limit" in
  key <- api_key ;;
  let axiosInstance := axios_create (read_headers key) in
  let* params := search_params filters cursor limit in
  let url := replace (WEBSET_ITEMS E) ":websetId" websetId in
  response <- instance_get axiosInstance url (Some (SearchParams params)) ;;
  let* page := get (data response) "data" in
  let* filtered := filteredItems filters page in
  let* retrieved := get page "length" in
  let* count := ToString retrieved in
  let* kept := get filtered "length" in
  let* kept := ToString kept in
  logger_log l ("Retrieved " ++ count ++ " items, filtered to " ++ kept) ;;
  let* formattedResult := search_formattedResult websetId filters (data response) filtered in
  let result := text_result (JSON_stringify formattedResult) in
  logger_complete l ;;
  ret result.

Definition search_webset_items_exa (args : args_t) : M value :=
  requestId <- new_requestId "search_webset_items_exa" ;;
  let l := createRequestLogger requestId "search_webset_items_exa" in
  logger_start l ("Searching items in Webset: " ++ text_of args!"websetId") ;;
  try_catch (search_webset_items_exa_try l args) (catch_items l "Search items").

(** *** websetBatch *)

Definition update_webset_item_exa_try (args : args_t) : M value :=
  let websetId := args!"websetId" in
  let itemId := args!"itemId" in
  let updateData := rest_without ["websetId"; "itemId"] args in
  let endpoint := replace (replace (WEBSET_ITEM_BY_ID E) ":websetId" websetId)
                    ":itemId" itemId in
  let body :=
    VObj (spread_if "metadata" updateData!"metadata"
            ++ spread_if "verification" updateData!"verification"
            ++ spread_if "customFields" updateData!"customFields")%list in
  key <- api_key ;;
  response <- axios_patch (BASE_URL API_CONFIG ++ endpoint) body (write_headers key) ;;
  ret (VObj [("success", VBool true);
             ("data", data response);
             ("message", VStr "Item updated successfully")]).

Definition update_webset_item_exa (args : args_t) : M value :=
  try_catch (update_webset_item_exa_try args) catch_envelope.

Definition batch_update_items_exa_try (args : args_t) : M value :=
  let websetId := args!"websetId" in
  let itemIds := args!"itemIds" in
  let updates := args!"updates" in
  let endpoint := replace (WEBSET_ITEMS E ++ "/batch-update") ":websetId" websetId in
  let body := VObj [("itemIds", itemIds); ("updates", updates)] in
  key <- api_key ;;
  response <- axios_post (BASE_URL API_CONFIG ++ endpoint) body (write_headers key) ;;
  let* count := get itemIds "length" in
  ret (VObj [("success", VBool true);
             ("data", data response);
             ("message", VStr ("Successfully updated " ++ text_of count ++ " items"))]).

Definition batch_update_items_exa (args : args_t) : M value :=
  try_catch (batch_update_items_exa_try args) catch_envelope.

Definition batch_delete_items_exa_try (args : args_t) : M value :=
  let websetId := args!"websetId" in
  let itemIds := args!"itemIds" in
  let endpoint := replace (WEBSET_ITEMS E ++ "/batch-delete") ":websetId" websetId in
  let body := VObj [("itemIds", itemIds)] in
  key <- api_key ;;
  response <- axios_post (BASE_URL API_CONFIG ++ endpoint) body (write_headers key) ;;
  let* count := get itemIds "length" in
  ret (VObj [("success", VBool true);
             ("data", data response);
             ("message", VStr ("Successfully deleted " ++ text_of count ++ " items"))]).

Definition batch_delete_items_exa (args : args_t) : M value :=
  try_catch (batch_delete_items_exa_try args) catch_envelope.

Definition batch_verify_items_exa_try (args : args_t) : M value :=
  let websetId := args!"websetId" in
  let itemIds := args!"itemIds" in
  let status := args!"status" in
  let reasoning := args!"reasoning" in
  let endpoint := replace (WEBSET_ITEMS E ++ "/batch-verify") ":websetId" websetId in
  let body :=
    VObj [("itemIds", itemIds);
          ("verification", VObj ([("status", status)] ++ spread_if "reasoning" reasoning)%list)] in
  key <- api_key ;;
  response <- axios_post (BASE_URL API_CONFIG ++ endpoint) body (write_headers key) ;;
  let* count := get itemIds "length" in
  ret (VObj [("success", VBool true);
             ("data", data response);
             ("message", VStr ("Successfully updated verification status for "
                                 ++ text_of count ++ " items"))]).

Definition batch_verify_items_exa (args : args_t) : M value :=
  try_catch (batch_verify_items_exa_try args) catch_envelope.

(** *** websetExport *)

Definition create_export_exa_try (args : args_t) : M value :=
  let websetId := args!"websetId" in
  let exportData := rest_without ["websetId"] args in
  let endpoint := replace (WEBSET_EXPORTS E) ":websetId" websetId in
  let body :=
    VObj ([("format", exportData!"format")]
            ++ spread_if "filters" exportData!"filters"
            ++ spread_if "fields" exportData!"fields")%list in
  key <- api_key ;;
  response <- axios_post (BASE_URL API_CONFIG ++ endpoint) body (write_headers key) ;;
  let* status := get (data response) "status" in
  let* status := ToString status in
  ret (VObj [("success", VBool true);
             ("data", data response);
             ("message", VStr ("Export created successfully. Status: " ++ status))]).

Definition create_export_exa (args : args_t) : M value :=
  try_catch (create_export_exa_try args) catch_envelope.

Definition get_export_exa_try (args : args_t) : M value :=
  let endpoint := replace (replace (WEBSET_EXPORT_BY_ID E) ":websetId" args!"websetId")
                    ":exportId" args!"exportId" in
  key <- api_key ;;
  response <- axios_get (BASE_URL API_CONFIG ++ endpoint) (read_headers key) None ;;
  let* status := get (data response) "status" in
  let downloadReady :=
    strict_eq_str status "completed" && truthy (prop (data response) "downloadUrl") in
  ret (VObj [("success", VBool true);
             ("data", data response);
             ("downloadReady", VBool downloadReady)]).

Definition get_export_exa (args : args_t) : M value :=
  try_catch (get_export_exa_try args) catch_envelope.

(** [page.filter(e => e.status === s).length] *)
Definition status_is (s : string) (e : value) : completion bool :=
  match get e "status" with
  | Throw err => Throw err
  | Normal st => Normal (strict_eq_str st s)
  end.

Definition count_status (page : value) (s : string) : completion value :=
  match array_filter "response.data.data" page (status_is s) with
  | Throw err => Throw err
  | Normal kept => get kept "length"
  end.

Definition list_exports_exa_try (args : args_t) : M value :=
  let websetId := args!"websetId" in
  let limit := args!"limit" in
  let cursor := args!"cursor" in
  let endpoint := replace (WEBSET_EXPORTS E) ":websetId" websetId in
  let params := [("limit", limit)] in
  let params := if truthy cursor then (params ++ [("cursor", cursor)])%list else params in
  key <- api_key ;;
  response <- axios_get (BASE_URL API_CONFIG ++ endpoint) (read_headers key)
                (Some (PlainParams params)) ;;
  let* page := get (data response) "data" in
  let* total := get page "length" in
  let* completed := count_status page "completed" in
  let* pending := count_status page "pending" in
  let* processing := count_status page "processing" in
  let* failed := count_status page "failed" in
  ret (VObj [("success", VBool true);
             ("data", page);
             ("hasMore", prop (data response) "hasMore");
             ("nextCursor", prop (data response) "nextCursor");
             ("summary", VObj [("total", total);
                               ("completed", completed);
                               ("pending", pending);
                               ("processing", processing);
                               ("failed", failed)])]).

Definition list_exports_exa (args : args_t) : M value :=
  try_catch (list_exports_exa_try args) catch_envelope.

Definition delete_export_exa_try (args : args_t) : M value :=
  let endpoint := replace (replace (WEBSET_EXPORT_BY_ID E) ":websetId" args!"websetId")
                    ":exportId" args!"exportId" in
  key <- api_key ;;
  axios_delete (BASE_URL API_CONFIG ++ endpoint) (read_headers key) ;;
  ret (VObj [("success", VBool true);
             ("message", VStr "Export deleted successfully")]).

Definition delete_export_exa (args : args_t) : M value :=
  try_catch (delete_export_exa_try args) catch_envelope.


(** *** The registry *)

Definition tool_name (op : Op.operation) : string :=
  match op with
  | Op.create_import_exa => "create_import_exa"
  | Op.get_import_exa => "get_import_exa"
  | Op.list_imports_exa => "list_imports_exa"
  | Op.update_import_exa => "update_import_exa"
  | Op.delete_import_exa => "delete_import_exa"
  | Op.create_webset_monitor_exa => "create_webset_monitor_exa"
  | Op.update_webset_monitor_exa => "update_webset_monitor_exa"
  | Op.get_webset_monitor_exa => "get_webset_monitor_exa"
  | Op.list_webset_monitors_exa => "list_webset_monitors_exa"
  | Op.delete_webset_monitor_exa => "delete_webset_monitor_exa"
  | Op.list_monitor_runs_exa => "list_monitor_runs_exa"
  | Op.get_monitor_run_exa => "get_monitor_run_exa"
  | Op.create_webhook_exa => "create_webhook_exa"
  | Op.get_webhook_exa => "get_webhook_exa"
  | Op.list_webhooks_exa => "list_webhooks_exa"
  | Op.update_webhook_exa => "update_webhook_exa"
  | Op.delete_webhook_exa => "delete_webhook_exa"
  | Op.list_webhook_attempts_exa => "list_webhook_attempts_exa"
  | Op.list_events_exa => "list_events_exa"
  | Op.get_event_exa => "get_event_exa"
  | Op.list_webset_items_exa => "list_webset_items_exa"
  | Op.get_webset_item_exa => "get_webset_item_exa"
  | Op.delete_webset_item_exa => "delete_webset_item_exa"
  | Op.search_webset_items_exa => "search_webset_items_exa"
  | Op.update_webset_item_exa => "update_webset_item_exa"
  | Op.batch_update_items_exa => "batch_update_items_exa"
  | Op.batch_delete_items_exa => "batch_delete_items_exa"
  | Op.batch_verify_items_exa => "batch_verify_items_exa"
  | Op.create_export_exa => "create_export_exa"
  | Op.get_export_exa => "get_export_exa"
  | Op.list_exports_exa => "list_exports_exa"
  | Op.delete_export_exa => "delete_export_exa"
  end.

(** The handler registered under each name. *)
Definition handler (op : Op.operation) : args_t -> M value :=
  match op with
  | Op.create_import_exa => create_import_exa
  | Op.get_import_exa => get_import_exa
  | Op.list_imports_exa => list_imports_exa
  | Op.update_import_exa => update_import_exa
  | Op.delete_import_exa => delete_import_exa
  | Op.create_webset_monitor_exa => create_webset_monitor_exa
  | Op.update_webset_monitor_exa => update_webset_monitor_exa
  | Op.get_webset_monitor_exa => get_webset_monitor_exa
  | Op.list_webset_monitors_exa => list_webset_monitors_exa
  | Op.delete_webset_monitor_exa => delete_webset_monitor_exa
  | Op.list_monitor_runs_exa => list_monitor_runs_exa
  | Op.get_monitor_run_exa => get_monitor_run_exa
  | Op.create_webhook_exa => create_webhook_exa
  | Op.get_webhook_exa => get_webhook_exa
  | Op.list_webhooks_exa => list_webhooks_exa
  | Op.update_webhook_exa => update_webhook_exa
  | Op.delete_webhook_exa => delete_webhook_exa
  | Op.list_webhook_attempts_exa => list_webhook_attempts_exa
  | Op.list_events_exa => list_events_exa
  | Op.get_event_exa => get_event_exa
  | Op.list_webset_items_exa => list_webset_items_exa
  | Op.get_webset_item_exa => get_webset_item_exa
  | Op.delete_webset_item_exa => delete_webset_item_exa
  | Op.search_webset_items_exa => search_webset_items_exa
  | Op.update_webset_item_exa => update_webset_item_exa
  | Op.batch_update_items_exa => batch_update_items_exa
  | Op.batch_delete_items_exa => batch_delete_items_exa
  | Op.batch_verify_items_exa => batch_verify_items_exa
  | Op.create_export_exa => create_export_exa
  | Op.get_export_exa => get_export_exa
  | Op.list_exports_exa => list_exports_exa
  | Op.delete_export_exa => delete_export_exa
  end.

(** The logger an invocation of [op] works with in world [w]. *)
Definition logger_of (op : Op.operation) (w : world) : logger :=
  createRequestLogger
    (tool_name op ++ "-" ++ string_of_Z (Date_now w) ++ "-" ++ random_suffix w)
    (tool_name op).

(** The [try] block of each handler. *)
Definition try_block (op : Op.operation) (l : logger) : args_t -> M value :=
  match op with
  | Op.create_import_exa => create_import_exa_try l
  | Op.get_import_exa => get_import_exa_try
  | Op.list_imports_exa => list_imports_exa_try
  | Op.update_import_exa => update_import_exa_try
  | Op.delete_import_exa => delete_import_exa_try
  | Op.create_webset_monitor_exa => create_webset_monitor_exa_try
  | Op.update_webset_monitor_exa => update_webset_monitor_exa_try
  | Op.get_webset_monitor_exa => get_webset_monitor_exa_try
  | Op.list_webset_monitors_exa => list_webset_monitors_exa_try
  | Op.delete_webset_monitor_exa => delete_webset_monitor_exa_try
  | Op.list_monitor_runs_exa => list_monitor_runs_exa_try
  | Op.get_monitor_run_exa => get_monitor_run_exa_try
  | Op.create_webhook_exa => create_webhook_exa_try
  | Op.get_webhook_exa => get_webhook_exa_try
  | Op.list_webhooks_exa => list_webhooks_exa_try
  | Op.update_webhook_exa => update_webhook_exa_try
  | Op.delete_webhook_exa => delete_webhook_exa_try
  | Op.list_webhook_attempts_exa => list_webhook_attempts_exa_try
  | Op.list_events_exa => list_events_exa_try
  | Op.get_event_exa => get_event_exa_try
  | Op.list_webset_items_exa => list_webset_items_exa_try l
  | Op.get_webset_item_exa => get_webset_item_exa_try l
  | Op.delete_webset_item_exa => delete_webset_item_exa_try l
  | Op.search_webset_items_exa => search_webset_items_exa_try l
  | Op.update_webset_item_exa => update_webset_item_exa_try
  | Op.batch_update_items_exa => batch_update_items_exa_try
  | Op.batch_delete_items_exa => batch_delete_items_exa_try
  | Op.batch_verify_items_exa => batch_verify_items_exa_try
  | Op.create_export_exa => create_export_exa_try
  | Op.get_export_exa => get_export_exa_try
  | Op.list_exports_exa => list_exports_exa_try
  | Op.delete_export_exa => delete_export_exa_try
  end.

(** Modelled from the spec: the outcome of a failed validation is not
    built anywhere in the sources; it has the "same shape as transport
    failure", [{success: false, error: <message>}], and is "produced before
    any network call". *)
Definition validation_failure (issue : string) : value :=
  VObj [("success", VBool false); ("error", VStr issue)].

(** Modelled from the spec: the registry's dispatch is not among the
    sources, which only register each tool with its argument shape.  The
    validator "validates caller-supplied arguments against the Operation's
    declared shape ... before constructing any request.  On failure,
    produces a ValidationError outcome without any network call";
    otherwise the handler runs on the parsed arguments. *)
Definition invoke (op : Op.operation) (arguments : value) : M value :=
  match parse (input_schema op) arguments with
  | Invalid issue => ret (validation_failure issue)
  | Parsed (VObj args) => handler op args
  | Parsed _ => ret (validation_failure "Expected object")
  end.

End Handlers.

(** ** Letter case *)

Definition upper (c : ascii) : ascii :=
  let n := nat_of_ascii c in
  if ((97 <=? n) && (n <=? 122))%nat then ascii_of_nat (n - 32) else c.





(** ** A reference engine for a fragment of the pattern language

    Literal characters, [.], escaped punctuation, [^] and [$], groups,
    [|], and the quantifiers [*], [+] and [?].  Anything else is rejected
    as a syntax error. *)

Module RefRegExp.

Inductive re : Type :=
| Eps
| Chr (c : ascii)
| Dot
| Bol
| Eol
| Seq (a b : re)
| Alt (a b : re)
| Star (a : re).

Definition canon (ignoreCase : bool) (c : ascii) : ascii :=
  if ignoreCase then upper c else c.

Definition is_line_terminator (c : ascii) : bool :=
  Ascii.eqb c "010" || Ascii.eqb c "013".

(** Backtracking matcher in continuation-passing style.  [bos] tells
    whether the position is the beginning of the subject; an iteration of
    [Star] has to consume something. *)
Fixpoint run (ic : bool) (r : re) (k : bool -> list ascii -> bool)
  (bos : bool) (s : list ascii) {struct r} : bool :=
  match r with
  | Eps => k bos s
  | Chr c =>
      match s with
      | x :: s' => Ascii.eqb (canon ic c) (canon ic x) && k false s'
      | [] => false
      end
  | Dot =>
      match s with
      | x :: s' => negb (is_line_terminator x) && k false s'
      | [] => false
      end
  | Bol => bos && k bos s
  | Eol =>
      match s with
      | [] => k bos s
      | _ :: _ => false
      end
  | Seq a b => run ic a (run ic b k) bos s
  | Alt a b => run ic a k bos s || run ic b k bos s
  | Star a =>
      (fix loop (n : nat) (bos : bool) (s : list ascii) {struct n} : bool :=
         k bos s ||
         match n with
         | O => false
         | S n' =>
             run ic a
               (fun bos' s' => (List.length s' <? List.length s)%nat && loop n' bos' s')
               bos s
         end) (List.length s) bos s
  end.

(** A match may start anywhere in the subject. *)
Fixpoint search (ic : bool) (r : re) (bos : bool) (s : list ascii) : bool :=
  run ic r (fun _ _ => true) bos s ||
  match s with
  | [] => false
  | _ :: s' => search ic r false s'
  end.

(** The parser keeps one frame per open group: the alternatives closed so
    far, the terms of the current alternative (last first), and whether
    the last term may take a quantifier. *)
Record frame : Type := mkFrame {
  alts : option re;
  terms : list re;
  can_repeat : bool
}.

Definition empty_frame : frame := mkFrame None [] false.

Definition sequence (ts : list re) : re := fold_left (fun acc t => Seq t acc) ts Eps.

Definition close_frame (f : frame) : re :=
  match alts f with
  | None => sequence (terms f)
  | Some a => Alt a (sequence (terms f))
  end.

Definition push_term (t : re) (repeatable : bool) (f : frame) : frame :=
  mkFrame (alts f) (t :: terms f) repeatable.

Definition quantify (q : re -> re) (f : frame) : option frame :=
  match terms f, can_repeat f with
  | t :: ts, true => Some (mkFrame (alts f) (q t :: ts) false)
  | _, _ => None
  end.

Definition is_alphanumeric (c : ascii) : bool :=
  let n := nat_of_ascii c in
  (((48 <=? n) && (n <=? 57)) || ((65 <=? n) && (n <=? 90)) || ((97 <=? n) && (n <=? 122)))%nat.

Fixpoint parse_pattern (s : list ascii) (cur : frame) (stack : list frame) : option re :=
  match s with
  | [] =>
      match stack with
      | [] => Some (close_frame cur)
      | _ :: _ => None
      end
  | c :: rest =>
      if Ascii.eqb c "\" then
        match rest with
        | d :: rest' =>
            if is_alphanumeric d then None
            else parse_pattern rest' (push_term (Chr d) true cur) stack
        | [] => None
        end
      else if Ascii.eqb c "(" then
        match rest with
        | "?"%char :: ":"%char :: rest' => parse_pattern rest' empty_frame (cur :: stack)
        | "?"%char :: _ => None
        | _ => parse_pattern rest empty_frame (cur :: stack)
        end
      else if Ascii.eqb c ")" then
        match stack with
        | [] => None
        | parent :: stack' => parse_pattern rest (push_term (close_frame cur) true parent) stack'
        end
      else if Ascii.eqb c "|" then
        parse_pattern rest (mkFrame (Some (close_frame cur)) [] false) stack
      else if Ascii.eqb c "*" then
        match quantify Star cur with
        | Some cur' => parse_pattern rest cur' stack
        | None => None
        end
      else if Ascii.eqb c "+" then
        match quantify (fun t => Seq t (Star t)) cur with
        | Some cur' => parse_pattern rest cur' stack
        | None => None
        end
      else if Ascii.eqb c "?" then
        match quantify (fun t => Alt t Eps) cur with
        | Some cur' => parse_pattern rest cur' stack
        | None => None
        end
      else if Ascii.eqb c "^" then parse_pattern rest (push_term Bol false cur) stack
      else if Ascii.eqb c "$" then parse_pattern rest (push_term Eol false cur) stack
      else if Ascii.eqb c "." then parse_pattern rest (push_term Dot true cur) stack
      else if Ascii.eqb c "[" || Ascii.eqb c "{" then None
      else parse_pattern rest (push_term (Chr c) true cur) stack
  end.

Record compiled : Type := mkCompiled { ignoreCase : bool; source : re }.

Definition compile (pattern flags : string) : completion compiled :=
  let ic := String.eqb flags "i" in
  if ic || String.eqb flags "" then
    match parse_pattern (list_ascii_of_string pattern) empty_frame [] with
    | Some r => Normal (mkCompiled ic r)
    | None => Throw (JsError ("Invalid regular expression: /" ++ pattern ++ "/"))
    end
  else Throw (JsError ("Invalid flags supplied to RegExp constructor '" ++ flags ++ "'")).

Definition test (r : compiled) (s : string) : bool :=
  search (ignoreCase r) (source r) true (list_ascii_of_string s).

Definition engine : RegExpEngine :=
  {| RegExp := compiled; RegExp_new := compile; RegExp_test := test |}.

End RefRegExp.

(** ** Sample surroundings, used to run the handlers on concrete inputs *)

(** The path templates of the endpoint table. *)
Definition sample_endpoints : Endpoints :=
  {| WEBSET_ITEMS := "/websets/:websetId/items";
     WEBSET_ITEM_BY_ID := "/websets/:websetId/items/:itemId";
     WEBSET_MONITORS := "/websets/:websetId/monitors";
     WEBSET_MONITOR_BY_ID := "/websets/:websetId/monitors/:monitorId";
     WEBSET_MONITOR_RUNS := "/websets/:websetId/monitors/:monitorId/runs";
     WEBSET_EXPORTS := "/websets/:websetId/exports";
     WEBSET_EXPORT_BY_ID := "/websets/:websetId/exports/:exportId";
     IMPORTS := "/imports";
     IMPORT_BY_ID := "/imports/:importId";
     WEBHOOKS := "/webhooks";
     WEBHOOK_BY_ID := "/webhooks/:webhookId";
     WEBHOOK_ATTEMPTS := "/webhooks/:webhookId/attempts";
     EVENTS := "/events";
     EVENT_BY_ID := "/events/:eventId" |}.

Definition sample_config : ApiConfig :=
  {| BASE_URL := "https://api.exa.ai"; REQUEST_TIMEOUT := 25000; ENDPOINTS := sample_endpoints |}.

(** A one-line JSON rendering, standing in for [JSON.stringify]. *)
Fixpoint quote_chars (s : string) : string :=
  match s with
  | EmptyString => EmptyString
  | String c rest =>
      if Ascii.eqb c "034" || Ascii.eqb c "\"
      then String "\" (String c (quote_chars rest))
      else String c (quote_chars rest)
  end.

Definition quote (s : string) : string := String "034" (quote_chars s ++ String "034" "").

Fixpoint render (v : value) : string :=
  match v with
  | VUndefined | VNull => "null"
  | VBool _ | VNum _ => text_of v
  | VStr s => quote s
  | VArr xs =>
      "[" ++ (fix elements (l : list value) : string :=
                match l with
                | [] => ""
                | x :: rest =>
                    match rest with
                    | [] => render x
                    | _ => render x ++ "," ++ elements rest
                    end
                end) xs ++ "]"
  | VObj fields =>
      "{" ++ (fix members (l : list (string * value)) (first : bool) : string :=
                match l with
                | [] => ""
                | (k, x) :: rest =>
                    match x with
                    | VUndefined => members rest first
                    | _ => (if first then "" else ",") ++ quote k ++ ":" ++ render x
                             ++ members rest false
                    end
                end) fields true ++ "}"
  end.

Definition sample_stringify (v : value) : value :=
  match v with
  | VUndefined => VUndefined
  | _ => VStr (render v)
  end.

(** A world whose remote service gives the same answer to every request. *)
Definition world_answering (answer : completion http_response) : world :=
  {| config := VObj [("exaApiKey", VStr "configured-key")];
     env_EXA_API_KEY := VStr "environment-key";
     network := fun _ => answer;
     Date_now := 1700000000000;
     random_suffix := "k3x9q" |}.

Definition ok_response (body : value) : http_response :=
  {| status := 200; statusText := "OK"; data := body |}.

Definition not_found_response : http_response :=
  {| status := 404; statusText := "Not Found";
     data := VObj [("message", VStr "Webset not found")] |}.

Definition not_found : thrown :=
  AxiosError "Request failed with status code 404" (Some not_found_response).

(** ** Vocabulary of the statements *)

(** An outcome is error-flagged when it has [isError: true] or
    [success: false]. *)
Definition error_flagged (out : value) : bool :=
  match prop out "isError", prop out "success" with
  | VBool true, _ => true
  | _, VBool false => true
  | _, _ => false
  end.

(** The remote-error envelope in the words of the specification: the
    body's [error] member, or the HTTP status text when the body has none. *)
Definition remote_error_envelope (r : http_response) : value :=
  VObj [("success", VBool false);
        ("error", match prop (data r) "error" with
                  | VUndefined => VStr (statusText r)
                  | e => e
                  end);
        ("details", data r)].

(** How each group of tools reports a failed call. *)
Inductive reporting : Type :=
| Envelope
| StatusAndMessage (label : string)
| MessageOnly (label : string).

Definition reporting_of (op : Op.operation) : reporting :=
  match op with
  | Op.create_import_exa => MessageOnly "Create import"
  | Op.get_import_exa => MessageOnly "Get import"
  | Op.list_imports_exa => MessageOnly "List imports"
  | Op.update_import_exa => MessageOnly "Update import"
  | Op.delete_import_exa => MessageOnly "Delete import"
  | Op.create_webset_monitor_exa => MessageOnly "Create monitor"
  | Op.update_webset_monitor_exa => MessageOnly "Update monitor"
  | Op.get_webset_monitor_exa => MessageOnly "Get monitor"
  | Op.list_webset_monitors_exa => MessageOnly "List monitors"
  | Op.delete_webset_monitor_exa => MessageOnly "Delete monitor"
  | Op.list_monitor_runs_exa => MessageOnly "List monitor runs"
  | Op.get_monitor_run_exa => MessageOnly "Get monitor run"
  | Op.create_webhook_exa => MessageOnly "Create webhook"
  | Op.get_webhook_exa => MessageOnly "Get webhook"
  | Op.list_webhooks_exa => MessageOnly "List webhooks"
  | Op.update_webhook_exa => MessageOnly "Update webhook"
  | Op.delete_webhook_exa => MessageOnly "Delete webhook"
  | Op.list_webhook_attempts_exa => MessageOnly "List webhook attempts"
  | Op.list_events_exa => MessageOnly "List events"
  | Op.get_event_exa => MessageOnly "Get event"
  | Op.list_webset_items_exa => StatusAndMessage "List items"
  | Op.get_webset_item_exa => StatusAndMessage "Get item"
  | Op.delete_webset_item_exa => StatusAndMessage "Delete item"
  | Op.search_webset_items_exa => StatusAndMessage "Search items"
  | Op.update_webset_item_exa | Op.batch_update_items_exa
  | Op.batch_delete_items_exa | Op.batch_verify_items_exa
  | Op.create_export_exa | Op.get_export_exa
  | Op.list_exports_exa | Op.delete_export_exa => Envelope
  end.

(** The body's [error] member when it is truthy, else the message of the
    error that axios threw. *)
Definition body_error_or_message (r : http_response) (message : string) : value :=
  let e := opt_get (data r) "error" in
  if truthy e then e else VStr message.

(** [text] is what the template literal makes of the body's error or
    the message. *)
Definition remote_error_outcome (style : reporting) (message : string) (r : http_response)
  (text : string) : value :=
  match style with
  | Envelope =>
      VObj [("success", VBool false);
            ("error", body_error_or_message r message);
            ("details", data r)]
  | StatusAndMessage label =>
      error_result (label ++ " error ("
                      ++ (if Z.eqb (status r) 0 then "unknown" else string_of_Z (status r))
                      ++ "): " ++ text)
  | MessageOnly label => error_result (label ++ " error: " ++ message)
  end.

(** An argument value that fails a shape: a required member is missing,
    or an enumerated position, at any depth, holds something outside its
    closed set. *)
Definition accepts_undefined (s : schema) : bool :=
  match s with
  | z_any => true
  | _ => false
  end.

Inductive violates : schema -> value -> Prop :=
| missing_required (shape : list (string * (presence * schema)))
    (fields : list (string * value)) (k : string) (s : schema) :
    In (k, (Required, s)) shape ->
    accepts_undefined s = false ->
    lookup k fields = VUndefined ->
    violates (z_object shape) (VObj fields)
| outside_enum (members : list string) (v : value) :
    (forall m, In m members -> v <> VStr m) ->
    violates (z_enum members) v
| inside_member (shape : list (string * (presence * schema)))
    (fields : list (string * value)) (k : string) (p : presence) (s : schema) :
    In (k, (p, s)) shape ->
    lookup k fields <> VUndefined ->
    violates s (lookup k fields) ->
    violates (z_object shape) (VObj fields)
| inside_element (element : schema) (xs : list value) (x : value) :
    In x xs ->
    violates element x ->
    violates (z_array element) (VArr xs)
| inside_record (values : schema) (fields : list (string * value)) (k : string) (x : value) :
    In (k, x) fields ->
    violates values x ->
    violates (z_record values) (VObj fields).

(** What the parser does with one member of an object shape. *)
Definition parse_member (p : presence) (s : schema) (x : value) : parsed value :=
  match p, x with
  | Optional, VUndefined => Parsed VUndefined
  | Default d, VUndefined => Parsed d
  | _, _ => parse s x
  end.


(** A page of items as the remote service returns it: no holes. *)
Definition well_formed_page (page : list value) : Prop :=
  Forall (fun item => nullish item = false) page.

(** A page the patterns can be tested on: no holes, and every [url] and
    [title] is a string or something else that [ToString] converts. *)
Definition readable_page (page : list value) : Prop :=
  Forall (fun item => nullish item = false
                      /\ convertible (prop item "url") = true
                      /\ convertible (prop item "title") = true) page.


(** The statuses on a page of export jobs, and how often one occurs. *)
Definition statuses_of (page : list value) : list value :=
  map (fun e => prop e "status") page.

Fixpoint occurrences (s : string) (statuses : list value) : nat :=
  match statuses with
  | [] => 0
  | VStr t :: rest => (if String.eqb t s then 1 else 0) + occurrences s rest
  | _ :: rest => occurrences s rest
  end.

Definition status_summary (page : list value) : value :=
  let n (s : string) := VNum (Z.of_nat (occurrences s (statuses_of page))) in
  VObj [("total", VNum (Z.of_nat (List.length page)));
        ("completed", n "completed");
        ("pending", n "pending");
        ("processing", n "processing");
        ("failed", n "failed")].

(** The batch tools and the sentence each reports on success. *)
Definition batch_operations : list Op.operation :=
  [Op.batch_update_items_exa; Op.batch_delete_items_exa; Op.batch_verify_items_exa].

Definition batch_report (op : Op.operation) (count : nat) : string :=
  match op with
  | Op.batch_update_items_exa => "Successfully updated " ++ string_of_nat count ++ " items"
  | Op.batch_delete_items_exa => "Successfully deleted " ++ string_of_nat count ++ " items"
  | Op.batch_verify_items_exa =>
      "Successfully updated verification status for " ++ string_of_nat count ++ " items"
  | _ => ""
  end.

(** The list and search tools, the optional filters each declares, and
    where the caller puts the value of a filter. *)
Definition list_operations : list Op.operation :=
  [Op.list_imports_exa; Op.list_webset_monitors_exa; Op.list_monitor_runs_exa;
   Op.list_webhooks_exa; Op.list_webhook_attempts_exa; Op.list_events_exa;
   Op.list_webset_items_exa; Op.search_webset_items_exa; Op.list_exports_exa].

Definition filter_names (op : Op.operation) : list string :=
  match op with
  | Op.list_imports_exa => ["status"; "websetId"; "cursor"; "limit"]
  | Op.list_webset_monitors_exa => ["status"; "cursor"; "limit"]
  | Op.list_monitor_runs_exa => ["status"; "cursor"; "limit"]
  | Op.list_webhooks_exa => ["status"; "cursor"; "limit"]
  | Op.list_webhook_attempts_exa => ["eventType"; "cursor"; "limit"]
  | Op.list_events_exa => ["eventType"; "websetId"; "cursor"; "limit"]
  | Op.list_webset_items_exa =>
      ["cursor"; "limit"; "type"; "verificationStatus"; "hasEnrichedData";
       "createdAfter"; "createdBefore"; "updatedAfter"; "updatedBefore"]
  | Op.search_webset_items_exa =>
      ["cursor"; "limit"; "type"; "verificationStatus"; "hasEnrichedData";
       "createdAfter"; "createdBefore"; "updatedAfter"; "updatedBefore";
       "urlPattern"; "titlePattern"]
  | Op.list_exports_exa => ["limit"; "cursor"]
  | _ => []
  end.

Definition filter_value (op : Op.operation) (args : list (string * value)) (k : string)
  : value :=
  match op with
  | Op.search_webset_items_exa =>
      if String.eqb k "cursor" || String.eqb k "limit" then args!k
      else opt_get args!"filters" k
  | _ => args!k
  end.

(** The contract of the query builder, in two halves: a filter left unset
    is absent from the request, a filter supplied is in it. *)
Definition unset_filters_are_absent (op : Op.operation) (args : list (string * value))
  (r : request) : Prop :=
  forall k, In k (filter_names op) ->
            filter_value op args k = VUndefined -> has_param k r = false.




(** ** Concrete invocations *)

(** An invocation under the sample configuration, with the reference
    engine, in a world that gives [answer] to every request. *)
Definition sample_run (op : Op.operation) (args : list (string * value))
  (answer : completion http_response) : completion value * list event :=
  handler sample_config sample_stringify (engine := RefRegExp.engine) op args
    (world_answering answer).

Definition export_args : list (string * value) :=
  [("websetId", VStr "ws_1"); ("format", VStr "csv")].

(** A webhook subscription to an event type that does not exist, and a
    well-formed one. *)
Definition bad_webhook_arguments : value :=
  VObj [("url", VStr "https://example.com/hook");
        ("events", VArr [VStr "webset.created"; VStr "webset.exploded"])].

Definition good_webhook_arguments : value :=
  VObj [("url", VStr "https://example.com/hook");
        ("events", VArr [VStr "webset.created"; VStr "webset.idle"])].

(** A page of five items, two of them on linkedin.com. *)
Definition item (id url title : string) : value :=
  VObj [("id", VStr id); ("url", VStr url); ("title", VStr title)].

Definition five_items : list value :=
  [item "item_1" "https://linkedin.com/in/ada" "Ada";
   item "item_2" "https://example.com/about" "About";
   item "item_3" "https://LinkedIn.com/company/acme" "Acme";
   item "item_4" "http://linkedin.com/in/bob" "Bob";
   item "item_5" "https://notlinkedin.com/in/eve" "Eve"].

Definition five_items_body : value :=
  VObj [("data", VArr five_items); ("hasMore", VBool true); ("nextCursor", VStr "cursor_2")].

Definition linkedin_pattern : string := "^https://linkedin\.com".

Definition linkedin_regex : RefRegExp.compiled :=
  Eval vm_compute in
    match RefRegExp.compile linkedin_pattern "i" with
    | Normal regex => regex
    | Throw _ => RefRegExp.mkCompiled true RefRegExp.Eps
    end.




Definition starts_with_ad : RefRegExp.compiled :=
  Eval vm_compute in
    match RefRegExp.compile "^ad" "i" with
    | Normal regex => regex
    | Throw _ => RefRegExp.mkCompiled true RefRegExp.Eps
    end.

(** A remote error whose body names the error, and one whose [error]
    member has no string form. *)
Definition rate_limited_response : http_response :=
  {| status := 429; statusText := "Too Many Requests";
     data := VObj [("error", VStr "Rate limit exceeded")] |}.

Definition rate_limited : thrown :=
  AxiosError "Request failed with status code 429" (Some rate_limited_response).

Definition garbled_response : http_response :=
  {| status := 500; statusText := "Internal Server Error";
     data := VObj [("error", VObj [("toString", VNum 0)])] |}.

Definition garbled : thrown :=
  AxiosError "Request failed with status code 500" (Some garbled_response).

(** Three export jobs. *)
Definition export_job (id status : string) : value :=
  VObj [("id", VStr id); ("status", VStr status)].

Definition three_exports : list value :=
  [export_job "exp_1" "completed"; export_job "exp_2" "pending"; export_job "exp_3" "failed"].

Definition three_exports_body : value :=
  VObj [("data", VArr three_exports); ("hasMore", VBool false)].

Definition list_exports_args : list (string * value) :=
  [("websetId", VStr "ws_1"); ("limit", VNum 20)].

Definition batch_delete_args : list (string * value) :=
  [("websetId", VStr "ws_1");
   ("itemIds", VArr [VStr "item_1"; VStr "item_2"; VStr "item_3"])].

(** Listing items with a limit of zero, and with the enrichment flag set
    to [false]. *)
Definition limit_zero_args : list (string * value) :=
  [("websetId", VStr "ws_1"); ("limit", VNum 0)].

Definition not_enriched_args : list (string * value) :=
  [("websetId", VStr "ws_1"); ("hasEnrichedData", VBool false)].

Definition list_items_request (params : list (string * string)) : request :=
  {| method := GET;
     baseURL := Some "https://api.exa.ai";
     url := "/websets/ws_1/items";
     headers := [("accept", VStr "application/json"); ("x-api-key", VStr "configured-key")];
     params := Some (SearchParams params);
     body := None;
     timeout := Some 25000%Z |}.

(** An item without a title next to one with a title. *)
Definition untitled : value :=
  VObj [("id", VStr "item_9"); ("url", VStr "https://example.com/untitled");
        ("title", VNull)].

Definition titled : value := item "item_8" "https://example.com/acme" "Acme Corp".

Definition shouting : value := item "item_8" "HTTPS://EXAMPLE.COM/ACME" "ACME CORP".

Definition example_filters : value :=
  VObj [("urlPattern", VStr "^https://example\.com/"); ("titlePattern", VStr "acme")].



(** ** Vocabulary of the further statements *)

(** The one way a list or search of items fails before its request: the
    enrichment flag is [null], on which [toString] cannot be called. *)
Definition null_flag (op : Op.operation) (args : list (string * value)) : Prop :=
  match op with
  | Op.list_webset_items_exa => args!"hasEnrichedData" = VNull
  | Op.search_webset_items_exa => opt_get args!"filters" "hasEnrichedData" = VNull
  | _ => False
  end.

(** What each group of tools makes of a call that got no response. *)
Definition transport_error_outcome (style : reporting) (message : string) : value :=
  match style with
  | Envelope =>
      VObj [("success", VBool false); ("error", VStr message); ("details", VUndefined)]
  | StatusAndMessage label => error_result (label ++ " error (unknown): " ++ message)
  | MessageOnly label => error_result (label ++ " error: " ++ message)
  end.

(** Whether a character occurs in a string. *)
Fixpoint occurs (c : ascii) (s : string) : bool :=
  match s with
  | EmptyString => false
  | String x rest => Ascii.eqb x c || occurs c rest
  end.

(** An identifier that can be pasted into a path: no [$], which
    [String.prototype.replace] would interpret, and no [:], which could
    begin a placeholder. *)
Definition plain_id (s : string) : bool := negb (occurs "$" s) && negb (occurs ":" s).

(** The tools that address one item of a webset, and what precedes the
    path in their request URL: nothing with a client instance, the base
    URL without. *)
Definition item_operations : list Op.operation :=
  [Op.get_webset_item_exa; Op.delete_webset_item_exa; Op.update_webset_item_exa].

Definition url_prefix (API_CONFIG : ApiConfig) (op : Op.operation) : string :=
  match reporting_of op with
  | Envelope => BASE_URL API_CONFIG
  | _ => ""
  end.

(** The tools that address one import. *)
Definition import_operations : list Op.operation :=
  [Op.get_import_exa; Op.update_import_exa; Op.delete_import_exa].

(** The tools that build a JSON body member by member, and for each the
    members that are always sent, those sent when truthy and those sent
    when defined. *)
Definition body_operations : list Op.operation :=
  [Op.create_import_exa; Op.create_webset_monitor_exa; Op.create_webhook_exa;
   Op.create_export_exa; Op.update_webset_item_exa; Op.update_webhook_exa].

Definition required_members (op : Op.operation) : list string :=
  match op with
  | Op.create_import_exa => ["sourceUrl"]
  | Op.create_webset_monitor_exa => ["websetId"; "cadence"]
  | Op.create_webhook_exa => ["url"; "events"]
  | Op.create_export_exa => ["format"]
  | _ => []
  end.

Definition optional_members (op : Op.operation) : list string :=
  match op with
  | Op.create_import_exa => ["fileType"; "websetId"; "metadata"]
  | Op.create_webset_monitor_exa => ["query"; "searchBehavior"; "metadata"]
  | Op.create_webhook_exa => ["description"; "secret"]
  | Op.create_export_exa => ["filters"; "fields"]
  | Op.update_webset_item_exa => ["metadata"; "verification"; "customFields"]
  | Op.update_webhook_exa => ["url"; "events"; "status"]
  | _ => []
  end.

Definition defined_members (op : Op.operation) : list string :=
  match op with
  | Op.update_webhook_exa => ["description"]
  | _ => []
  end.

Definition body_member (op : Op.operation) (args : list (string * value)) (k : string)
  : value :=
  if existsb (String.eqb k) (required_members op) then args!k
  else if existsb (String.eqb k) (optional_members op)
       then (if truthy args!k then args!k else VUndefined)
       else if existsb (String.eqb k) (defined_members op) then args!k
            else VUndefined.

(** The optional members a monitor update declares. *)
Definition monitor_update_members : list string :=
  ["cadence"; "query"; "status"; "searchBehavior"; "metadata"].

(** Whether an item passes a pattern filter: an unset (falsy) pattern
    lets every item through; the title filter also wants a truthy title. *)
Definition passes_url `{RegExpEngine} (pattern : value) (regex : RegExp) (item : value)
  : bool :=
  negb (truthy pattern) || RegExp_test regex (text_of (prop item "url")).

Definition passes_title `{RegExpEngine} (pattern : value) (regex : RegExp) (item : value)
  : bool :=
  negb (truthy pattern)
  || (truthy (prop item "title") && RegExp_test regex (text_of (prop item "title"))).

(** What the list tool reports about one item: the enrichment flag says
    whether [enrichedData] is there and has at least one key. *)
Definition list_item_report (item : value) : value :=
  VObj [("id", prop item "id");
        ("url", prop item "url");
        ("title", prop item "title");
        ("type", prop item "type");
        ("verificationStatus", opt_get (prop item "verification") "status");
        ("hasEnrichedData",
          VBool (truthy (prop item "enrichedData")
                 && negb (Nat.eqb (keys_length (prop item "enrichedData")) 0)));
        ("createdAt", prop item "createdAt");
        ("updatedAt", prop item "updatedAt")].

(** The tools that read a member of the response body on their way to a
    result. *)
Definition reads_response (op : Op.operation) : bool :=
  match op with
  | Op.create_import_exa | Op.create_export_exa | Op.get_export_exa
  | Op.list_exports_exa | Op.list_webset_items_exa | Op.search_webset_items_exa => true
  | _ => false
  end.

(** The delete tools and what each reports on success. *)
Definition delete_operations : list Op.operation :=
  [Op.delete_import_exa; Op.delete_webset_monitor_exa; Op.delete_webhook_exa;
   Op.delete_webset_item_exa; Op.delete_export_exa].

Definition delete_report (op : Op.operation) (args : list (string * value)) : value :=
  match op with
  | Op.delete_import_exa => text_result (VStr "Import deleted successfully")
  | Op.delete_webset_monitor_exa => text_result (VStr "Monitor deleted successfully")
  | Op.delete_webhook_exa => text_result (VStr "Webhook deleted successfully")
  | Op.delete_webset_item_exa =>
      text_result (VStr ("Item " ++ text_of args!"itemId"
                           ++ " has been successfully deleted from Webset "
                           ++ text_of args!"websetId" ++ "."))
  | Op.delete_export_exa =>
      VObj [("success", VBool true); ("message", VStr "Export deleted successfully")]
  | _ => VUndefined
  end.

(** The tools of [websetItems], which log their progress, and what a
    trace holds. *)
Definition logging_operations : list Op.operation :=
  [Op.list_webset_items_exa; Op.get_webset_item_exa; Op.delete_webset_item_exa;
   Op.search_webset_items_exa].

Definition is_start (ev : event) : bool :=
  match ev with LogStart _ _ _ => true | _ => false end.

Definition is_complete (ev : event) : bool :=
  match ev with LogComplete _ _ => true | _ => false end.

Definition is_error (ev : event) : bool :=
  match ev with LogError _ _ _ => true | _ => false end.

Definition outcome_flagged (c : completion value) : bool :=
  match c with
  | Normal out => error_flagged out
  | Throw _ => true
  end.

(** ** Further concrete invocations *)

(** The request an invocation issued (a GET of nothing if it issued
    none). *)
Definition no_request : request :=
  {| method := GET; baseURL := None; url := ""; headers := []; params := None;
     body := None; timeout := None |}.

Definition first_request (run : completion value * list event) : request :=
  match requests_of (snd run) with
  | r :: _ => r
  | [] => no_request
  end.

Definition get_import_args : list (string * value) := [("importId", VStr "imp_1")].

Definition timed_out : thrown := AxiosError "timeout of 25000ms exceeded" None.

Definition list_items_arguments : value :=
  VObj [("websetId", VStr "ws_1"); ("hasEnrichedData", VBool false); ("extra", VNum 1)].

Definition item_args : list (string * value) :=
  [("websetId", VStr "ws_1"); ("itemId", VStr "item_7")].

Definition create_import_args : list (string * value) :=
  [("sourceUrl", VStr "https://example.com/leads.csv");
   ("fileType", VStr "csv");
   ("websetId", VStr "")].

Definition monitor_update_args : list (string * value) :=
  [("websetId", VStr "ws_1"); ("monitorId", VStr "mon_1");
   ("status", VStr "paused"); ("query", VStr "")].

Definition monitor_update_arguments : value :=
  VObj [("websetId", VStr "ws_1"); ("monitorId", VStr "mon_1");
        ("cadence", VStr "daily"); ("admin", VBool true)].

Definition both_patterns : value :=
  VObj [("urlPattern", VStr linkedin_pattern); ("titlePattern", VStr "^a")].

Definition starts_with_a : RefRegExp.compiled :=
  Eval vm_compute in
    match RefRegExp.compile "^a" "i" with
    | Normal regex => regex
    | Throw _ => RefRegExp.mkCompiled true RefRegExp.Eps
    end.

Definition broken_pattern_args : list (string * value) :=
  [("websetId", VStr "ws_1"); ("filters", VObj [("urlPattern", VStr "(")])].

Definition ready_export : value :=
  VObj [("id", VStr "exp_1"); ("status", VStr "completed");
        ("downloadUrl", VStr "https://files.example.com/exp_1.csv")].

Definition gold_tier_args : list (string * value) :=
  [("websetId", VStr "ws_1");
   ("filters", VObj [("metadata", VObj [("tier", VStr "gold")])])].

(** The tools that hand back the response body as it came. *)
Definition passthrough_operations : list Op.operation :=
  [Op.get_import_exa; Op.list_imports_exa; Op.update_import_exa;
   Op.create_webset_monitor_exa; Op.update_webset_monitor_exa; Op.get_webset_monitor_exa;
   Op.list_webset_monitors_exa; Op.list_monitor_runs_exa; Op.get_monitor_run_exa;
   Op.create_webhook_exa; Op.get_webhook_exa; Op.list_webhooks_exa;
   Op.update_webhook_exa; Op.list_webhook_attempts_exa;
   Op.list_events_exa; Op.get_event_exa; Op.get_webset_item_exa].

(** A computation that sends nothing. *)
Definition quiet {A} (m : M A) : Prop :=
  forall w, requests_of (snd (m w)) = [].

(** * Properties *)

Section Properties.

Context (API_CONFIG : ApiConfig) (JSON_stringify : value -> value)
        {engine : RegExpEngine}.


(** A [try]/[catch] whose [catch] block cannot throw returns the value of
    the [try] block or what the [catch] block makes of the error. *)
Lemma try_catch_outcome (body : M value) (on_error : thrown -> M value) (w : world) :
  (forall e, exists out tr, on_error e w = (Normal out, tr) /\ error_flagged out = true) ->
  exists out tr,
    try_catch body on_error w = (Normal out, tr) /\
    match fst (body w) with
    | Normal v => out = v
    | Throw _ => error_flagged out = true
    end.
Proof.
  intros Hcatch. unfold try_catch.
  destruct (body w) as [[v | e] tr]; simpl.
  - eauto.
  - destruct (Hcatch e) as (out & tr' & -> & Hflag). eauto.
Qed.

(** With a [catch] block that returns an error-flagged result or throws,
    the outcome is flagged exactly when the [try] block threw or returned
    a flagged value. *)
Lemma try_catch_flagged (body : M value) (on_error : thrown -> M value) (w : world) :
  (forall e, outcome_flagged (fst (on_error e w)) = true) ->
  outcome_flagged (fst (try_catch body on_error w))
  = match fst (body w) with
    | Normal v => error_flagged v
    | Throw _ => true
    end.
Proof.
  intros Hcatch. unfold try_catch.
  destruct (body w) as [[v | e] tr]; cbn [fst outcome_flagged].
  - reflexivity.
  - specialize (Hcatch e). destruct (on_error e w) as [c tr']. exact Hcatch.
Qed.

Lemma catch_plain_flags (label : string) (e : thrown) (w : world) :
  outcome_flagged (fst (catch_plain label e w)) = true.
Proof.
  unfold catch_plain, bind, lift, ret.
  destruct (message_or_String e); reflexivity.
Qed.

Lemma logged_catch_plain_flags (l : logger) (label : string) (e : thrown) (w : world) :
  outcome_flagged (fst ((logger_error l e ;; catch_plain label e) w)) = true.
Proof.
  unfold catch_plain, bind, lift, logger_error, emit, ret.
  destruct (message_or_String e); reflexivity.
Qed.

Lemma catch_items_flags (l : logger) (label : string) (e : thrown) (w : world) :
  outcome_flagged (fst (catch_items l label e w)) = true.
Proof.
  unfold catch_items, bind, lift, logger_error, emit, ret.
  destruct (isAxiosError e); cbn [fst snd];
    [destruct (ToString _) | destruct (message_or_String e)]; reflexivity.
Qed.

Lemma catch_envelope_flags (e : thrown) (w : world) :
  exists out tr, catch_envelope e w = (Normal out, tr) /\ error_flagged out = true.
Proof. unfold catch_envelope, ret. destruct (isAxiosError e); simpl; eauto. Qed.

Lemma catch_envelope_flagged (e : thrown) (w : world) :
  outcome_flagged (fst (catch_envelope e w)) = true.
Proof.
  destruct (catch_envelope_flags e w) as (out & tr & -> & Hflag). exact Hflag.
Qed.

(** The request identifier and the opening log line never throw. *)
Lemma after_prelude (tool : string) (k : string -> M value) (w : world) :
  (requestId <- new_requestId tool ;; k requestId) w
  = k (tool ++ "-" ++ string_of_Z (Date_now w) ++ "-" ++ random_suffix w) w.
Proof.
  unfold bind, new_requestId, ask, ret. simpl.
  destruct (k _ w) as [c tr]. reflexivity.
Qed.

Lemma after_start (l : logger) (message : string) (k : M value) (w : world) :
  (logger_start l message ;; k) w
  = (fst (k w), LogStart (logger_requestId l) (logger_tool l) message :: snd (k w)).
Proof.
  unfold bind, logger_start, emit. simpl. destruct (k w) as [c tr]. reflexivity.
Qed.

Create HintDb handlers.
#[local] Hint Unfold
  create_import_exa get_import_exa list_imports_exa update_import_exa delete_import_exa
  create_webset_monitor_exa update_webset_monitor_exa get_webset_monitor_exa
  list_webset_monitors_exa delete_webset_monitor_exa list_monitor_runs_exa
  get_monitor_run_exa
  create_webhook_exa get_webhook_exa list_webhooks_exa update_webhook_exa
  delete_webhook_exa list_webhook_attempts_exa list_events_exa get_event_exa
  list_webset_items_exa get_webset_item_exa delete_webset_item_exa search_webset_items_exa
  update_webset_item_exa batch_update_items_exa batch_delete_items_exa
  batch_verify_items_exa
  create_export_exa get_export_exa list_exports_exa delete_export_exa : handlers.

(** The tools of [websetBatch] and [websetExport] throw nothing: their
    [catch] block converts nothing, it passes the body's [error] member on
    as it is.  The handler returns the value of its [try] block when that
    block completes, and otherwise an error-flagged envelope. *)
Lemma envelope_handlers_never_throw (op : Op.operation) (args : args_t) (w : world) :
  reporting_of op = Envelope ->
  match fst (handler API_CONFIG JSON_stringify op args w) with
  | Normal out =>
      match fst (try_block API_CONFIG JSON_stringify op (logger_of op w) args w) with
      | Normal v => out = v
      | Throw _ => error_flagged out = true
      end
  | Throw _ => False
  end.
Proof.
  destruct op; cbn [reporting_of]; intros Hstyle; try discriminate; clear Hstyle;
    cbn [handler try_block]; autounfold with handlers;
    match goal with
    | |- context [try_catch ?b ?c w] =>
        destruct (try_catch_outcome b c w) as (out & tr & Heq & Hm);
        [ intros ?; apply catch_envelope_flags
        | rewrite Heq; exact Hm ]
    end.
Qed.

#[local] Hint Unfold
  create_import_exa_try get_import_exa_try list_imports_exa_try update_import_exa_try
  delete_import_exa_try
  create_webset_monitor_exa_try update_webset_monitor_exa_try get_webset_monitor_exa_try
  list_webset_monitors_exa_try delete_webset_monitor_exa_try list_monitor_runs_exa_try
  get_monitor_run_exa_try
  create_webhook_exa_try get_webhook_exa_try list_webhooks_exa_try update_webhook_exa_try
  delete_webhook_exa_try list_webhook_attempts_exa_try list_events_exa_try
  get_event_exa_try
  list_webset_items_exa_try get_webset_item_exa_try delete_webset_item_exa_try
  search_webset_items_exa_try
  update_webset_item_exa_try batch_update_items_exa_try batch_delete_items_exa_try
  batch_verify_items_exa_try
  create_export_exa_try get_export_exa_try list_exports_exa_try delete_export_exa_try
  : handlers.

(** Unfolds the monad and the axios wrappers, leaving the pure helpers. *)
Ltac step_monad :=
  cbv beta iota zeta delta
    [bind ret ask lift emit throw try_catch api_key new_requestId createRequestLogger
     logger_start logger_log logger_error logger_complete
     axios_send axios_create instance_request instance_get instance_post instance_patch
     instance_delete axios_get axios_post axios_patch axios_delete
     catch_plain catch_items catch_envelope fst snd
     instance_baseURL instance_headers instance_timeout logger_requestId logger_tool].

(** *** What a handler sends

    The request is built before the call; what follows the call, and the
    [catch] block, only log and compute. *)

Lemma requests_app (tr tr' : list event) :
  requests_of (tr ++ tr') = (requests_of tr ++ requests_of tr')%list.
Proof.
  induction tr as [| ev tr IH]; [reflexivity |].
  destruct ev; cbn [app requests_of]; rewrite IH; reflexivity.
Qed.

Lemma quiet_ret {A} (a : A) : quiet (ret a).
Proof. intros w. reflexivity. Qed.

Lemma quiet_lift {A} (c : completion A) : quiet (lift c).
Proof. intros w. reflexivity. Qed.

Lemma quiet_logger_start (l : logger) (message : string) : quiet (logger_start l message).
Proof. intros w. reflexivity. Qed.

Lemma quiet_logger_log (l : logger) (message : string) : quiet (logger_log l message).
Proof. intros w. reflexivity. Qed.

Lemma quiet_logger_error (l : logger) (e : thrown) : quiet (logger_error l e).
Proof. intros w. reflexivity. Qed.

Lemma quiet_logger_complete (l : logger) : quiet (logger_complete l).
Proof. intros w. reflexivity. Qed.

Lemma quiet_bind {A B} (m : M A) (k : A -> M B) :
  quiet m -> (forall a, quiet (k a)) -> quiet (bind m k).
Proof.
  intros Hm Hk w. unfold bind. specialize (Hm w).
  destruct (m w) as [[a | e] tr]; cbn [snd] in Hm |- *; [| exact Hm].
  specialize (Hk a w). destruct (k a w) as [c tr']. cbn [snd] in Hk |- *.
  rewrite requests_app, Hm, Hk. reflexivity.
Qed.

Lemma quiet_catch_plain (label : string) (e : thrown) : quiet (catch_plain label e).
Proof. unfold catch_plain. apply quiet_bind; [apply quiet_lift | intros; apply quiet_ret]. Qed.

Lemma quiet_catch_items (l : logger) (label : string) (e : thrown) :
  quiet (catch_items l label e).
Proof.
  unfold catch_items. apply quiet_bind; [apply quiet_logger_error | intros _].
  destruct (isAxiosError e); cbv zeta;
    (apply quiet_bind; [apply quiet_lift | intros; apply quiet_ret]).
Qed.

Lemma quiet_catch_envelope (e : thrown) : quiet (catch_envelope e).
Proof. unfold catch_envelope. destruct (isAxiosError e); apply quiet_ret. Qed.

Lemma after_api_key {A} (k : value -> M A) (w : world) :
  (key <- api_key ;; k key) w
  = k (js_or (js_or (opt_get (config w) "exaApiKey") (env_EXA_API_KEY w)) (VStr "")) w.
Proof.
  unfold api_key. unfold bind, ask, ret. cbn [app].
  destruct (k _ w) as [c tr]. reflexivity.
Qed.

Lemma requests_lift {A B} (c : completion A) (k : A -> M B) (w : world) :
  requests_of (snd ((let* x := c in k x) w))
  = match c with
    | Normal a => requests_of (snd (k a w))
    | Throw _ => []
    end.
Proof.
  unfold bind, lift. destruct c as [a | e]; [| reflexivity].
  destruct (k a w) as [c tr]. reflexivity.
Qed.

Lemma requests_send {B} (q : request) (k : http_response -> M B) (w : world) :
  (forall a, quiet (k a)) ->
  requests_of (snd ((response <- axios_send q ;; k response) w)) = [q].
Proof.
  intros Hk. unfold bind, axios_send.
  destruct (network w q) as [a | e]; [| reflexivity].
  specialize (Hk a w). destruct (k a w) as [c tr]. cbn [snd] in Hk |- *.
  cbn [app requests_of]. rewrite Hk. reflexivity.
Qed.

Lemma requests_try {A} (body : M A) (on_error : thrown -> M A) (w : world) :
  (forall e, quiet (on_error e)) ->
  requests_of (snd (try_catch body on_error w)) = requests_of (snd (body w)).
Proof.
  intros Hcatch. unfold try_catch.
  destruct (body w) as [[a | e] tr]; [reflexivity |].
  specialize (Hcatch e w). destruct (on_error e w) as [c tr']. cbn [snd] in Hcatch |- *.
  rewrite requests_app, Hcatch. apply app_nil_r.
Qed.

(** Shows that what follows a call, or a [catch] block, sends nothing. *)
Ltac be_quiet :=
  repeat first
    [ progress (intros; cbv beta zeta)
    | apply quiet_catch_plain
    | apply quiet_catch_items
    | apply quiet_catch_envelope
    | apply quiet_logger_start
    | apply quiet_logger_log
    | apply quiet_logger_error
    | apply quiet_logger_complete
    | apply quiet_lift
    | apply quiet_ret
    | apply quiet_bind ].

(** Computes the requests of a handler: the one request it builds, or
    none when building the query string throws (then [Hq] records what
    was thrown). *)
Ltac sent_requests :=
  cbn [handler]; autounfold with handlers; cbv zeta;
  rewrite ?after_prelude; cbv zeta;
  rewrite ?after_start; cbn [snd requests_of];
  rewrite requests_try by be_quiet;
  rewrite after_api_key; cbv zeta;
  unfold instance_get, instance_post, instance_patch, instance_delete, instance_request,
    axios_get, axios_post, axios_patch, axios_delete;
  try (rewrite requests_lift;
       match goal with
       | |- context [match ?c with Normal _ => _ | Throw _ => _ end] => destruct c eqn:Hq
       end);
  rewrite ?requests_send by be_quiet.

(** Case analysis on every completion the handler inspects. *)
Ltac each_completion :=
  repeat match goal with
    | |- context [match ?x with Normal _ => _ | Throw _ => _ end] => destruct x
    | e : thrown |- _ => destruct e
    end.

(** C2 (amended). When the remote call fails with an HTTP error that
    carries a response, the export and batch tools return
    [{success: false, error, details}] where [error] is the body's [error]
    member if it is truthy and otherwise the message of the axios error,
    and [details] is the body; the item tools return an [isError] text
    with the status code and the text of that same error, when it has
    one; the import, monitor, webhook and event tools return an [isError]
    text with the axios message only. *)
Theorem remote_error_is_reported (op : Op.operation) (args : args_t) (w : world)
  (message : string) (r : http_response) (text : string) :
  (forall q, network w q = Throw (AxiosError message (Some r))) ->
  requests_of (snd (handler API_CONFIG JSON_stringify op args w)) <> [] ->
  (In op logging_operations -> ToString (body_error_or_message r message) = Normal text) ->
  fst (handler API_CONFIG JSON_stringify op args w)
  = Normal (remote_error_outcome (reporting_of op) message r text).
Proof.
  intros Hnet Hsent Htext. revert Hsent.
  destruct op;
    try (assert (Hconv : ToString (body_error_or_message r message) = Normal text)
           by (apply Htext; cbn; auto));
    clear Htext;
    cbn [handler reporting_of remote_error_outcome];
    autounfold with handlers; step_monad;
    repeat match goal with
      | |- context [match append_if_defined ?k ?x ?p with _ => _ end] =>
          destruct (append_if_defined k x p)
      | |- context [match search_params ?f ?c ?l with _ => _ end] =>
          destruct (search_params f c l)
      end;
    rewrite ?Hnet;
    repeat match goal with e : thrown |- _ => destruct e end;
    cbn [isAxiosError message_or_String];
    unfold body_error_or_message, js_or, response_status, response_data, error_message in *;
    try rewrite Hconv;
    each_completion;
    cbn [requests_of app fst snd];
    try (intros Hnone; exfalso; apply Hnone; reflexivity);
    intros _;
    cbn [truthy text_of]; try destruct (Z.eqb (status r) 0); reflexivity.
Qed.

(** C1 (failing input).  When the remote call of an item tool fails with
    a response whose [error] member cannot be converted to a string, the
    template literal of the [catch] block throws in its turn, and the
    [TypeError] leaves the handler: the caller gets no result. *)
Theorem unconvertible_error_escapes (op : Op.operation) (args : args_t) (w : world)
  (message : string) (r : http_response) :
  In op logging_operations ->
  (forall q, network w q = Throw (AxiosError message (Some r))) ->
  requests_of (snd (handler API_CONFIG JSON_stringify op args w)) <> [] ->
  convertible (body_error_or_message r message) = false ->
  fst (handler API_CONFIG JSON_stringify op args w)
  = Throw (JsError "Cannot convert object to primitive value").
Proof.
  intros Hop Hnet Hsent Hconv. revert Hsent.
  cbn [logging_operations In] in Hop.
  repeat (destruct Hop as [<- | Hop]); try contradiction;
    cbn [handler]; autounfold with handlers; step_monad;
    repeat match goal with
      | |- context [match append_if_defined ?k ?x ?p with _ => _ end] =>
          destruct (append_if_defined k x p)
      | |- context [match search_params ?f ?c ?l with _ => _ end] =>
          destruct (search_params f c l)
      end;
    rewrite ?Hnet;
    repeat match goal with e : thrown |- _ => destruct e end;
    cbn [isAxiosError message_or_String];
    unfold body_error_or_message, js_or, response_status, response_data, error_message,
      ToString in *;
    cbv beta iota; rewrite ?Hconv;
    each_completion;
    cbn [requests_of app fst snd];
    try (intros Hnone; exfalso; apply Hnone; reflexivity);
    intros _; reflexivity.
Qed.

Lemma api_key_choice (configured environment : value) :
  let key := js_or (js_or configured environment) (VStr "") in
  (truthy configured = true -> key = configured) /\
  (truthy configured = false -> truthy environment = true -> key = environment).
Proof.
  unfold js_or. split.
  - intros H. rewrite H. cbv iota. rewrite H. reflexivity.
  - intros H H'. rewrite H. cbv iota. rewrite H'. reflexivity.
Qed.

(** Every request carries the [x-api-key] header: the configured key when
    there is one, else the key of the environment. *)
Lemma requests_carry_api_key (op : Op.operation) (args : args_t) (w : world) (r : request) :
  In r (requests_of (snd (handler API_CONFIG JSON_stringify op args w))) ->
  let configured := opt_get (config w) "exaApiKey" in
  (truthy configured = true -> header "x-api-key" r = configured) /\
  (truthy configured = false -> truthy (env_EXA_API_KEY w) = true ->
   header "x-api-key" r = env_EXA_API_KEY w).
Proof.
  destruct op; sent_requests; cbn [In];
    intros Hin; try contradiction;
    destruct Hin as [<- | []]; apply api_key_choice.
Qed.

(** The tools registered with [server.tool] create their client with the
    configured timeout. *)
Lemma instance_requests_have_timeout (op : Op.operation) (args : args_t) (w : world)
  (r : request) :
  reporting_of op <> Envelope ->
  In r (requests_of (snd (handler API_CONFIG JSON_stringify op args w))) ->
  timeout r = Some (REQUEST_TIMEOUT API_CONFIG).
Proof.
  destruct op; cbn [reporting_of]; intros Hstyle; try congruence; clear Hstyle;
    sent_requests; cbn [In];
    intros Hin; try contradiction;
    destruct Hin as [<- | []]; reflexivity.
Qed.

(** C3 (failing input). The request [create_export_exa] issues has the
    [x-api-key] header but no timeout at all, whatever the arguments. *)
Theorem create_export_request_has_no_timeout (args : args_t) (w : world) :
  exists r,
    requests_of (snd (create_export_exa API_CONFIG args w)) = [r] /\
    timeout r = None /\
    header "x-api-key" r
    = js_or (js_or (opt_get (config w) "exaApiKey") (env_EXA_API_KEY w)) (VStr "").
Proof.
  sent_requests. eexists. repeat split.
Qed.

(** The same holds for every tool of [websetBatch] and [websetExport]. *)
Lemma envelope_requests_have_no_timeout (op : Op.operation) (args : args_t) (w : world)
  (r : request) :
  reporting_of op = Envelope ->
  In r (requests_of (snd (handler API_CONFIG JSON_stringify op args w))) ->
  timeout r = None.
Proof.
  destruct op; cbn [reporting_of]; intros Hstyle; try discriminate; clear Hstyle;
    sent_requests; cbn [In];
    intros Hin; try contradiction;
    destruct Hin as [<- | []]; reflexivity.
Qed.

(** *** Validation *)

Lemma parse_object_cons (k : string) (p : presence) (s : schema)
  (rest : list (string * (presence * schema))) (fields : list (string * value)) :
  parse (z_object ((k, (p, s)) :: rest)) (VObj fields)
  = match parse_member p s (lookup k fields) with
    | Invalid i => Invalid (k ++ ": " ++ i)
    | Parsed y =>
        match parse (z_object rest) (VObj fields) with
        | Parsed (VObj ys) =>
            Parsed (VObj (match y with
                          | VUndefined => ys
                          | _ => (k, y) :: ys
                          end))
        | other => other
        end
    end.
Proof. reflexivity. Qed.

Lemma parse_array_cons (element : schema) (x : value) (rest : list value) :
  parse (z_array element) (VArr (x :: rest))
  = match parse element x with
    | Invalid i => Invalid i
    | Parsed y =>
        match parse (z_array element) (VArr rest) with
        | Parsed (VArr ys) => Parsed (VArr (y :: ys))
        | other => other
        end
    end.
Proof. reflexivity. Qed.

Lemma parse_record_cons (values : schema) (k : string) (x : value)
  (rest : list (string * value)) :
  parse (z_record values) (VObj ((k, x) :: rest))
  = match parse values x with
    | Invalid i => Invalid i
    | Parsed y =>
        match parse (z_record values) (VObj rest) with
        | Parsed (VObj ys) => Parsed (VObj ((k, y) :: ys))
        | other => other
        end
    end.
Proof. reflexivity. Qed.

Lemma object_member_invalid (shape : list (string * (presence * schema)))
  (fields : list (string * value)) (k : string) (p : presence) (s : schema) (i : string) :
  In (k, (p, s)) shape ->
  parse_member p s (lookup k fields) = Invalid i ->
  exists i', parse (z_object shape) (VObj fields) = Invalid i'.
Proof.
  induction shape as [| [k' [p' s']] rest IH]; intros Hin Hbad.
  - contradiction.
  - rewrite parse_object_cons. destruct Hin as [Heq | Hin].
    + inversion Heq; subst. rewrite Hbad. eauto.
    + destruct (IH Hin Hbad) as [i' Hrest]. rewrite Hrest.
      destruct (parse_member p' s' (lookup k' fields)); eauto.
Qed.

Lemma array_element_invalid (element : schema) (xs : list value) (x : value) (i : string) :
  In x xs ->
  parse element x = Invalid i ->
  exists i', parse (z_array element) (VArr xs) = Invalid i'.
Proof.
  induction xs as [| y rest IH]; intros Hin Hbad.
  - contradiction.
  - rewrite parse_array_cons. destruct Hin as [-> | Hin].
    + rewrite Hbad. eauto.
    + destruct (IH Hin Hbad) as [i' Hrest]. rewrite Hrest.
      destruct (parse element y); eauto.
Qed.

Lemma record_value_invalid (values : schema) (fields : list (string * value))
  (k : string) (x : value) (i : string) :
  In (k, x) fields ->
  parse values x = Invalid i ->
  exists i', parse (z_record values) (VObj fields) = Invalid i'.
Proof.
  induction fields as [| [k' y] rest IH]; intros Hin Hbad.
  - contradiction.
  - rewrite parse_record_cons. destruct Hin as [Heq | Hin].
    + inversion Heq; subst. rewrite Hbad. eauto.
    + destruct (IH Hin Hbad) as [i' Hrest]. rewrite Hrest.
      destruct (parse values y); eauto.
Qed.

Lemma enum_outside_invalid (members : list string) (v : value) :
  (forall m, In m members -> v <> VStr m) ->
  exists i, parse (z_enum members) v = Invalid i.
Proof.
  intros Hout. destruct v; cbn [parse]; eauto.
  destruct (existsb (String.eqb s) members) eqn:Hmem; eauto.
  apply existsb_exists in Hmem. destruct Hmem as (m & Hin & Heq).
  apply String.eqb_eq in Heq. subst. exfalso. exact (Hout m Hin eq_refl).
Qed.

Lemma violates_rejected (s : schema) (v : value) :
  violates s v -> exists issue, parse s v = Invalid issue.
Proof.
  induction 1 as [shape fields k s Hin Hany Hmiss
                 | members v Hout
                 | shape fields k p s Hin Hset _ [i IH]
                 | element xs x Hin _ [i IH]
                 | values fields k x Hin _ [i IH]].
  - apply (object_member_invalid shape fields k Required s "Required" Hin).
    unfold parse_member. rewrite Hmiss. destruct s; try reflexivity; discriminate.
  - apply enum_outside_invalid; assumption.
  - apply (object_member_invalid shape fields k p s i Hin).
    unfold parse_member. destruct p; destruct (lookup k fields); try exact IH; congruence.
  - exact (array_element_invalid element xs x i Hin IH).
  - exact (record_value_invalid values fields k x i Hin IH).
Qed.

(** C4. Whatever the operation, arguments that fail its declared shape --
    a required member missing, or an enumerated member (at any depth)
    given a value outside its closed set -- yield the validation-failure
    outcome, and the invocation leaves no event behind: in particular no
    HTTP request. *)
Theorem invalid_arguments_issue_no_request (op : Op.operation) (arguments : value)
  (w : world) :
  violates (input_schema op) arguments ->
  exists issue,
    invoke API_CONFIG JSON_stringify op arguments w = (Normal (validation_failure issue), []) /\
    requests_of (snd (invoke API_CONFIG JSON_stringify op arguments w)) = [].
Proof.
  intros Hbad. destruct (violates_rejected _ _ Hbad) as [issue Hparse].
  exists issue. unfold invoke. rewrite Hparse. split; reflexivity.
Qed.

(** *** Client-side pattern filters *)

Lemma filter_completion_pure {A} (f : A -> completion bool) (g : A -> bool) (xs : list A) :
  Forall (fun x => f x = Normal (g x)) xs ->
  filter_completion f xs = Normal (filter g xs).
Proof.
  induction 1 as [| x rest Hx _ IH]; cbn [filter_completion filter].
  - reflexivity.
  - rewrite Hx, IH. reflexivity.
Qed.

Lemma map_completion_pure {A B} (f : A -> completion B) (g : A -> B) (xs : list A) :
  Forall (fun x => f x = Normal (g x)) xs ->
  map_completion f xs = Normal (map g xs).
Proof.
  induction 1 as [| x rest Hx _ IH]; cbn [map_completion map].
  - reflexivity.
  - rewrite Hx, IH. reflexivity.
Qed.

Lemma get_defined (v : value) (k : string) :
  nullish v = false -> get v k = Normal (prop v k).
Proof. unfold get. intros ->. reflexivity. Qed.

Lemma ToString_convertible (v : value) :
  convertible v = true -> ToString v = Normal (text_of v).
Proof. unfold ToString. intros ->. reflexivity. Qed.

Lemma well_formed_filter (g : value -> bool) (page : list value) :
  well_formed_page page -> well_formed_page (filter g page).
Proof.
  unfold well_formed_page. rewrite !Forall_forall. intros H x Hin.
  apply filter_In in Hin. apply H, Hin.
Qed.

Lemma readable_filter (g : value -> bool) (page : list value) :
  readable_page page -> readable_page (filter g page).
Proof.
  unfold readable_page. rewrite !Forall_forall. intros H x Hin.
  apply filter_In in Hin. apply H, Hin.
Qed.


Lemma url_filter_on_page (regex : RegExp) (page : list value) :
  readable_page page ->
  array_filter "filteredItems" (VArr page) (url_matches regex)
  = Normal (VArr (filter (fun item => RegExp_test regex (text_of (prop item "url"))) page)).
Proof.
  intros Hpage. cbn [array_filter].
  rewrite (filter_completion_pure _
             (fun item => RegExp_test regex (text_of (prop item "url")))).
  - reflexivity.
  - eapply Forall_impl; [| exact Hpage]. intros item (Hitem & Hurl & _).
    unfold url_matches. rewrite (get_defined _ _ Hitem), (ToString_convertible _ Hurl).
    reflexivity.
Qed.

Lemma title_filter_on_page (regex : RegExp) (page : list value) :
  readable_page page ->
  array_filter "filteredItems" (VArr page) (title_matches regex)
  = Normal (VArr (filter (fun item => truthy (prop item "title")
                                      && RegExp_test regex (text_of (prop item "title")))
                    page)).
Proof.
  intros Hpage. cbn [array_filter].
  rewrite (filter_completion_pure _
             (fun item => truthy (prop item "title")
                          && RegExp_test regex (text_of (prop item "title")))).
  - reflexivity.
  - eapply Forall_impl; [| exact Hpage]. intros item (Hitem & _ & Htitle).
    unfold title_matches. rewrite (get_defined _ _ Hitem), (ToString_convertible _ Htitle).
    destruct (truthy (prop item "title")); reflexivity.
Qed.

Lemma filter_twice {A} (f g : A -> bool) (l : list A) :
  filter g (filter f l) = filter (fun x => f x && g x) l.
Proof.
  induction l as [| x l IH]; cbn [filter]; [reflexivity |].
  destruct (f x); cbn [filter andb]; rewrite IH; reflexivity.
Qed.

Lemma filter_all (g : value -> bool) (page : list value) :
  (forall x, g x = true) -> filter g page = page.
Proof.
  intros Hall. induction page as [| x rest IH]; cbn [filter].
  - reflexivity.
  - rewrite Hall, IH. reflexivity.
Qed.

(** The two filters on a readable page, as one. *)
Lemma filters_on_page (filters : value) (page : list value) (urlRegex titleRegex : RegExp) :
  readable_page page ->
  (truthy (opt_get filters "urlPattern") = true ->
   RegExp_new (text_of (opt_get filters "urlPattern")) "i" = Normal urlRegex) ->
  (truthy (opt_get filters "titlePattern") = true ->
   RegExp_new (text_of (opt_get filters "titlePattern")) "i" = Normal titleRegex) ->
  filteredItems filters (VArr page)
  = Normal (VArr (filter (fun item =>
                            passes_url (opt_get filters "urlPattern") urlRegex item
                            && passes_title (opt_get filters "titlePattern") titleRegex item)
                    page)).
Proof.
  intros Hpage Hurl Htitle. unfold filteredItems, apply_pattern, passes_url, passes_title.
  destruct (truthy (opt_get filters "urlPattern")) eqn:Hu;
    destruct (truthy (opt_get filters "titlePattern")) eqn:Ht; cbn [negb orb].
  - rewrite (Hurl eq_refl), (url_filter_on_page urlRegex page Hpage), (Htitle eq_refl).
    rewrite title_filter_on_page by (apply readable_filter; exact Hpage).
    rewrite filter_twice. reflexivity.
  - rewrite (Hurl eq_refl), (url_filter_on_page urlRegex page Hpage).
    do 2 f_equal. apply filter_ext. intros item. rewrite andb_true_r. reflexivity.
  - rewrite (Htitle eq_refl), (title_filter_on_page titleRegex page Hpage). reflexivity.
  - rewrite filter_all; reflexivity.
Qed.


Lemma search_params_defined (filters cursor limit : value) :
  opt_get filters "hasEnrichedData" <> VNull ->
  exists params, search_params filters cursor limit = Normal params.
Proof.
  intros Hflag. unfold search_params, append_if_defined, toString_method.
  destruct (opt_get filters "hasEnrichedData"); cbn [nullish]; eauto. congruence.
Qed.



(** *** Export summaries *)

Lemma filtered_status_count (s : string) (page : list value) :
  List.length (filter (fun e => strict_eq_str (prop e "status") s) page)
  = occurrences s (statuses_of page).
Proof.
  induction page as [| e rest IH]; cbn [filter statuses_of map occurrences].
  - reflexivity.
  - fold (statuses_of rest). unfold strict_eq_str at 1.
    destruct (prop e "status"); try exact IH.
    destruct (String.eqb s0 s); cbn [List.length]; rewrite IH; reflexivity.
Qed.

Lemma count_status_on_page (s : string) (page : list value) :
  well_formed_page page ->
  count_status (VArr page) s = Normal (VNum (Z.of_nat (occurrences s (statuses_of page)))).
Proof.
  intros Hpage. unfold count_status. cbn [array_filter].
  rewrite (filter_completion_pure _ (fun e => strict_eq_str (prop e "status") s)).
  - cbn [get nullish prop String.eqb Ascii.eqb Bool.eqb]. rewrite filtered_status_count. reflexivity.
  - eapply Forall_impl; [| exact Hpage]. intros e He.
    unfold status_is. rewrite (get_defined _ _ He). reflexivity.
Qed.

(** C6. On a successful answer the list-exports tool reports, next to the
    page, a summary whose [total] is the size of the page and whose four
    counters are the numbers of jobs of the page with that status; for a
    page of three jobs with statuses completed, pending and failed this is
    [{total: 3, completed: 1, pending: 1, processing: 0, failed: 1}]. *)
Theorem list_exports_summary (args : args_t) (w : world) (response : http_response)
  (page : list value) :
  (forall q, network w q = Normal response) ->
  prop (data response) "data" = VArr page ->
  well_formed_page page ->
  fst (list_exports_exa API_CONFIG args w)
  = Normal (VObj [("success", VBool true);
                  ("data", VArr page);
                  ("hasMore", prop (data response) "hasMore");
                  ("nextCursor", prop (data response) "nextCursor");
                  ("summary", status_summary page)])
  /\ (statuses_of page = [VStr "completed"; VStr "pending"; VStr "failed"] ->
      status_summary page
      = VObj [("total", VNum 3); ("completed", VNum 1); ("pending", VNum 1);
              ("processing", VNum 0); ("failed", VNum 1)]).
Proof.
  intros Hnet Hdata Hpage. split.
  - assert (Hbody : get (data response) "data" = Normal (VArr page)).
    { unfold get. destruct (nullish (data response)) eqn:Hn.
      - destruct (data response); discriminate.
      - rewrite Hdata. reflexivity. }
    unfold list_exports_exa, list_exports_exa_try. step_monad.
    rewrite Hnet, Hbody.
    rewrite !(count_status_on_page _ page Hpage).
    reflexivity.
  - intros Hstatuses. unfold status_summary. rewrite Hstatuses.
    assert (Hlen : List.length page = 3%nat).
    { rewrite <- (length_map (fun e => prop e "status") page).
      fold (statuses_of page). rewrite Hstatuses. reflexivity. }
    rewrite Hlen. reflexivity.
Qed.

(** *** Batch tools *)

(** C7. A batch tool given an array of item identifiers sends exactly one
    request, a POST whose body carries the whole array, whatever the
    remote service answers; and when the call succeeds the count it
    reports is the number of identifiers submitted, whatever the response
    contains. *)
Theorem batch_sends_one_request (op : Op.operation) (args : args_t) (w : world)
  (ids : list value) :
  In op batch_operations ->
  args!"itemIds" = VArr ids ->
  exists r,
    requests_of (snd (handler API_CONFIG JSON_stringify op args w)) = [r] /\
    method r = POST /\
    (exists others, body r = Some (VObj (("itemIds", VArr ids) :: others))) /\
    forall response,
      network w r = Normal response ->
      fst (handler API_CONFIG JSON_stringify op args w)
      = Normal (VObj [("success", VBool true);
                      ("data", data response);
                      ("message", VStr (batch_report op (List.length ids)))]).
Proof.
  intros Hop Hids.
  destruct Hop as [<- | [<- | [<- | []]]];
    cbn [handler batch_report]; autounfold with handlers; step_monad;
    rewrite Hids; cbn [get nullish prop String.eqb Ascii.eqb Bool.eqb text_of];
    match goal with |- context [network w ?q] => exists q end;
    (split; [| split; [reflexivity | split; [eexists; reflexivity |]]]).
  all: try (intros response Hr; rewrite Hr; reflexivity).
  all: destruct (network w _); each_completion; reflexivity.
Qed.

(** *** Query strings *)






Lemma lookup_rest_without (k : string) (keys : list string) (fields : list (string * value)) :
  existsb (String.eqb k) keys = false ->
  lookup k (rest_without keys fields) = lookup k fields.
Proof.
  intros Hk. induction fields as [| [k' v] rest IH]; cbn [rest_without filter lookup fst].
  - reflexivity.
  - destruct (String.eqb k k') eqn:Hkk'.
    + apply String.eqb_eq in Hkk'. subst k'. rewrite Hk. cbn [negb lookup].
      rewrite String.eqb_refl. reflexivity.
    + destruct (existsb (String.eqb k') keys); cbn [negb lookup].
      * exact IH.
      * rewrite Hkk'. exact IH.
Qed.



Lemma list_exports_default_limit (raw args : list (string * value)) :
  parse (input_schema Op.list_exports_exa) (VObj raw) = Parsed (VObj args) ->
  raw!"limit" = VUndefined ->
  args!"limit" = VNum 20.
Proof.
  cbn [input_schema]. unfold req, dflt, opt. rewrite !parse_object_cons.
  intros Hparse Hlimit. rewrite Hlimit in Hparse. revert Hparse.
  unfold parse_member.
  destruct (raw!"websetId"), (raw!"cursor"); cbn; intros H; inversion H; reflexivity.
Qed.

(** *** Title and case *)

Lemma filter_completion_sound {A} (f : A -> completion bool) (xs ys : list A) :
  filter_completion f xs = Normal ys ->
  forall y, In y ys -> In y xs /\ f y = Normal true.
Proof.
  revert ys. induction xs as [| x rest IH]; cbn [filter_completion]; intros ys Hys y Hy.
  - inversion Hys; subst. contradiction.
  - destruct (f x) as [b |] eqn:Hx; [| discriminate].
    destruct (filter_completion f rest) as [zs |]; [| discriminate].
    inversion Hys; subst ys; clear Hys.
    destruct b.
    + destruct Hy as [<- | Hy].
      * split; [left; reflexivity | exact Hx].
      * destruct (IH zs eq_refl y Hy). split; [right |]; assumption.
    + destruct (IH zs eq_refl y Hy). split; [right |]; assumption.
Qed.


Lemma array_filter_sound (receiver : string) (v : value) (f : value -> completion bool)
  (out : value) :
  array_filter receiver v f = Normal out ->
  exists xs ys, v = VArr xs /\ out = VArr ys /\
                forall y, In y ys -> In y xs /\ f y = Normal true.
Proof.
  unfold array_filter. destruct v; try (destruct (nullish _); discriminate); try discriminate.
  destruct (filter_completion f xs) as [ys |] eqn:Hf; [| discriminate].
  intros H. inversion H; subst. exists xs, ys. repeat split; eapply filter_completion_sound; eauto.
Qed.

Lemma apply_pattern_subset (pattern : value) (test : RegExp -> value -> completion bool)
  (page : list value) (out : value) :
  apply_pattern pattern test (VArr page) = Normal out ->
  exists kept, out = VArr kept /\ forall y, In y kept -> In y page.
Proof.
  unfold apply_pattern. destruct (truthy pattern).
  - destruct (RegExp_new _ _) as [regex |]; [| discriminate].
    intros H. apply array_filter_sound in H. destruct H as (xs & ys & Hxs & -> & Hys).
    inversion Hxs; subst xs. exists ys. split; [reflexivity |]. intros y Hy. apply Hys, Hy.
  - intros H. inversion H; subst. eauto.
Qed.









(** * Further properties of the handlers *)

Lemma request_count (op : Op.operation) (args : args_t) (w : world) :
  (exists r, requests_of (snd (handler API_CONFIG JSON_stringify op args w)) = [r]) \/
  (requests_of (snd (handler API_CONFIG JSON_stringify op args w)) = [] /\ null_flag op args).
Proof.
  destruct op; cbn [null_flag]; sent_requests;
    try (left; eexists; reflexivity);
    right; (split; [reflexivity |]);
    try unfold search_params in Hq;
    repeat match type of Hq with
      | match ?c with Normal _ => _ | Throw _ => _ end = Throw _ =>
          let Hc := fresh "Hc" in destruct c eqn:Hc; [discriminate Hq |]
      end;
    match goal with
    | H : append_if_defined _ ?x _ = Throw _ |- _ =>
        unfold append_if_defined, toString_method in H;
        destruct x eqn:Hflag; try discriminate H
    end;
    first [ reflexivity
          | exact Hflag
          | rewrite lookup_rest_without in Hflag by reflexivity; exact Hflag ].
Qed.



(** X2. Whatever the operation, the [x-api-key] header of a request is
    the configured key when that is truthy, else the key of the
    environment when that is truthy, else the empty string: a missing key
    does not stop the request from being sent. *)
Theorem api_key_header (op : Op.operation) (args : args_t) (w : world) (r : request) :
  In r (requests_of (snd (handler API_CONFIG JSON_stringify op args w))) ->
  header "x-api-key" r
  = if truthy (opt_get (config w) "exaApiKey") then opt_get (config w) "exaApiKey"
    else if truthy (env_EXA_API_KEY w) then env_EXA_API_KEY w
    else VStr "".
Proof.
  destruct op; sent_requests; cbn [In];
    intros Hin; try contradiction;
    destruct Hin as [<- | []];
    cbn [header headers read_headers write_headers lookup String.eqb Ascii.eqb Bool.eqb];
    unfold js_or;
    destruct (truthy (opt_get (config w) "exaApiKey")) eqn:Hc; rewrite ?Hc;
    try reflexivity;
    destruct (truthy (env_EXA_API_KEY w)) eqn:He; rewrite ?He; reflexivity.
Qed.

(** X3. Every request announces [accept: application/json]; it carries a
    body exactly when its verb is POST or PATCH, and the [content-type]
    header exactly when it carries a body. *)
Theorem headers_follow_body (op : Op.operation) (args : args_t) (w : world) (r : request) :
  In r (requests_of (snd (handler API_CONFIG JSON_stringify op args w))) ->
  header "accept" r = VStr "application/json" /\
  match body r with
  | Some _ => header "content-type" r = VStr "application/json" /\
              (method r = POST \/ method r = PATCH)
  | None => header "content-type" r = VUndefined /\
            (method r = GET \/ method r = DELETE)
  end.
Proof.
  destruct op; sent_requests; cbn [In];
    intros Hin; try contradiction;
    destruct Hin as [<- | []];
    (split; [reflexivity | split; [reflexivity | auto]]).
Qed.

Lemma try_block_value_is_unflagged (op : Op.operation) (l : logger) (args : args_t)
  (w : world) (v : value) :
  fst (try_block API_CONFIG JSON_stringify op l args w) = Normal v ->
  error_flagged v = false.
Proof.
  destruct op; cbn [try_block]; autounfold with handlers; step_monad; each_completion;
    cbn [fst]; intros Hv; try discriminate; injection Hv as <-; reflexivity.
Qed.

(** X4. The error flag tells failure from success: the outcome of a
    handler is error-flagged exactly when its [try] block threw. *)
Theorem error_flag_iff_thrown (op : Op.operation) (args : args_t) (w : world) :
  match fst (handler API_CONFIG JSON_stringify op args w) with
  | Normal out => error_flagged out
  | Throw _ => true
  end
  = match fst (try_block API_CONFIG JSON_stringify op (logger_of op w) args w) with
    | Normal _ => false
    | Throw _ => true
    end.
Proof.
  pose proof (try_block_value_is_unflagged op (logger_of op w) args w) as Hok.
  change (match fst (handler API_CONFIG JSON_stringify op args w) with
          | Normal out => error_flagged out
          | Throw _ => true
          end)
    with (outcome_flagged (fst (handler API_CONFIG JSON_stringify op args w))).
  revert Hok.
  destruct op; cbn [handler try_block]; unfold logger_of, tool_name;
    autounfold with handlers;
    try rewrite after_prelude; cbv zeta; try rewrite after_start; cbn [fst];
    rewrite try_catch_flagged
      by (intros ?;
          first [ apply catch_plain_flags
                | apply catch_items_flags
                | apply catch_envelope_flagged
                | apply logged_catch_plain_flags ]);
    match goal with
    | |- (forall v, fst ?x = Normal v -> _) -> _ =>
        destruct (fst x); intros Hok; [apply Hok; reflexivity | reflexivity]
    end.
Qed.

(** X5. A call that got no response (connection refused, timeout) is
    reported with the message of the axios error alone: the export and
    batch tools return [{success: false, error: message, details:
    undefined}], the item tools put "unknown" where the status code
    would be, the other tools return the message after their label. *)
Theorem transport_error_is_reported (op : Op.operation) (args : args_t) (w : world)
  (message : string) :
  (forall q, network w q = Throw (AxiosError message None)) ->
  requests_of (snd (handler API_CONFIG JSON_stringify op args w)) <> [] ->
  fst (handler API_CONFIG JSON_stringify op args w)
  = Normal (transport_error_outcome (reporting_of op) message).
Proof.
  intros Hnet.
  destruct op; cbn [handler reporting_of transport_error_outcome];
    autounfold with handlers; step_monad;
    repeat match goal with
      | |- context [match append_if_defined ?k ?x ?p with _ => _ end] =>
          destruct (append_if_defined k x p)
      | |- context [match search_params ?f ?c ?l with _ => _ end] =>
          destruct (search_params f c l)
      end;
    rewrite ?Hnet;
    repeat match goal with e : thrown |- _ => destruct e end;
    cbn [isAxiosError message_or_String response_data response_status error_message
         opt_get nullish js_or truthy ToString convertible];
    each_completion;
    cbn [requests_of app fst snd];
    try (intros Hnone; exfalso; apply Hnone; reflexivity);
    intros _; reflexivity.
Qed.

(** *** Validated arguments *)

Lemma parse_object_is_object (shape : list (string * (presence * schema)))
  (fields : list (string * value)) (y : value) :
  parse (z_object shape) (VObj fields) = Parsed y -> exists out, y = VObj out.
Proof.
  revert y. induction shape as [| [k [p s]] rest IH]; intros y.
  - cbn. intros H; inversion H; eauto.
  - rewrite parse_object_cons.
    destruct (parse_member p s (lookup k fields)) as [m | i]; [| discriminate].
    destruct (parse (z_object rest) (VObj fields)) as [z | i]; [| discriminate].
    destruct (IH z eq_refl) as [ys ->].
    intros H; inversion H; eauto.
Qed.

Lemma parse_object_input (shape : list (string * (presence * schema))) (v y : value) :
  parse (z_object shape) v = Parsed y ->
  exists fields out, v = VObj fields /\ y = VObj out.
Proof.
  destruct v; cbn [parse]; try discriminate.
  intros H. destruct (parse_object_is_object shape fields y H) as [out ->]. eauto.
Qed.

(** A member of a parsed object is absent, or was accepted by the schema
    of a member of that name, or is that member's default. *)
Lemma parse_object_member (shape : list (string * (presence * schema)))
  (fields out : list (string * value)) (k : string) :
  parse (z_object shape) (VObj fields) = Parsed (VObj out) ->
  lookup k out = VUndefined \/
  exists p s, In (k, (p, s)) shape /\
              ((exists x, parse s x = Parsed (lookup k out)) \/ p = Default (lookup k out)).
Proof.
  revert out. induction shape as [| [k' [p' s']] rest IH]; intros out.
  - cbn. intros H; inversion H; subst. left. reflexivity.
  - rewrite parse_object_cons.
    destruct (parse_member p' s' (lookup k' fields)) as [m | i] eqn:Hm; [| discriminate].
    destruct (parse (z_object rest) (VObj fields)) as [z | i] eqn:Hrest; [| discriminate].
    destruct (parse_object_is_object rest fields z Hrest) as [ys ->].
    intros H. injection H as <-.
    assert (Hlater : lookup k ys = VUndefined \/
              exists p s, In (k, (p, s)) ((k', (p', s')) :: rest) /\
                ((exists x, parse s x = Parsed (lookup k ys)) \/ p = Default (lookup k ys))).
    { destruct (IH ys eq_refl) as [Hu | (p & s & Hin & Hp)]; [left; exact Hu |].
      right. exists p, s. split; [right; exact Hin | exact Hp]. }
    assert (Hhere : String.eqb k k' = true -> m <> VUndefined ->
              exists p s, In (k, (p, s)) ((k', (p', s')) :: rest) /\
                ((exists x, parse s x = Parsed m) \/ p = Default m)).
    { intros Hk Hdef. apply String.eqb_eq in Hk. subst k'.
      exists p', s'. split; [left; reflexivity |].
      unfold parse_member in Hm.
      destruct p' as [| | d]; destruct (lookup k fields) eqn:Hx;
        try (left; eexists; exact Hm);
        injection Hm as <-; [congruence | right; reflexivity]. }
    destruct m; cbn [lookup]; try exact Hlater;
      (destruct (String.eqb k k') eqn:Hk; [right; apply Hhere; [reflexivity | discriminate]
                                          | exact Hlater]).
Qed.

Lemma parse_boolean_is_boolean (x y : value) :
  parse z_boolean x = Parsed y -> exists b, y = VBool b.
Proof. destruct x; cbn; intros H; inversion H; eauto. Qed.

Lemma parsed_list_flag (fields args : list (string * value)) :
  parse (input_schema Op.list_webset_items_exa) (VObj fields) = Parsed (VObj args) ->
  args!"hasEnrichedData" <> VNull.
Proof.
  intros Hparse. cbn [input_schema] in Hparse.
  destruct (parse_object_member _ _ _ "hasEnrichedData" Hparse)
    as [-> | (p & s & Hin & Hp)]; [discriminate |].
  cbn [In] in Hin. unfold req, opt in Hin.
  repeat (destruct Hin as [Hin | Hin]; [try discriminate Hin |]); try contradiction.
  injection Hin as <- <-.
  destruct Hp as [[x Hx] | Hp]; [| discriminate].
  destruct (parse_boolean_is_boolean _ _ Hx) as [b ->]. discriminate.
Qed.

Lemma parsed_search_flag (fields args : list (string * value)) :
  parse (input_schema Op.search_webset_items_exa) (VObj fields) = Parsed (VObj args) ->
  opt_get args!"filters" "hasEnrichedData" <> VNull.
Proof.
  intros Hparse. cbn [input_schema] in Hparse.
  destruct (parse_object_member _ _ _ "filters" Hparse)
    as [-> | (p & s & Hin & Hp)]; [discriminate |].
  cbn [In] in Hin. unfold req, opt in Hin.
  repeat (destruct Hin as [Hin | Hin]; [try discriminate Hin |]); try contradiction.
  injection Hin as <- <-.
  destruct Hp as [[x Hx] | Hp]; [| discriminate].
  unfold search_filters in Hx.
  destruct (parse_object_input _ _ _ Hx) as (inner & out & -> & Hout).
  rewrite Hout in Hx |- *. cbn [opt_get nullish prop].
  destruct (parse_object_member _ _ _ "hasEnrichedData" Hx)
    as [-> | (p & s & Hin & Hp)]; [discriminate |].
  cbn [In] in Hin. unfold req, opt in Hin.
  repeat (destruct Hin as [Hin | Hin]; [try discriminate Hin |]); try contradiction.
  injection Hin as <- <-.
  destruct Hp as [[y Hy] | Hp]; [| discriminate].
  destruct (parse_boolean_is_boolean _ _ Hy) as [b ->]. discriminate.
Qed.

(** X6. On arguments that passed the validation of its shape, every
    handler sends exactly one request: the shapes admit no [null]
    enrichment flag. *)
Theorem validated_arguments_send_one_request (op : Op.operation) (arguments : value)
  (args : args_t) (w : world) :
  parse (input_schema op) arguments = Parsed (VObj args) ->
  exists r, requests_of (snd (handler API_CONFIG JSON_stringify op args w)) = [r].
Proof.
  intros Hparse.
  destruct (request_count op args w) as [Hone | [_ Hnull]]; [exact Hone |].
  exfalso.
  destruct op; cbn [null_flag] in Hnull; try contradiction;
    cbn [input_schema] in Hparse;
    destruct (parse_object_input _ _ _ Hparse) as (fields & out & -> & _).
  - exact (parsed_list_flag fields args Hparse Hnull).
  - exact (parsed_search_flag fields args Hparse Hnull).
Qed.

(** *** Path templates *)

Lemma prefix_append (p s : string) : String.prefix p (p ++ s) = true.
Proof.
  induction p as [| c p IH]; cbn.
  - destruct s; reflexivity.
  - destruct (ascii_dec c c) as [_ | Hne]; [exact IH | contradiction].
Qed.

Lemma drop_append (p s : string) : string_drop (String.length p) (p ++ s) = s.
Proof. induction p as [| c p IH]; cbn; [reflexivity | exact IH]. Qed.

Lemma prefix_split (p s : string) :
  String.prefix p s = true -> s = p ++ string_drop (String.length p) s.
Proof.
  revert s. induction p as [| c p IH]; intros s.
  - destruct s; reflexivity.
  - destruct s as [| x s]; cbn [String.prefix]; [discriminate |].
    destruct (ascii_dec c x) as [<- | _]; [| discriminate].
    intros H. cbn. f_equal. apply IH, H.
Qed.

(** [split_first] cuts the subject around an occurrence of the pattern. *)
Lemma split_first_sound (pat s before after : string) :
  split_first pat s = Some (before, after) -> s = before ++ pat ++ after.
Proof.
  revert before. induction s as [| c s IH]; intros before; cbn [split_first].
  - destruct (String.prefix pat "") eqn:Hp.
    + intros H; injection H as <- <-. apply (prefix_split pat "" Hp).
    + discriminate.
  - destruct (String.prefix pat (String c s)) eqn:Hp.
    + intros H; injection H as <- <-. apply (prefix_split pat _ Hp).
    + destruct (split_first pat s) as [[b a] |]; [| discriminate].
      intros H; injection H as <- <-. cbn. f_equal. apply IH. reflexivity.
Qed.

(** ... and around the first one, when the text before it is free of the
    character the pattern begins with. *)
Lemma split_first_at (c : ascii) (p before after : string) :
  occurs c before = false ->
  split_first (String c p) (before ++ String c p ++ after) = Some (before, after).
Proof.
  induction before as [| x before IH]; intros Hfree.
  - cbn [append]. change (String c p ++ after) with (String c (p ++ after)).
    cbn [split_first]. change (String c (p ++ after)) with (String c p ++ after).
    rewrite prefix_append, drop_append. reflexivity.
  - cbn [occurs] in Hfree. apply orb_false_iff in Hfree. destruct Hfree as [Hx Hfree].
    change (String x before ++ String c p ++ after)
      with (String x (before ++ String c p ++ after)).
    assert (Hp : String.prefix (String c p) (String x (before ++ String c p ++ after))
                 = false).
    { cbn [String.prefix]. destruct (ascii_dec c x) as [-> | _]; [| reflexivity].
      rewrite Ascii.eqb_refl in Hx. discriminate. }
    cbn [split_first]. rewrite Hp, (IH Hfree). reflexivity.
Qed.

Lemma substitution_plain (matched before after template : string) :
  occurs "$" template = false ->
  substitution matched before after template = template.
Proof.
  induction template as [| c rest IH]; cbn [occurs substitution]; intros Hfree.
  - reflexivity.
  - apply orb_false_iff in Hfree. destruct Hfree as [Hc Hfree].
    rewrite Hc. f_equal. apply IH, Hfree.
Qed.

Lemma replace_at (c : ascii) (p before after id : string) :
  occurs c before = false ->
  occurs "$" id = false ->
  replace (before ++ String c p ++ after) (String c p) (VStr id) = before ++ id ++ after.
Proof.
  intros Hbefore Hid. unfold replace. rewrite (split_first_at c p before after Hbefore).
  cbn [text_of]. rewrite (substitution_plain _ _ _ id Hid). reflexivity.
Qed.

Lemma occurs_append (c : ascii) (s t : string) :
  occurs c (s ++ t) = occurs c s || occurs c t.
Proof.
  induction s as [| x s IH]; cbn [append occurs]; [reflexivity |].
  rewrite IH. apply orb_assoc.
Qed.

Lemma append_assoc (s t u : string) : (s ++ t) ++ u = s ++ t ++ u.
Proof. induction s as [| c s IH]; cbn; [reflexivity | rewrite IH; reflexivity]. Qed.

(** X7. The tools that address one item resolve their path template by
    two successive replacements.  When the template has the two
    placeholders in that order with no colon before either, and both
    identifiers are free of [$] and [:], the request goes to the template
    with the identifiers in place of the placeholders. *)
Theorem item_path_is_resolved (op : Op.operation) (args : args_t) (w : world)
  (r : request) (a b c websetId itemId : string) :
  In op item_operations ->
  In r (requests_of (snd (handler API_CONFIG JSON_stringify op args w))) ->
  WEBSET_ITEM_BY_ID (ENDPOINTS API_CONFIG) = a ++ ":websetId" ++ b ++ ":itemId" ++ c ->
  occurs ":" a = false ->
  occurs ":" b = false ->
  args!"websetId" = VStr websetId ->
  args!"itemId" = VStr itemId ->
  plain_id websetId = true ->
  occurs "$" itemId = false ->
  url r = url_prefix API_CONFIG op ++ a ++ websetId ++ b ++ itemId ++ c.
Proof.
  intros Hop Hr Htemplate Ha Hb Hw Hi Hplain Hitem.
  unfold plain_id in Hplain. apply andb_true_iff in Hplain.
  destruct Hplain as [Hdollar Hcolon].
  apply negb_true_iff in Hdollar. apply negb_true_iff in Hcolon.
  assert (Hresolved :
    replace (replace (WEBSET_ITEM_BY_ID (ENDPOINTS API_CONFIG)) ":websetId" args!"websetId")
      ":itemId" args!"itemId"
    = a ++ websetId ++ b ++ itemId ++ c).
  { rewrite Htemplate, Hw, Hi.
    rewrite (replace_at ":" "websetId" a (b ++ ":itemId" ++ c) websetId Ha Hdollar).
    replace (a ++ websetId ++ b ++ ":itemId" ++ c)
      with ((a ++ websetId ++ b) ++ ":itemId" ++ c)
      by (rewrite !append_assoc; reflexivity).
    rewrite (replace_at ":" "itemId" (a ++ websetId ++ b) c itemId).
    - rewrite !append_assoc. reflexivity.
    - rewrite !occurs_append, Ha, Hcolon, Hb. reflexivity.
    - exact Hitem. }
  revert Hr.
  destruct Hop as [<- | [<- | [<- | []]]];
    cbn [url_prefix reporting_of]; sent_requests; cbn [In];
    intros Hr; try contradiction; destruct Hr as [<- | []]; cbn [url];
    rewrite Hresolved; reflexivity.
Qed.

Lemma substitution_matched (matched before after lead trail : string) :
  occurs "$" lead = false ->
  occurs "$" trail = false ->
  substitution matched before after (lead ++ "$&" ++ trail) = lead ++ matched ++ trail.
Proof.
  intros Hlead Htrail. induction lead as [| c lead IH].
  - cbn. rewrite (substitution_plain _ _ _ trail Htrail). reflexivity.
  - cbn [occurs] in Hlead. apply orb_false_iff in Hlead. destruct Hlead as [Hc Hlead].
    cbn [append substitution]. rewrite Hc. f_equal. apply IH, Hlead.
Qed.

(** X8. The replacement text is interpreted by [replace]: an import
    identifier that contains [$&] gets the placeholder itself pasted in
    at that place, so the request goes to a path that still holds
    [:importId]. *)
Theorem matched_text_id_keeps_placeholder (op : Op.operation) (args : args_t) (w : world)
  (r : request) (a b lead trail : string) :
  In op import_operations ->
  In r (requests_of (snd (handler API_CONFIG JSON_stringify op args w))) ->
  IMPORT_BY_ID (ENDPOINTS API_CONFIG) = a ++ ":importId" ++ b ->
  occurs ":" a = false ->
  args!"importId" = VStr (lead ++ "$&" ++ trail) ->
  occurs "$" lead = false ->
  occurs "$" trail = false ->
  url r = a ++ lead ++ ":importId" ++ trail ++ b.
Proof.
  intros Hop Hr Htemplate Ha Hid Hlead Htrail.
  assert (Hresolved :
    replace (IMPORT_BY_ID (ENDPOINTS API_CONFIG)) ":importId" args!"importId"
    = a ++ lead ++ ":importId" ++ trail ++ b).
  { rewrite Htemplate, Hid. unfold replace.
    rewrite (split_first_at ":" "importId" a b Ha). cbn [text_of].
    rewrite (substitution_matched _ _ _ lead trail Hlead Htrail).
    rewrite !append_assoc. reflexivity. }
  revert Hr.
  destruct Hop as [<- | [<- | [<- | []]]];
    sent_requests; rewrite Hresolved; cbn [In];
    intros Hr; try contradiction; destruct Hr as [<- | []]; reflexivity.
Qed.

(** *** Request bodies *)

Lemma lookup_removed (k : string) (keys : list string) (fields : list (string * value)) :
  existsb (String.eqb k) keys = true ->
  lookup k (rest_without keys fields) = VUndefined.
Proof.
  intros Hk. induction fields as [| [k' v] rest IH]; cbn [rest_without filter lookup fst].
  - reflexivity.
  - destruct (existsb (String.eqb k') keys) eqn:Hk'; cbn [negb].
    + exact IH.
    + cbn [lookup]. destruct (String.eqb k k') eqn:Hkk'; [| exact IH].
      apply String.eqb_eq in Hkk'. subst k'. congruence.
Qed.

(** Decides a member name against the names a body can have. *)
Ltac decide_member k :=
  repeat match goal with
    | |- context [String.eqb k ?name] =>
        lazymatch name with
        | k => fail
        | _ =>
            let E := fresh "E" in
            destruct (String.eqb k name) eqn:E;
            [ apply String.eqb_eq in E; subst k | ]
        end
    end.

(** X9. The bodies built member by member hold the required members as
    given, an optional member exactly when its argument is truthy, the
    description of a webhook update whenever it is defined (the empty
    string included), and nothing else. *)
Theorem body_follows_arguments (op : Op.operation) (args : args_t) (w : world)
  (r : request) :
  In op body_operations ->
  In r (requests_of (snd (handler API_CONFIG JSON_stringify op args w))) ->
  exists members,
    body r = Some (VObj members) /\
    forall k, lookup k members = body_member op args k.
Proof.
  intros Hop. cbn [body_operations In] in Hop.
  repeat (destruct Hop as [<- | Hop]); try contradiction;
    sent_requests; cbn [In];
    intros Hr; try contradiction; destruct Hr as [<- | []]; cbn [body];
    eexists; (split; [reflexivity |]); intros k;
    unfold body_member;
    cbn [required_members optional_members defined_members existsb];
    rewrite ?lookup_rest_without by reflexivity;
    unfold spread_if;
    repeat match goal with
      | |- context [truthy (lookup ?name args)] =>
          lazymatch name with
          | k => fail
          | _ => let T := fresh "T" in destruct (truthy (lookup name args)) eqn:T
          end
      end;
    try match goal with
      | |- context [match lookup "description" args with _ => _ end] =>
          destruct (lookup "description" args) eqn:D
      end;
    cbn [app lookup];
    decide_member k;
    cbn [orb];
    rewrite ?lookup_rest_without by reflexivity;
    repeat match goal with
      | H : _ = _ |- _ => rewrite H
      end;
    reflexivity.
Qed.

(** X10. A monitor update forwards every argument but the two path
    identifiers, as it is: a member that is empty or [false] is sent
    too. *)
Theorem monitor_update_forwards_arguments (args : args_t) (w : world) (r : request) :
  In r (requests_of
          (snd (handler API_CONFIG JSON_stringify Op.update_webset_monitor_exa args w))) ->
  exists members,
    body r = Some (VObj members) /\
    forall k, lookup k members
              = if String.eqb k "websetId" || String.eqb k "monitorId"
                then VUndefined else args!k.
Proof.
  sent_requests; cbn [In];
    intros Hr; try contradiction; destruct Hr as [<- | []]; cbn [body];
    eexists; (split; [reflexivity |]); intros k.
  all: destruct (String.eqb k "websetId" || String.eqb k "monitorId") eqn:Hk.
  all: try (apply lookup_removed; cbn [existsb]; rewrite orb_false_r; exact Hk).
  all: apply lookup_rest_without; cbn [existsb]; rewrite orb_false_r; exact Hk.
Qed.

Lemma parse_object_keys (shape : list (string * (presence * schema)))
  (fields out : list (string * value)) (k : string) (v : value) :
  parse (z_object shape) (VObj fields) = Parsed (VObj out) ->
  In (k, v) out -> In k (map fst shape).
Proof.
  revert out. induction shape as [| [k' [p' s']] rest IH]; intros out.
  - cbn. intros H; inversion H; subst. contradiction.
  - rewrite parse_object_cons.
    destruct (parse_member p' s' (lookup k' fields)) as [m | i]; [| discriminate].
    destruct (parse (z_object rest) (VObj fields)) as [z | i] eqn:Hrest; [| discriminate].
    destruct (parse_object_is_object rest fields z Hrest) as [ys ->].
    intros H. injection H as <-. intros Hin. cbn [map fst].
    assert (Hys : In (k, v) ys -> k' = k \/ In k (map fst rest)).
    { intros Hk. right. exact (IH ys eq_refl Hk). }
    destruct m; try (apply Hys; exact Hin);
      (destruct Hin as [Heq | Hin]; [injection Heq as <- _; left; reflexivity
                                    | apply Hys; exact Hin]).
Qed.

Lemma rest_without_subset (keys : list string) (fields : list (string * value))
  (k : string) (v : value) :
  In (k, v) (rest_without keys fields) ->
  In (k, v) fields /\ existsb (String.eqb k) keys = false.
Proof.
  unfold rest_without. intros Hin. apply filter_In in Hin. destruct Hin as [Hin Hk].
  split; [exact Hin |]. apply negb_true_iff in Hk. exact Hk.
Qed.

(** X11. After validation a monitor update sends only members its shape
    declares: a member the caller adds on their own never reaches the
    remote service. *)
Theorem monitor_update_sends_declared_members (arguments : value) (args : args_t)
  (w : world) (r : request) (members : list (string * value)) (k : string) (v : value) :
  parse (input_schema Op.update_webset_monitor_exa) arguments = Parsed (VObj args) ->
  In r (requests_of
          (snd (handler API_CONFIG JSON_stringify Op.update_webset_monitor_exa args w))) ->
  body r = Some (VObj members) ->
  In (k, v) members ->
  In k monitor_update_members.
Proof.
  intros Hparse. cbn [input_schema] in Hparse.
  destruct (parse_object_input _ _ _ Hparse) as (fields & out & -> & _).
  sent_requests; cbn [In];
    intros Hr; try contradiction; destruct Hr as [<- | []]; cbn [body];
    intros Hb; injection Hb as <-; intros Hin;
    apply rest_without_subset in Hin; destruct Hin as [Hin Hk];
    pose proof (parse_object_keys _ _ _ _ _ Hparse Hin) as Hdeclared;
    cbn [map fst req opt In] in Hdeclared;
    cbn [existsb] in Hk;
    repeat (destruct Hdeclared as [<- | Hdeclared]); try contradiction;
    try discriminate Hk;
    unfold monitor_update_members; cbn [In]; auto 8.
Qed.

(** *** More on the pattern filters *)

Lemma filter_completion_all_kept {A} (f : A -> completion bool) (ys : list A) :
  (forall y, In y ys -> f y = Normal true) ->
  filter_completion f ys = Normal ys.
Proof.
  induction ys as [| y ys IH]; intros Hall; cbn [filter_completion].
  - reflexivity.
  - rewrite (Hall y (or_introl eq_refl)), IH; [reflexivity |].
    intros z Hz. apply Hall. right. exact Hz.
Qed.

Lemma apply_pattern_again (pattern : value) (test : RegExp -> value -> completion bool)
  (page kept ys : list value) :
  apply_pattern pattern test (VArr page) = Normal (VArr kept) ->
  (forall y, In y ys -> In y kept) ->
  apply_pattern pattern test (VArr ys) = Normal (VArr ys).
Proof.
  unfold apply_pattern. destruct (truthy pattern); [| reflexivity].
  destruct (RegExp_new (text_of pattern) "i") as [regex |]; [| discriminate].
  cbn [array_filter].
  destruct (filter_completion (test regex) page) as [zs |] eqn:Hzs; [| discriminate].
  intros H Hsub. injection H as ->.
  rewrite filter_completion_all_kept; [reflexivity |].
  intros y Hy. exact (proj2 (filter_completion_sound _ _ _ Hzs y (Hsub y Hy))).
Qed.

(** X12. Pattern filtering is idempotent: filtering the filtered items
    again, with the same filters, returns them unchanged. *)
Theorem filtering_is_idempotent (filters : value) (page kept : list value) :
  filteredItems filters (VArr page) = Normal (VArr kept) ->
  filteredItems filters (VArr kept) = Normal (VArr kept).
Proof.
  unfold filteredItems.
  destruct (apply_pattern (opt_get filters "urlPattern") url_matches (VArr page))
    as [mid |] eqn:Hurl; [| discriminate].
  destruct (apply_pattern_subset _ _ _ _ Hurl) as (xs & -> & _).
  intros Htitle.
  destruct (apply_pattern_subset _ _ _ _ Htitle) as (kept' & Hkept & Hsub).
  injection Hkept as <-.
  rewrite (apply_pattern_again _ url_matches page xs kept Hurl Hsub).
  exact (apply_pattern_again _ title_matches xs kept kept Htitle (fun y Hy => Hy)).
Qed.

(** X13. On a page that can be read the two filters compose to one: an
    item is kept exactly when it passes the URL pattern and the title
    pattern, a pattern that is unset or empty letting everything through;
    the kept items come in page order. *)
Theorem filters_compose (filters : value) (page : list value) (urlRegex titleRegex : RegExp) :
  readable_page page ->
  (truthy (opt_get filters "urlPattern") = true ->
   RegExp_new (text_of (opt_get filters "urlPattern")) "i" = Normal urlRegex) ->
  (truthy (opt_get filters "titlePattern") = true ->
   RegExp_new (text_of (opt_get filters "titlePattern")) "i" = Normal titleRegex) ->
  filteredItems filters (VArr page)
  = Normal (VArr (filter (fun item =>
                            passes_url (opt_get filters "urlPattern") urlRegex item
                            && passes_title (opt_get filters "titlePattern") titleRegex item)
                    page)).
Proof. exact (filters_on_page filters page urlRegex titleRegex). Qed.

Lemma get_nullish (v : value) (k : string) :
  nullish v = true ->
  get v k = Throw (JsError ("Cannot read properties of " ++ text_of v
                              ++ " (reading '" ++ k ++ "')")).
Proof. unfold get. intros ->. reflexivity. Qed.

(** X14. The page is fetched before the patterns are looked at: when
    the local filtering throws -- a pattern that is not a regular
    expression, a hole in the page -- the request has been sent all the
    same, and the outcome is the error text of the search tool with the
    message of what was thrown (the message of an error, the string form
    of anything else). *)
Theorem failed_filtering_is_reported (args : args_t) (w : world)
  (response : http_response) (e : thrown) :
  (forall q, network w q = Normal response) ->
  opt_get args!"filters" "hasEnrichedData" <> VNull ->
  nullish (data response) = false ->
  filteredItems args!"filters" (prop (data response) "data") = Throw e ->
  isAxiosError e = false ->
  fst (search_webset_items_exa API_CONFIG JSON_stringify args w)
  = match message_or_String e with
    | Normal message => Normal (error_result ("Search items error: " ++ message))
    | Throw conversion => Throw conversion
    end
  /\ exists r,
       requests_of (snd (search_webset_items_exa API_CONFIG JSON_stringify args w)) = [r].
Proof.
  intros Hnet Hflag Hdata Hfilter Haxios.
  destruct (search_params_defined args!"filters" args!"cursor" args!"limit" Hflag)
    as [params Hparams].
  unfold search_webset_items_exa, search_webset_items_exa_try. step_monad.
  rewrite Hparams, Hnet, (get_defined _ _ Hdata), Hfilter.
  cbn [fst snd app requests_of]. rewrite Haxios.
  destruct (message_or_String e); cbn [fst snd app requests_of];
    (split; [reflexivity | eexists; reflexivity]).
Qed.

(** *** Results *)

(** X15. On a well-formed page the list tool reports the size of the
    page as [itemCount], one report per item in page order, and the
    server's [hasMore] and [nextCursor] untouched. *)
Theorem list_items_result (args : args_t) (w : world) (response : http_response)
  (page : list value) :
  (forall q, network w q = Normal response) ->
  args!"hasEnrichedData" <> VNull ->
  prop (data response) "data" = VArr page ->
  well_formed_page page ->
  fst (list_webset_items_exa API_CONFIG JSON_stringify args w)
  = Normal (text_result (JSON_stringify
       (VObj [("websetId", args!"websetId");
              ("itemCount", VNum (Z.of_nat (List.length page)));
              ("hasMore", prop (data response) "hasMore");
              ("nextCursor", prop (data response) "nextCursor");
              ("items", VArr (map list_item_report page))]))).
Proof.
  intros Hnet Hflag Hdata Hpage.
  assert (Hbody : get (data response) "data" = Normal (VArr page)).
  { unfold get. destruct (nullish (data response)) eqn:Hn.
    - destruct (data response); discriminate.
    - rewrite Hdata. reflexivity. }
  assert (Hitems : map_completion list_item_view page = Normal (map list_item_report page)).
  { apply map_completion_pure. eapply Forall_impl; [| exact Hpage]. intros item Hitem.
    unfold list_item_view, list_item_report. rewrite (get_defined _ _ Hitem).
    do 7 f_equal. destruct (keys_length (prop item "enrichedData")); reflexivity. }
  unfold list_webset_items_exa, list_webset_items_exa_try. step_monad.
  rewrite (lookup_rest_without "hasEnrichedData" ["websetId"; "cursor"; "limit"])
    by reflexivity.
  unfold append_if_defined, toString_method.
  destruct (args!"hasEnrichedData"); try congruence; cbn [nullish];
    rewrite Hnet, Hbody; cbn [get nullish prop String.eqb Ascii.eqb Bool.eqb array_map];
    rewrite Hitems; reflexivity.
Qed.

(** X16. A successful answer without a body ([null] or [undefined]) is a
    failure for the tools that read a member of the body -- creating an
    import or an export, getting or listing exports, listing or searching
    items -- although the remote call was made and succeeded; for every
    other tool it is a success (a batch tool being given its array of
    identifiers). *)
Theorem empty_body_outcome (op : Op.operation) (args : args_t) (w : world)
  (response : http_response) :
  (forall q, network w q = Normal response) ->
  nullish (data response) = true ->
  (In op batch_operations -> nullish args!"itemIds" = false) ->
  requests_of (snd (handler API_CONFIG JSON_stringify op args w)) <> [] ->
  outcome_flagged (fst (handler API_CONFIG JSON_stringify op args w)) = reads_response op.
Proof.
  intros Hnet Hnull Hids.
  destruct op;
    try (assert (Hitems : nullish args!"itemIds" = false)
           by (apply Hids; cbn; auto));
    clear Hids;
    cbn [handler reads_response];
    autounfold with handlers; step_monad;
    repeat match goal with
      | |- context [match append_if_defined ?k ?x ?p with _ => _ end] =>
          destruct (append_if_defined k x p)
      | |- context [match search_params ?f ?c ?l with _ => _ end] =>
          destruct (search_params f c l)
      end;
    rewrite ?Hnet, ?(get_nullish _ _ Hnull);
    try rewrite (get_defined _ _ Hitems);
    repeat match goal with e : thrown |- _ => destruct e end;
    cbn [isAxiosError requests_of app fst snd];
    try (intros Hnone; exfalso; apply Hnone; reflexivity);
    intros _;
    each_completion; reflexivity.
Qed.

(** X17. A delete tool does not look at the answer: once the remote call
    returns, its report is the same whatever the response holds. *)
Theorem delete_ignores_response (op : Op.operation) (args : args_t) (w : world)
  (response : http_response) :
  In op delete_operations ->
  (forall q, network w q = Normal response) ->
  fst (handler API_CONFIG JSON_stringify op args w) = Normal (delete_report op args).
Proof.
  intros Hop Hnet. cbn [delete_operations In] in Hop.
  repeat (destruct Hop as [<- | Hop]); try contradiction;
    cbn [handler delete_report]; autounfold with handlers; step_monad;
    rewrite Hnet; reflexivity.
Qed.

(** X18. The item tools log every invocation: the trace opens with the
    start line, holds the completion line exactly when the outcome is a
    success and an error line exactly when it is a failure. *)
Theorem item_tools_log_their_outcome (op : Op.operation) (args : args_t) (w : world) :
  In op logging_operations ->
  let run := handler API_CONFIG JSON_stringify op args w in
  (exists first rest, snd run = first :: rest /\ is_start first = true) /\
  existsb is_complete (snd run) = negb (outcome_flagged (fst run)) /\
  existsb is_error (snd run) = outcome_flagged (fst run).
Proof.
  intros Hop. cbn [logging_operations In] in Hop. cbv zeta.
  repeat (destruct Hop as [<- | Hop]); try contradiction;
    cbn [handler]; autounfold with handlers; step_monad;
    each_completion;
    cbn [isAxiosError app fst snd existsb is_complete is_error outcome_flagged];
    (split; [do 2 eexists; split; reflexivity | split; reflexivity]).
Qed.

(** X19. Getting an export reports [downloadReady: true] exactly when
    the job's status is the string [completed] and its [downloadUrl] is
    truthy; a completed job without a download URL is not ready. *)
Theorem download_ready_iff (args : args_t) (w : world) (response : http_response) :
  (forall q, network w q = Normal response) ->
  nullish (data response) = false ->
  exists ready,
    fst (get_export_exa API_CONFIG args w)
    = Normal (VObj [("success", VBool true);
                    ("data", data response);
                    ("downloadReady", VBool ready)]) /\
    (ready = true <->
     prop (data response) "status" = VStr "completed" /\
     truthy (prop (data response) "downloadUrl") = true).
Proof.
  intros Hnet Hdata.
  exists (strict_eq_str (prop (data response) "status") "completed"
          && truthy (prop (data response) "downloadUrl")).
  split.
  - unfold get_export_exa, get_export_exa_try. step_monad.
    rewrite Hnet, (get_defined _ _ Hdata). reflexivity.
  - rewrite andb_true_iff. unfold strict_eq_str.
    destruct (prop (data response) "status") as [| | | | s | |];
      try (split; [intros [H _]; discriminate H | intros [H _]; discriminate H]).
    split.
    + intros [Hs Hu]. apply String.eqb_eq in Hs. subst s. split; [reflexivity | exact Hu].
    + intros [Hs Hu]. injection Hs as ->. split; [reflexivity | exact Hu].
Qed.

(** *** More on requests *)

(** X20. How a tool is registered decides its deadline: a request of the
    tools that create a client instance carries the configured timeout, a
    request of the export and batch tools carries none. *)
Theorem timeout_follows_registration (op : Op.operation) (args : args_t) (w : world)
  (r : request) :
  In r (requests_of (snd (handler API_CONFIG JSON_stringify op args w))) ->
  timeout r = match reporting_of op with
              | Envelope => None
              | _ => Some (REQUEST_TIMEOUT API_CONFIG)
              end.
Proof.
  destruct op; cbn [reporting_of]; sent_requests; cbn [In];
    intros Hin; try contradiction; destruct Hin as [<- | []]; reflexivity.
Qed.

Lemma in_dotted_entries (name : string) (v : value) (p : list (string * string))
  (k : string) (x : value) :
  truthy v = true ->
  In (k, x) (Object_entries v) ->
  In ((name ++ "." ++ k)%string, text_of x) (dotted_entries name v p).
Proof.
  intros Hv Hin. unfold dotted_entries. rewrite Hv. apply in_or_app. right.
  apply (in_map (fun kv => ((name ++ "." ++ fst kv)%string, text_of (snd kv))) _ _ Hin).
Qed.

Lemma in_dotted_entries_base (name : string) (v : value) (p : list (string * string))
  (kv : string * string) :
  In kv p -> In kv (dotted_entries name v p).
Proof.
  intros Hin. unfold dotted_entries. destruct (truthy v); [| exact Hin].
  apply in_or_app. left. exact Hin.
Qed.

(** X21. The search tool flattens its nested filters: every entry of
    [filters.metadata] goes into the query string as [metadata.<key>], and
    every entry of [filters.enrichmentStatus] as
    [enrichmentStatus.<key>], with its value as a string. *)
Theorem nested_filters_are_flattened (args : args_t) (w : world) (r : request)
  (name k : string) (x : value) :
  In r (requests_of (snd (search_webset_items_exa API_CONFIG JSON_stringify args w))) ->
  name = "metadata" \/ name = "enrichmentStatus" ->
  truthy (opt_get args!"filters" name) = true ->
  In (k, x) (Object_entries (opt_get args!"filters" name)) ->
  In ((name ++ "." ++ k)%string, text_of x) (serialized_params (params r)).
Proof.
  intros Hr Hname Hv Hin. revert Hr.
  sent_requests; cbn [In];
    intros Hr; try contradiction; destruct Hr as [<- | []];
    cbn [params serialized_params];
    unfold search_params in Hq;
    destruct (append_if_defined _ _ _) as [q |]; try discriminate;
    injection Hq as <-;
    (destruct Hname as [-> | ->];
     [ apply in_dotted_entries_base; apply in_dotted_entries; assumption
     | apply in_dotted_entries; assumption ]).
Qed.

Lemma in_append_if_truthy (k k' s : string) (x : value) (p : list (string * string)) :
  In (k, s) (append_if_truthy k' x p) ->
  In (k, s) p \/ (k = k' /\ s = text_of x).
Proof.
  unfold append_if_truthy. destruct (truthy x); [| auto].
  intros Hin. apply in_app_or in Hin. destruct Hin as [Hin | [Heq | []]]; [auto |].
  injection Heq as <- <-. auto.
Qed.

Lemma in_append_if_defined (k k' s : string) (x : value) (p q : list (string * string)) :
  append_if_defined k' x p = Normal q ->
  In (k, s) q ->
  In (k, s) p \/ (k = k' /\ s = text_of x).
Proof.
  unfold append_if_defined, toString_method.
  destruct x; cbn [nullish]; intros H; inversion H; subst; auto;
    intros Hin; apply in_app_or in Hin; destruct Hin as [Hin | [Heq | []]]; auto;
    injection Heq as <- <-; auto.
Qed.

Lemma in_dotted_entries_inv (name : string) (v : value) (p : list (string * string))
  (k s : string) :
  In (k, s) (dotted_entries name v p) ->
  In (k, s) p \/ exists suffix, k = (name ++ "." ++ suffix)%string.
Proof.
  unfold dotted_entries. destruct (truthy v); [| auto].
  intros Hin. apply in_app_or in Hin. destruct Hin as [Hin | Hin]; [auto |].
  apply in_map_iff in Hin. destruct Hin as (kv & Heq & _).
  injection Heq as Hk _. right. exists (fst kv). symmetry. exact Hk.
Qed.

(** Splits the memberships in a query string into the appends it was
    built from. *)
Ltac split_memberships :=
  repeat match goal with
    | H : In _ (append_if_truthy _ _ _) |- _ =>
        apply in_append_if_truthy in H; destruct H as [H | [? ?]]
    | H : In _ (dotted_entries _ _ _) |- _ =>
        apply in_dotted_entries_inv in H; destruct H as [H | [? ?]]
    | H : In _ ?q, Hq : append_if_defined _ _ _ = Normal ?q |- _ =>
        apply (in_append_if_defined _ _ _ _ _ _ Hq) in H; destruct H as [H | [? ?]]
    | H : In _ [] |- _ => destruct H
    end.

Lemma search_params_values (filters cursor limit : value) (params : list (string * string))
  (k s : string) :
  search_params filters cursor limit = Normal params ->
  In k (filter_names Op.search_webset_items_exa) ->
  In (k, s) params ->
  s = text_of (if String.eqb k "cursor" || String.eqb k "limit"
                then (if String.eqb k "cursor" then cursor else limit)
                else opt_get filters k).
Proof.
  unfold search_params. intros Hparams Hk Hin.
  destruct (append_if_defined _ _ _) as [q |] eqn:Hq; [| discriminate].
  injection Hparams as <-.
  split_memberships; subst;
    cbn [filter_names In] in Hk;
    try reflexivity;
    repeat (destruct Hk as [Hk | Hk]; [try discriminate Hk |]); contradiction.
Qed.

(** X22. A filter that is sent is sent as the string form of the
    argument: a string as it is, a boolean as [true] or [false], a number
    as [toString] prints it (plain digits below 1e21, exponent form from
    there on). *)
Theorem query_values_are_the_arguments (op : Op.operation) (args : args_t) (w : world)
  (r : request) (k s : string) :
  In op list_operations ->
  In r (requests_of (snd (handler API_CONFIG JSON_stringify op args w))) ->
  In k (filter_names op) ->
  In (k, s) (serialized_params (params r)) ->
  s = text_of (filter_value op args k).
Proof.
  intros Hop.
  cbn [list_operations In] in Hop.
  repeat (destruct Hop as [<- | Hop]); try contradiction;
    sent_requests; cbn [app In];
    intros Hr Hk; try contradiction; destruct Hr as [<- | []];
    cbn [params serialized_params filter_value]; intros Hin.
  all: try (rewrite (search_params_values _ _ _ _ k s Hq Hk Hin);
            cbn [filter_names In] in Hk;
            repeat (destruct Hk as [<- | Hk]); try contradiction; reflexivity).
  all: try (split_memberships; subst;
            rewrite ?lookup_rest_without by reflexivity;
            try reflexivity;
            cbn [filter_names In] in Hk;
            repeat (destruct Hk as [Hk | Hk]; [try discriminate Hk |]); contradiction).
  all: destruct (truthy args!"cursor"); cbn [filter map fst snd] in Hin;
    destruct (nullish args!"limit") eqn:Hl; cbn [negb filter map fst snd] in Hin;
    repeat match type of Hin with
      | context [nullish ?x] => destruct (nullish x); cbn [negb filter map fst snd] in Hin
      end;
    cbn [In] in Hin;
    repeat (destruct Hin as [Hin | Hin]; [injection Hin as <- <-; reflexivity |]);
    contradiction.
Qed.

(** X23. List-exports called without a limit asks the remote service for
    20 jobs: validation fills in the default and the handler sends it. *)
Theorem default_limit_is_sent (raw args : list (string * value)) (w : world) (r : request) :
  parse (input_schema Op.list_exports_exa) (VObj raw) = Parsed (VObj args) ->
  raw!"limit" = VUndefined ->
  In r (requests_of (snd (list_exports_exa API_CONFIG args w))) ->
  In ("limit", "20") (serialized_params (params r)).
Proof.
  intros Hparse Hunset. pose proof (list_exports_default_limit raw args Hparse Hunset) as Hl.
  sent_requests. rewrite Hl. cbn [app In].
  intros Hr; try contradiction; destruct Hr as [<- | []];
    cbn [params serialized_params];
    destruct (truthy args!"cursor"); cbn; auto.
Qed.

(** X24. The import, monitor, webhook and event tools that read or write
    one resource or one page, and getting an item, hand the response body
    back as it came, as JSON text: they check nothing of its shape,
    status or content. *)
Theorem body_is_passed_through (op : Op.operation) (args : args_t) (w : world)
  (response : http_response) :
  In op passthrough_operations ->
  (forall q, network w q = Normal response) ->
  fst (handler API_CONFIG JSON_stringify op args w)
  = Normal (text_result (JSON_stringify (data response))).
Proof.
  intros Hop Hnet. cbn [passthrough_operations In] in Hop.
  repeat (destruct Hop as [<- | Hop]); try contradiction;
    cbn [handler]; autounfold with handlers; step_monad;
    rewrite Hnet; reflexivity.
Qed.

End Properties.

(** * The reference engine meets the two laws *)







(** * The statements on concrete invocations *)

#[local] Existing Instance RefRegExp.engine.

(** C2, as stated, fails: a 404 whose body has no [error] member is
    reported by [create_export_exa] with the message of the axios error,
    not with the status text "Not Found". *)
Lemma status_text_is_not_reported :
  fst (sample_run Op.create_export_exa export_args (Throw not_found))
  = Normal (VObj [("success", VBool false);
                  ("error", VStr "Request failed with status code 404");
                  ("details", VObj [("message", VStr "Webset not found")])])
  /\ fst (sample_run Op.create_export_exa export_args (Throw not_found))
     <> Normal (remote_error_envelope not_found_response).
Proof. split; [reflexivity | discriminate]. Qed.

(** The import tools do not return the envelope at all. *)
Example import_error_is_a_text :
  fst (sample_run Op.get_import_exa [("importId", VStr "imp_1")] (Throw not_found))
  = Normal (error_result "Get import error: Request failed with status code 404").
Proof. reflexivity. Qed.

(** C2 on an item tool: the status code and the body's error. *)
Lemma remote_error_is_reported_witness :
  (forall q, network (world_answering (Throw rate_limited)) q
             = Throw (AxiosError "Request failed with status code 429"
                        (Some rate_limited_response)))
  /\ requests_of (snd (sample_run Op.get_webset_item_exa item_args (Throw rate_limited))) <> []
  /\ ToString (body_error_or_message rate_limited_response
                 "Request failed with status code 429")
     = Normal "Rate limit exceeded"
  /\ fst (sample_run Op.get_webset_item_exa item_args (Throw rate_limited))
     = Normal (error_result "Get item error (429): Rate limit exceeded").
Proof.
  assert (Hnet : forall q, network (world_answering (Throw rate_limited)) q
                           = Throw (AxiosError "Request failed with status code 429"
                                      (Some rate_limited_response))) by reflexivity.
  assert (Hsent : requests_of (snd (sample_run Op.get_webset_item_exa item_args
                                      (Throw rate_limited))) <> []) by discriminate.
  assert (Htext : ToString (body_error_or_message rate_limited_response
                              "Request failed with status code 429")
                  = Normal "Rate limit exceeded") by reflexivity.
  split; [exact Hnet | split; [exact Hsent | split; [exact Htext |]]].
  exact (remote_error_is_reported sample_config sample_stringify Op.get_webset_item_exa
           item_args (world_answering (Throw rate_limited)) _ _ "Rate limit exceeded"
           Hnet Hsent (fun _ => Htext)).
Defined.

(** The export tools return the envelope, with the body's error. *)
Example export_error_is_an_envelope :
  fst (sample_run Op.create_export_exa export_args (Throw rate_limited))
  = Normal (VObj [("success", VBool false);
                  ("error", VStr "Rate limit exceeded");
                  ("details", VObj [("error", VStr "Rate limit exceeded")])]).
Proof. reflexivity. Qed.

(** C1 on getting an item: the service answers 500 with
    [{"error": {"toString": 0}}], and the handler throws. *)
Lemma unconvertible_error_escapes_witness :
  In Op.get_webset_item_exa logging_operations
  /\ (forall q, network (world_answering (Throw garbled)) q
                = Throw (AxiosError "Request failed with status code 500"
                           (Some garbled_response)))
  /\ requests_of (snd (sample_run Op.get_webset_item_exa item_args (Throw garbled))) <> []
  /\ convertible (body_error_or_message garbled_response
                    "Request failed with status code 500") = false
  /\ fst (sample_run Op.get_webset_item_exa item_args (Throw garbled))
     = Throw (JsError "Cannot convert object to primitive value").
Proof.
  assert (Hop : In Op.get_webset_item_exa logging_operations) by (right; left; reflexivity).
  assert (Hnet : forall q, network (world_answering (Throw garbled)) q
                           = Throw (AxiosError "Request failed with status code 500"
                                      (Some garbled_response))) by reflexivity.
  assert (Hsent : requests_of (snd (sample_run Op.get_webset_item_exa item_args
                                      (Throw garbled))) <> []) by discriminate.
  assert (Hbody : convertible (body_error_or_message garbled_response
                                 "Request failed with status code 500") = false)
    by reflexivity.
  split; [exact Hop | split; [exact Hnet | split; [exact Hsent | split; [exact Hbody |]]]].
  exact (unconvertible_error_escapes sample_config sample_stringify Op.get_webset_item_exa
           item_args (world_answering (Throw garbled)) _ _ Hop Hnet Hsent Hbody).
Defined.

(** The export tool passes the same body on and returns. *)
Example envelope_keeps_unconvertible_error :
  fst (sample_run Op.create_export_exa export_args (Throw garbled))
  = Normal (VObj [("success", VBool false);
                  ("error", VObj [("toString", VNum 0)]);
                  ("details", VObj [("error", VObj [("toString", VNum 0)])])]).
Proof. reflexivity. Qed.

(** C4 on a webhook subscription to an unknown event type. *)
Lemma bad_webhook_violates :
  violates (input_schema Op.create_webhook_exa) bad_webhook_arguments.
Proof.
  apply (inside_member _ _ "events" Required (z_array create_webhook_events)).
  - right. left. reflexivity.
  - discriminate.
  - apply (inside_element _ _ (VStr "webset.exploded")).
    + right. left. reflexivity.
    + apply outside_enum. intros m Hm. cbn in Hm.
      repeat (destruct Hm as [<- | Hm]; [discriminate |]). contradiction.
Defined.

Lemma invalid_arguments_issue_no_request_witness :
  violates (input_schema Op.create_webhook_exa) bad_webhook_arguments
  /\ exists issue,
       invoke sample_config sample_stringify Op.create_webhook_exa bad_webhook_arguments
         (world_answering (Throw not_found))
       = (Normal (validation_failure issue), [])
       /\ requests_of (snd (invoke sample_config sample_stringify Op.create_webhook_exa
                              bad_webhook_arguments (world_answering (Throw not_found))))
          = [].
Proof.
  split; [exact bad_webhook_violates |].
  exact (invalid_arguments_issue_no_request sample_config sample_stringify
           Op.create_webhook_exa bad_webhook_arguments (world_answering (Throw not_found))
           bad_webhook_violates).
Defined.

(** Well-formed arguments pass validation and reach the handler, which
    issues its request. *)
Example good_webhook_is_accepted :
  parse (input_schema Op.create_webhook_exa) good_webhook_arguments
  = Parsed good_webhook_arguments
  /\ List.length (requests_of (snd (invoke sample_config sample_stringify
                                      Op.create_webhook_exa good_webhook_arguments
                                      (world_answering (Throw not_found))))) = 1%nat.
Proof. split; reflexivity. Qed.

(** A missing required member is a violation as well. *)
Example missing_url_violates :
  violates (input_schema Op.create_webhook_exa) (VObj [("events", VArr [])]).
Proof.
  apply (missing_required _ _ "url" z_string); [left; reflexivity | reflexivity | reflexivity].
Qed.


(** C5 on the page of five items: two match, [matchingItems] is 2 and
    [items] holds the reports of those two. *)
Lemma five_items_well_formed : well_formed_page five_items.
Proof. repeat constructor. Defined.

Lemma five_items_readable : readable_page five_items.
Proof. repeat constructor. Defined.


(** With both patterns the amended count is 1. *)
Example narrowed_count :
  List.length
    (filter (fun item =>
               RegExp_test linkedin_regex (text_of (prop item "url"))
               && passes_title (VStr "^ad") starts_with_ad item)
       five_items) = 1%nat.
Proof. reflexivity. Qed.

(** C6 on the page of three export jobs. *)
Lemma three_exports_well_formed : well_formed_page three_exports.
Proof. repeat constructor. Defined.

Lemma list_exports_summary_witness :
  well_formed_page three_exports
  /\ statuses_of three_exports = [VStr "completed"; VStr "pending"; VStr "failed"]
  /\ fst (list_exports_exa sample_config list_exports_args
            (world_answering (Normal (ok_response three_exports_body))))
     = Normal (VObj [("success", VBool true);
                     ("data", VArr three_exports);
                     ("hasMore", VBool false);
                     ("nextCursor", VUndefined);
                     ("summary", status_summary three_exports)])
  /\ status_summary three_exports
     = VObj [("total", VNum 3); ("completed", VNum 1); ("pending", VNum 1);
             ("processing", VNum 0); ("failed", VNum 1)].
Proof.
  split; [exact three_exports_well_formed |].
  split; [reflexivity |].
  destruct (list_exports_summary sample_config list_exports_args
              (world_answering (Normal (ok_response three_exports_body)))
              (ok_response three_exports_body) three_exports
              (fun q => eq_refl) eq_refl three_exports_well_formed) as [Hout Hscenario].
  split; [exact Hout | exact (Hscenario eq_refl)].
Defined.

(** C7 on a batch delete of three items. *)
Lemma batch_sends_one_request_witness :
  In Op.batch_delete_items_exa batch_operations
  /\ batch_delete_args!"itemIds" = VArr [VStr "item_1"; VStr "item_2"; VStr "item_3"]
  /\ exists r,
       requests_of (snd (sample_run Op.batch_delete_items_exa batch_delete_args
                           (Normal (ok_response (VObj [("deleted", VNum 1)]))))) = [r]
       /\ method r = POST
       /\ (exists others,
             body r = Some (VObj (("itemIds",
                                   VArr [VStr "item_1"; VStr "item_2"; VStr "item_3"])
                                    :: others)))
       /\ forall response,
            network (world_answering (Normal (ok_response (VObj [("deleted", VNum 1)])))) r
            = Normal response ->
            fst (sample_run Op.batch_delete_items_exa batch_delete_args
                   (Normal (ok_response (VObj [("deleted", VNum 1)]))))
            = Normal (VObj [("success", VBool true);
                            ("data", data response);
                            ("message", VStr "Successfully deleted 3 items")]).
Proof.
  assert (Hop : In Op.batch_delete_items_exa batch_operations) by (right; left; reflexivity).
  split; [exact Hop |]. split; [reflexivity |].
  exact (batch_sends_one_request sample_config sample_stringify Op.batch_delete_items_exa
           batch_delete_args
           (world_answering (Normal (ok_response (VObj [("deleted", VNum 1)]))))
           [VStr "item_1"; VStr "item_2"; VStr "item_3"] Hop eq_refl).
Defined.


(** The unset half holds on that request. *)
Example unset_filters_absent_on_limit_zero :
  unset_filters_are_absent Op.list_webset_items_exa limit_zero_args (list_items_request []).
Proof. intros k _ _. reflexivity. Qed.

(** After validation list-exports always has a limit to send. *)
Example list_exports_sends_default_limit :
  map (fun r => serialized_params (params r))
    (requests_of (snd (invoke sample_config sample_stringify Op.list_exports_exa
                         (VObj [("websetId", VStr "ws_1")])
                         (world_answering (Normal (ok_response three_exports_body))))))
  = [[("limit", "20")]].
Proof. reflexivity. Qed.





(** The upper-case twin is kept as well, and an item that matches in no
    letter case is dropped. *)
Example shouting_is_kept :
  filteredItems example_filters (VArr [shouting]) = Normal (VArr [shouting]).
Proof. reflexivity. Qed.

Example other_title_is_dropped :
  filteredItems example_filters
    (VArr [item "item_6" "https://example.com/zenith" "Zenith"])
  = Normal (VArr []).
Proof. reflexivity. Qed.

(** * The further properties on concrete invocations *)

Lemma api_key_header_witness :
  In (first_request (sample_run Op.get_import_exa get_import_args
                       (Normal (ok_response VNull))))
     (requests_of (snd (sample_run Op.get_import_exa get_import_args
                          (Normal (ok_response VNull)))))
  /\ header "x-api-key"
       (first_request (sample_run Op.get_import_exa get_import_args
                         (Normal (ok_response VNull))))
     = VStr "configured-key".
Proof.
  assert (Hr : In (first_request (sample_run Op.get_import_exa get_import_args
                                    (Normal (ok_response VNull))))
                 (requests_of (snd (sample_run Op.get_import_exa get_import_args
                                      (Normal (ok_response VNull))))))
    by (left; reflexivity).
  split; [exact Hr |].
  exact (api_key_header sample_config sample_stringify Op.get_import_exa get_import_args
           (world_answering (Normal (ok_response VNull))) _ Hr).
Defined.

Lemma headers_follow_body_witness :
  In (first_request (sample_run Op.create_import_exa create_import_args
                       (Normal (ok_response VNull))))
     (requests_of (snd (sample_run Op.create_import_exa create_import_args
                          (Normal (ok_response VNull)))))
  /\ header "accept"
       (first_request (sample_run Op.create_import_exa create_import_args
                         (Normal (ok_response VNull))))
     = VStr "application/json"
  /\ header "content-type"
       (first_request (sample_run Op.create_import_exa create_import_args
                         (Normal (ok_response VNull))))
     = VStr "application/json"
  /\ (method (first_request (sample_run Op.create_import_exa create_import_args
                               (Normal (ok_response VNull)))) = POST
      \/ method (first_request (sample_run Op.create_import_exa create_import_args
                                  (Normal (ok_response VNull)))) = PATCH).
Proof.
  assert (Hr : In (first_request (sample_run Op.create_import_exa create_import_args
                                    (Normal (ok_response VNull))))
                 (requests_of (snd (sample_run Op.create_import_exa create_import_args
                                      (Normal (ok_response VNull))))))
    by (left; reflexivity).
  split; [exact Hr |].
  exact (headers_follow_body sample_config sample_stringify Op.create_import_exa
           create_import_args (world_answering (Normal (ok_response VNull))) _ Hr).
Defined.

Lemma transport_error_is_reported_witness :
  (forall q, network (world_answering (Throw timed_out)) q
             = Throw (AxiosError "timeout of 25000ms exceeded" None))
  /\ requests_of (snd (sample_run Op.list_webset_items_exa [("websetId", VStr "ws_1")]
                         (Throw timed_out))) <> []
  /\ fst (sample_run Op.list_webset_items_exa [("websetId", VStr "ws_1")] (Throw timed_out))
     = Normal (error_result "List items error (unknown): timeout of 25000ms exceeded").
Proof.
  assert (Hnet : forall q, network (world_answering (Throw timed_out)) q
                           = Throw (AxiosError "timeout of 25000ms exceeded" None))
    by reflexivity.
  assert (Hsent : requests_of (snd (sample_run Op.list_webset_items_exa
                                      [("websetId", VStr "ws_1")] (Throw timed_out))) <> [])
    by discriminate.
  split; [exact Hnet | split; [exact Hsent |]].
  exact (transport_error_is_reported sample_config sample_stringify
           Op.list_webset_items_exa [("websetId", VStr "ws_1")]
           (world_answering (Throw timed_out)) _ Hnet Hsent).
Defined.

Lemma validated_arguments_send_one_request_witness :
  parse (input_schema Op.list_webset_items_exa) list_items_arguments
  = Parsed (VObj not_enriched_args)
  /\ exists r,
       requests_of (snd (sample_run Op.list_webset_items_exa not_enriched_args
                           (Normal (ok_response five_items_body)))) = [r].
Proof.
  assert (Hparse : parse (input_schema Op.list_webset_items_exa) list_items_arguments
                   = Parsed (VObj not_enriched_args)) by reflexivity.
  split; [exact Hparse |].
  exact (validated_arguments_send_one_request sample_config sample_stringify
           Op.list_webset_items_exa list_items_arguments not_enriched_args
           (world_answering (Normal (ok_response five_items_body))) Hparse).
Defined.

Lemma item_path_is_resolved_witness :
  In Op.get_webset_item_exa item_operations
  /\ In (first_request (sample_run Op.get_webset_item_exa item_args
                          (Normal (ok_response VNull))))
        (requests_of (snd (sample_run Op.get_webset_item_exa item_args
                             (Normal (ok_response VNull)))))
  /\ WEBSET_ITEM_BY_ID (ENDPOINTS sample_config)
     = "/websets/" ++ ":websetId" ++ "/items/" ++ ":itemId" ++ ""
  /\ plain_id "ws_1" = true
  /\ url (first_request (sample_run Op.get_webset_item_exa item_args
                           (Normal (ok_response VNull))))
     = "/websets/ws_1/items/item_7".
Proof.
  assert (Hop : In Op.get_webset_item_exa item_operations) by (left; reflexivity).
  assert (Hr : In (first_request (sample_run Op.get_webset_item_exa item_args
                                    (Normal (ok_response VNull))))
                 (requests_of (snd (sample_run Op.get_webset_item_exa item_args
                                      (Normal (ok_response VNull))))))
    by (left; reflexivity).
  split; [exact Hop |]. split; [exact Hr |]. split; [reflexivity |].
  split; [reflexivity |].
  exact (item_path_is_resolved sample_config sample_stringify Op.get_webset_item_exa
           item_args (world_answering (Normal (ok_response VNull))) _
           "/websets/" "/items/" "" "ws_1" "item_7"
           Hop Hr eq_refl eq_refl eq_refl eq_refl eq_refl eq_refl eq_refl).
Defined.

Lemma matched_text_id_keeps_placeholder_witness :
  In Op.get_import_exa import_operations
  /\ In (first_request (sample_run Op.get_import_exa [("importId", VStr "imp_$&_1")]
                          (Normal (ok_response VNull))))
        (requests_of (snd (sample_run Op.get_import_exa [("importId", VStr "imp_$&_1")]
                             (Normal (ok_response VNull)))))
  /\ IMPORT_BY_ID (ENDPOINTS sample_config) = "/imports/" ++ ":importId" ++ ""
  /\ url (first_request (sample_run Op.get_import_exa [("importId", VStr "imp_$&_1")]
                           (Normal (ok_response VNull))))
     = "/imports/imp_:importId_1".
Proof.
  assert (Hop : In Op.get_import_exa import_operations) by (left; reflexivity).
  assert (Hr : In (first_request (sample_run Op.get_import_exa
                                    [("importId", VStr "imp_$&_1")]
                                    (Normal (ok_response VNull))))
                 (requests_of (snd (sample_run Op.get_import_exa
                                      [("importId", VStr "imp_$&_1")]
                                      (Normal (ok_response VNull))))))
    by (left; reflexivity).
  split; [exact Hop |]. split; [exact Hr |]. split; [reflexivity |].
  exact (matched_text_id_keeps_placeholder sample_config sample_stringify Op.get_import_exa
           [("importId", VStr "imp_$&_1")] (world_answering (Normal (ok_response VNull))) _
           "/imports/" "" "imp_" "_1" Hop Hr eq_refl eq_refl eq_refl eq_refl eq_refl).
Defined.

Lemma body_follows_arguments_witness :
  In Op.create_import_exa body_operations
  /\ In (first_request (sample_run Op.create_import_exa create_import_args
                          (Normal (ok_response VNull))))
        (requests_of (snd (sample_run Op.create_import_exa create_import_args
                             (Normal (ok_response VNull)))))
  /\ exists members,
       body (first_request (sample_run Op.create_import_exa create_import_args
                              (Normal (ok_response VNull))))
       = Some (VObj members)
       /\ forall k, lookup k members = body_member Op.create_import_exa create_import_args k.
Proof.
  assert (Hop : In Op.create_import_exa body_operations) by (left; reflexivity).
  assert (Hr : In (first_request (sample_run Op.create_import_exa create_import_args
                                    (Normal (ok_response VNull))))
                 (requests_of (snd (sample_run Op.create_import_exa create_import_args
                                      (Normal (ok_response VNull))))))
    by (left; reflexivity).
  split; [exact Hop |]. split; [exact Hr |].
  exact (body_follows_arguments sample_config sample_stringify Op.create_import_exa
           create_import_args (world_answering (Normal (ok_response VNull))) _ Hop Hr).
Defined.

(** The body of that import: the file type is there, the empty webset
    identifier is not. *)
Example create_import_body :
  body (first_request (sample_run Op.create_import_exa create_import_args
                         (Normal (ok_response VNull))))
  = Some (VObj [("sourceUrl", VStr "https://example.com/leads.csv");
                ("fileType", VStr "csv")]).
Proof. reflexivity. Qed.

Lemma monitor_update_forwards_arguments_witness :
  In (first_request (sample_run Op.update_webset_monitor_exa monitor_update_args
                       (Normal (ok_response VNull))))
     (requests_of (snd (sample_run Op.update_webset_monitor_exa monitor_update_args
                          (Normal (ok_response VNull)))))
  /\ exists members,
       body (first_request (sample_run Op.update_webset_monitor_exa monitor_update_args
                              (Normal (ok_response VNull))))
       = Some (VObj members)
       /\ forall k, lookup k members
                    = if String.eqb k "websetId" || String.eqb k "monitorId"
                      then VUndefined else monitor_update_args!k.
Proof.
  assert (Hr : In (first_request (sample_run Op.update_webset_monitor_exa
                                    monitor_update_args (Normal (ok_response VNull))))
                 (requests_of (snd (sample_run Op.update_webset_monitor_exa
                                      monitor_update_args (Normal (ok_response VNull))))))
    by (left; reflexivity).
  split; [exact Hr |].
  exact (monitor_update_forwards_arguments sample_config sample_stringify
           monitor_update_args (world_answering (Normal (ok_response VNull))) _ Hr).
Defined.

Lemma monitor_update_sends_declared_members_witness :
  parse (input_schema Op.update_webset_monitor_exa) monitor_update_arguments
  = Parsed (VObj [("websetId", VStr "ws_1"); ("monitorId", VStr "mon_1");
                  ("cadence", VStr "daily")])
  /\ body (first_request
             (sample_run Op.update_webset_monitor_exa
                [("websetId", VStr "ws_1"); ("monitorId", VStr "mon_1");
                 ("cadence", VStr "daily")]
                (Normal (ok_response VNull))))
     = Some (VObj [("cadence", VStr "daily")])
  /\ In ("cadence", VStr "daily") [("cadence", VStr "daily")]
  /\ In "cadence" monitor_update_members.
Proof.
  assert (Hparse : parse (input_schema Op.update_webset_monitor_exa)
                     monitor_update_arguments
                   = Parsed (VObj [("websetId", VStr "ws_1"); ("monitorId", VStr "mon_1");
                                   ("cadence", VStr "daily")])) by reflexivity.
  assert (Hin : In ("cadence", VStr "daily") [("cadence", VStr "daily")])
    by (left; reflexivity).
  split; [exact Hparse |]. split; [reflexivity |]. split; [exact Hin |].
  refine (monitor_update_sends_declared_members sample_config sample_stringify
            monitor_update_arguments _ (world_answering (Normal (ok_response VNull)))
            (first_request
               (sample_run Op.update_webset_monitor_exa
                  [("websetId", VStr "ws_1"); ("monitorId", VStr "mon_1");
                   ("cadence", VStr "daily")]
                  (Normal (ok_response VNull))))
            [("cadence", VStr "daily")] "cadence" (VStr "daily") Hparse _ eq_refl Hin).
  left. reflexivity.
Defined.

Lemma filtering_is_idempotent_witness :
  filteredItems (VObj [("titlePattern", VStr "acme")]) (VArr [untitled; titled])
  = Normal (VArr [titled])
  /\ filteredItems (VObj [("titlePattern", VStr "acme")]) (VArr [titled])
     = Normal (VArr [titled]).
Proof.
  assert (Hfirst : filteredItems (VObj [("titlePattern", VStr "acme")])
                     (VArr [untitled; titled]) = Normal (VArr [titled])) by reflexivity.
  split; [exact Hfirst |].
  exact (filtering_is_idempotent (VObj [("titlePattern", VStr "acme")])
           [untitled; titled] [titled] Hfirst).
Defined.

Lemma filters_compose_witness :
  readable_page five_items
  /\ RegExp_new linkedin_pattern "i" = Normal linkedin_regex
  /\ RegExp_new "^a" "i" = Normal starts_with_a
  /\ filteredItems both_patterns (VArr five_items)
     = Normal (VArr [item "item_1" "https://linkedin.com/in/ada" "Ada";
                     item "item_3" "https://LinkedIn.com/company/acme" "Acme"]).
Proof.
  split; [exact five_items_readable |]. split; [reflexivity |]. split; [reflexivity |].
  exact (filters_compose both_patterns five_items linkedin_regex starts_with_a
           five_items_readable (fun _ => eq_refl) (fun _ => eq_refl)).
Defined.

Lemma failed_filtering_is_reported_witness :
  (forall q, network (world_answering (Normal (ok_response five_items_body))) q
             = Normal (ok_response five_items_body))
  /\ filteredItems broken_pattern_args!"filters" (VArr five_items)
     = Throw (JsError "Invalid regular expression: /(/")
  /\ fst (sample_run Op.search_webset_items_exa broken_pattern_args
            (Normal (ok_response five_items_body)))
     = Normal (error_result "Search items error: Invalid regular expression: /(/")
  /\ exists r,
       requests_of (snd (sample_run Op.search_webset_items_exa broken_pattern_args
                           (Normal (ok_response five_items_body)))) = [r].
Proof.
  assert (Hnet : forall q, network (world_answering (Normal (ok_response five_items_body))) q
                           = Normal (ok_response five_items_body)) by reflexivity.
  assert (Hthrow : filteredItems broken_pattern_args!"filters" (VArr five_items)
                   = Throw (JsError "Invalid regular expression: /(/")) by reflexivity.
  assert (Hflag : opt_get broken_pattern_args!"filters" "hasEnrichedData" <> VNull)
    by discriminate.
  split; [exact Hnet |]. split; [exact Hthrow |].
  exact (failed_filtering_is_reported sample_config sample_stringify broken_pattern_args
           (world_answering (Normal (ok_response five_items_body)))
           (ok_response five_items_body) (JsError "Invalid regular expression: /(/")
           Hnet Hflag eq_refl Hthrow eq_refl).
Defined.

Lemma list_items_result_witness :
  (forall q, network (world_answering (Normal (ok_response five_items_body))) q
             = Normal (ok_response five_items_body))
  /\ well_formed_page five_items
  /\ fst (sample_run Op.list_webset_items_exa [("websetId", VStr "ws_1")]
            (Normal (ok_response five_items_body)))
     = Normal (text_result (sample_stringify
          (VObj [("websetId", VStr "ws_1");
                 ("itemCount", VNum 5);
                 ("hasMore", VBool true);
                 ("nextCursor", VStr "cursor_2");
                 ("items", VArr (map list_item_report five_items))]))).
Proof.
  assert (Hnet : forall q, network (world_answering (Normal (ok_response five_items_body))) q
                           = Normal (ok_response five_items_body)) by reflexivity.
  assert (Hflag : lookup "hasEnrichedData" [("websetId", VStr "ws_1")] <> VNull)
    by discriminate.
  split; [exact Hnet |]. split; [exact five_items_well_formed |].
  exact (list_items_result sample_config sample_stringify [("websetId", VStr "ws_1")]
           (world_answering (Normal (ok_response five_items_body)))
           (ok_response five_items_body) five_items Hnet Hflag eq_refl
           five_items_well_formed).
Defined.

Lemma empty_body_outcome_witness :
  (forall q, network (world_answering (Normal (ok_response VNull))) q
             = Normal (ok_response VNull))
  /\ nullish (data (ok_response VNull)) = true
  /\ requests_of (snd (sample_run Op.create_export_exa export_args
                         (Normal (ok_response VNull)))) <> []
  /\ outcome_flagged (fst (sample_run Op.create_export_exa export_args
                             (Normal (ok_response VNull)))) = true.
Proof.
  assert (Hnet : forall q, network (world_answering (Normal (ok_response VNull))) q
                           = Normal (ok_response VNull)) by reflexivity.
  assert (Hids : In Op.create_export_exa batch_operations ->
                 nullish export_args!"itemIds" = false).
  { intros [H | [H | [H | []]]]; discriminate H. }
  assert (Hsent : requests_of (snd (sample_run Op.create_export_exa export_args
                                      (Normal (ok_response VNull)))) <> [])
    by discriminate.
  split; [exact Hnet |]. split; [reflexivity |]. split; [exact Hsent |].
  exact (empty_body_outcome sample_config sample_stringify Op.create_export_exa export_args
           (world_answering (Normal (ok_response VNull))) (ok_response VNull)
           Hnet eq_refl Hids Hsent).
Defined.

(** What the caller sees in that case. *)
Example export_without_body :
  fst (sample_run Op.create_export_exa export_args (Normal (ok_response VNull)))
  = Normal (VObj [("success", VBool false);
                  ("error", VStr "Cannot read properties of null (reading 'status')")]).
Proof. reflexivity. Qed.

Lemma delete_ignores_response_witness :
  In Op.delete_webhook_exa delete_operations
  /\ (forall q, network (world_answering (Normal (ok_response (VStr "gone")))) q
                = Normal (ok_response (VStr "gone")))
  /\ fst (sample_run Op.delete_webhook_exa [("webhookId", VStr "wh_1")]
            (Normal (ok_response (VStr "gone"))))
     = Normal (text_result (VStr "Webhook deleted successfully")).
Proof.
  assert (Hop : In Op.delete_webhook_exa delete_operations) by (do 2 right; left; reflexivity).
  assert (Hnet : forall q, network (world_answering (Normal (ok_response (VStr "gone")))) q
                           = Normal (ok_response (VStr "gone"))) by reflexivity.
  split; [exact Hop |]. split; [exact Hnet |].
  exact (delete_ignores_response sample_config sample_stringify Op.delete_webhook_exa
           [("webhookId", VStr "wh_1")]
           (world_answering (Normal (ok_response (VStr "gone"))))
           (ok_response (VStr "gone")) Hop Hnet).
Defined.

Lemma item_tools_log_their_outcome_witness :
  In Op.get_webset_item_exa logging_operations
  /\ (exists first rest,
        snd (sample_run Op.get_webset_item_exa item_args (Throw not_found)) = first :: rest
        /\ is_start first = true)
  /\ existsb is_complete (snd (sample_run Op.get_webset_item_exa item_args (Throw not_found)))
     = false
  /\ existsb is_error (snd (sample_run Op.get_webset_item_exa item_args (Throw not_found)))
     = true.
Proof.
  assert (Hop : In Op.get_webset_item_exa logging_operations) by (right; left; reflexivity).
  split; [exact Hop |].
  exact (item_tools_log_their_outcome sample_config sample_stringify Op.get_webset_item_exa
           item_args (world_answering (Throw not_found)) Hop).
Defined.

Lemma download_ready_iff_witness :
  (forall q, network (world_answering (Normal (ok_response ready_export))) q
             = Normal (ok_response ready_export))
  /\ nullish (data (ok_response ready_export)) = false
  /\ exists ready,
       fst (get_export_exa sample_config
              [("websetId", VStr "ws_1"); ("exportId", VStr "exp_1")]
              (world_answering (Normal (ok_response ready_export))))
       = Normal (VObj [("success", VBool true);
                       ("data", ready_export);
                       ("downloadReady", VBool ready)])
       /\ (ready = true <->
           prop ready_export "status" = VStr "completed"
           /\ truthy (prop ready_export "downloadUrl") = true).
Proof.
  assert (Hnet : forall q, network (world_answering (Normal (ok_response ready_export))) q
                           = Normal (ok_response ready_export)) by reflexivity.
  split; [exact Hnet |]. split; [reflexivity |].
  exact (download_ready_iff sample_config
           [("websetId", VStr "ws_1"); ("exportId", VStr "exp_1")]
           (world_answering (Normal (ok_response ready_export)))
           (ok_response ready_export) Hnet eq_refl).
Defined.

Lemma timeout_follows_registration_witness :
  In (first_request (sample_run Op.get_import_exa get_import_args
                       (Normal (ok_response VNull))))
     (requests_of (snd (sample_run Op.get_import_exa get_import_args
                          (Normal (ok_response VNull)))))
  /\ timeout (first_request (sample_run Op.get_import_exa get_import_args
                               (Normal (ok_response VNull))))
     = Some 25000%Z.
Proof.
  assert (Hr : In (first_request (sample_run Op.get_import_exa get_import_args
                                    (Normal (ok_response VNull))))
                 (requests_of (snd (sample_run Op.get_import_exa get_import_args
                                      (Normal (ok_response VNull))))))
    by (left; reflexivity).
  split; [exact Hr |].
  exact (timeout_follows_registration sample_config sample_stringify Op.get_import_exa
           get_import_args (world_answering (Normal (ok_response VNull))) _ Hr).
Defined.

Lemma nested_filters_are_flattened_witness :
  In (first_request (sample_run Op.search_webset_items_exa gold_tier_args
                       (Normal (ok_response five_items_body))))
     (requests_of (snd (sample_run Op.search_webset_items_exa gold_tier_args
                          (Normal (ok_response five_items_body)))))
  /\ In ("tier", VStr "gold") (Object_entries (opt_get gold_tier_args!"filters" "metadata"))
  /\ In ("metadata.tier", "gold")
        (serialized_params
           (params (first_request (sample_run Op.search_webset_items_exa gold_tier_args
                                     (Normal (ok_response five_items_body)))))).
Proof.
  assert (Hr : In (first_request (sample_run Op.search_webset_items_exa gold_tier_args
                                    (Normal (ok_response five_items_body))))
                 (requests_of (snd (sample_run Op.search_webset_items_exa gold_tier_args
                                      (Normal (ok_response five_items_body))))))
    by (left; reflexivity).
  assert (Hin : In ("tier", VStr "gold")
                  (Object_entries (opt_get gold_tier_args!"filters" "metadata")))
    by (left; reflexivity).
  split; [exact Hr |]. split; [exact Hin |].
  exact (nested_filters_are_flattened sample_config sample_stringify gold_tier_args
           (world_answering (Normal (ok_response five_items_body))) _
           "metadata" "tier" (VStr "gold") Hr (or_introl eq_refl) eq_refl Hin).
Defined.

Lemma query_values_are_the_arguments_witness :
  In Op.list_webset_items_exa list_operations
  /\ In (list_items_request [("hasEnrichedData", "false")])
        (requests_of (snd (sample_run Op.list_webset_items_exa not_enriched_args
                             (Normal (ok_response five_items_body)))))
  /\ In "hasEnrichedData" (filter_names Op.list_webset_items_exa)
  /\ In ("hasEnrichedData", "false")
        (serialized_params (params (list_items_request [("hasEnrichedData", "false")])))
  /\ "false" = text_of (filter_value Op.list_webset_items_exa not_enriched_args
                           "hasEnrichedData").
Proof.
  assert (Hop : In Op.list_webset_items_exa list_operations).
  { do 6 right. left. reflexivity. }
  assert (Hr : In (list_items_request [("hasEnrichedData", "false")])
                 (requests_of (snd (sample_run Op.list_webset_items_exa not_enriched_args
                                      (Normal (ok_response five_items_body)))))).
  { left. reflexivity. }
  assert (Hk : In "hasEnrichedData" (filter_names Op.list_webset_items_exa)).
  { do 4 right. left. reflexivity. }
  assert (Hin : In ("hasEnrichedData", "false")
                  (serialized_params
                     (params (list_items_request [("hasEnrichedData", "false")])))).
  { left. reflexivity. }
  split; [exact Hop |]. split; [exact Hr |]. split; [exact Hk |]. split; [exact Hin |].
  exact (query_values_are_the_arguments sample_config sample_stringify
           Op.list_webset_items_exa not_enriched_args
           (world_answering (Normal (ok_response five_items_body)))
           (list_items_request [("hasEnrichedData", "false")]) "hasEnrichedData" "false"
           Hop Hr Hk Hin).
Defined.

Lemma default_limit_is_sent_witness :
  parse (input_schema Op.list_exports_exa) (VObj [("websetId", VStr "ws_1")])
  = Parsed (VObj list_exports_args)
  /\ In (first_request (sample_run Op.list_exports_exa list_exports_args
                          (Normal (ok_response three_exports_body))))
        (requests_of (snd (list_exports_exa sample_config list_exports_args
                             (world_answering (Normal (ok_response three_exports_body))))))
  /\ In ("limit", "20")
        (serialized_params
           (params (first_request (sample_run Op.list_exports_exa list_exports_args
                                     (Normal (ok_response three_exports_body)))))).
Proof.
  assert (Hparse : parse (input_schema Op.list_exports_exa) (VObj [("websetId", VStr "ws_1")])
                   = Parsed (VObj list_exports_args)) by reflexivity.
  assert (Hr : In (first_request (sample_run Op.list_exports_exa list_exports_args
                                    (Normal (ok_response three_exports_body))))
                 (requests_of (snd (list_exports_exa sample_config list_exports_args
                                      (world_answering
                                         (Normal (ok_response three_exports_body)))))))
    by (left; reflexivity).
  split; [exact Hparse |]. split; [exact Hr |].
  exact (default_limit_is_sent sample_config [("websetId", VStr "ws_1")] list_exports_args
           (world_answering (Normal (ok_response three_exports_body))) _
           Hparse eq_refl Hr).
Defined.

Lemma body_is_passed_through_witness :
  In Op.list_events_exa passthrough_operations
  /\ (forall q, network (world_answering (Normal (ok_response three_exports_body))) q
                = Normal (ok_response three_exports_body))
  /\ fst (sample_run Op.list_events_exa [("limit", VNum 3)]
            (Normal (ok_response three_exports_body)))
     = Normal (text_result (sample_stringify three_exports_body)).
Proof.
  assert (Hop : In Op.list_events_exa passthrough_operations)
    by (do 14 right; left; reflexivity).
  assert (Hnet : forall q, network (world_answering (Normal (ok_response three_exports_body))) q
                           = Normal (ok_response three_exports_body)) by reflexivity.
  split; [exact Hop |]. split; [exact Hnet |].
  exact (body_is_passed_through sample_config sample_stringify Op.list_events_exa
           [("limit", VNum 3)] (world_answering (Normal (ok_response three_exports_body)))
           (ok_response three_exports_body) Hop Hnet).
Defined.

(** How numbers are printed, and a large limit on its way into the query
    string. *)
Example small_numbers_print_their_digits :
  map string_of_Z [0; 20; -42; 1700000000000; 9007199254740991]%Z
  = ["0"; "20"; "-42"; "1700000000000"; "9007199254740991"].
Proof. reflexivity. Qed.

Example large_numbers_print_as_the_nearest_double :
  map string_of_Z
    [9007199254740993; 9999999999999999; 123456789012345678901;
     1000000000000000000000; 1180591620717411303424;
     100000000000000000000000]%Z
  = ["9007199254740992"; "10000000000000000"; "123456789012345680000";
     "1e+21"; "1.1805916207174113e+21"; "1e+23"].
Proof. vm_compute. reflexivity. Qed.

Example large_limit_is_sent_in_exponent_form :
  map (fun r => serialized_params (params r))
    (requests_of (snd (sample_run Op.list_webset_items_exa
                         [("websetId", VStr "ws_1");
                          ("limit", VNum 1000000000000000000000)]
                         (Normal (ok_response five_items_body)))))
  = [[("limit", "1e+21")]].
Proof. vm_compute. reflexivity. Qed.
